(** * Archon Agent Tester: domain models, gateway client and orchestrator

    A shallow embedding of [src/core/exceptions.py], [src/core/models.py],
    [src/archon/client.py], [src/archon_agent_tester.py] and two commands
    of [src/cli.py], followed by the properties of the specification that
    concern them.  The modules that the source tree does not hold are
    parameters, or are modelled from the specification where a definition
    says so.

    Python objects are modelled as follows.
    - [dict] with string keys: [gmap string V].
    - [int]: [Z]; [float]: IEEE-754 binary64 through [SpecFloat].
    - [str]: [string], a character standing for a code point below 256.
    - exceptions: a class (with its base class) and the text of [str(e)].
    - statements that may raise and that mutate [self]: a state-and-error
      monad in which the state survives a raise, as attribute writes do. *)

From Stdlib Require Import ZArith String Ascii List Bool Lia.
From Stdlib Require Import Floats.SpecFloat.
From stdpp Require Import base option list gmap strings pretty.

Local Open Scope string_scope.
Local Open Scope Z_scope.

(* ===================================================================== *)
(** * Python runtime fragments *)
(* ===================================================================== *)

Module Py.

(** ** Exception classes

    The built-in classes the code can meet, the classes of httpx, json
    and pydantic it names or triggers, and the ten classes of
    [core/exceptions.py].  [UserException n] is any further class that
    derives directly from [Exception]. *)
Inductive pyclass : Type :=
  | BaseException
  | KeyboardInterrupt
  | SystemExit
  | Exception
  | NameError
  | LookupError
  | KeyError
  | TypeError
  | ValueError
  | ArithmeticError
  | OverflowError
  | ValidationError
  | JSONDecodeError
  | HTTPError
  | HTTPStatusError
  | RequestError
  | ArchonAgentTesterError
  | ConfigurationError
  | ArchonAPIError
  | OpenRouterAPIError
  | TestCaseNotFoundError
  | TestSuiteNotFoundError
  | AgentNotFoundError
  | TestExecutionError
  | EvaluationError
  | ReportGenerationError
  | UserException (name : string).

#[global] Instance pyclass_eq_dec : EqDecision pyclass.
Proof. solve_decision. Defined.

(** The direct base class; [core/exceptions.py] lines 6-53 for the last ten. *)
Definition base (c : pyclass) : option pyclass :=
  match c with
  | BaseException => None
  | KeyboardInterrupt | SystemExit | Exception => Some BaseException
  | NameError | LookupError | TypeError | ValueError | ArithmeticError =>
      Some Exception
  | KeyError => Some LookupError
  | OverflowError => Some ArithmeticError
  | ValidationError | JSONDecodeError => Some ValueError
  | HTTPError => Some Exception
  | HTTPStatusError | RequestError => Some HTTPError
  | ArchonAgentTesterError => Some Exception
  | ConfigurationError | ArchonAPIError | OpenRouterAPIError
  | TestCaseNotFoundError | TestSuiteNotFoundError | AgentNotFoundError
  | TestExecutionError | EvaluationError | ReportGenerationError =>
      Some ArchonAgentTesterError
  | UserException _ => Some Exception
  end.

(** The chain of a class and its bases; no chain above is longer than 4. *)
Fixpoint bases_upto (n : nat) (c : pyclass) : list pyclass :=
  c :: match n, base c with
       | S n', Some b => bases_upto n' b
       | _, _ => []
       end.

Definition mro (c : pyclass) : list pyclass := bases_upto 4 c.

Definition issubclass (c d : pyclass) : bool :=
  bool_decide (d ∈ mro c).

(** An exception object: its class and what [str(e)] gives. *)
Record exn : Type := Exn { exn_class : pyclass; exn_str : string }.

Definition isinstance (e : exn) (c : pyclass) : bool :=
  issubclass (exn_class e) c.

(** ** Outcomes and the state-and-error monad *)

Inductive outcome (A : Type) : Type :=
  | Return (a : A)
  | Raise (e : exn).
Arguments Return {A} a.
Arguments Raise {A} e.

Definition py (S A : Type) : Type := S -> outcome A * S.

Definition ret {S A} (a : A) : py S A := fun s => (Return a, s).
Definition raise {S A} (e : exn) : py S A := fun s => (Raise e, s).
Definition bind {S A B} (m : py S A) (k : A -> py S B) : py S B :=
  fun s => match m s with
           | (Return a, s') => k a s'
           | (Raise e, s') => (Raise e, s')
           end.
Definition gets {S A} (f : S -> A) : py S A := fun s => (Return (f s), s).
Definition modify {S} (f : S -> S) : py S unit := fun s => (Return tt, f s).
Definition lift {S A} (o : outcome A) : py S A := fun s => (o, s).

(** ** Name lookup

    A class is reached through the name bound to it in the module that
    runs the statement.  A name bound neither there nor in the built-ins
    raises [NameError] when it is evaluated. *)
Definition namespace : Type := list (string * pyclass).

Definition builtins : namespace :=
  [ ("BaseException", BaseException); ("KeyboardInterrupt", KeyboardInterrupt);
    ("SystemExit", SystemExit); ("Exception", Exception);
    ("NameError", NameError); ("LookupError", LookupError);
    ("KeyError", KeyError); ("TypeError", TypeError);
    ("ValueError", ValueError); ("ArithmeticError", ArithmeticError);
    ("OverflowError", OverflowError) ].

Fixpoint assoc (n : string) (ns : namespace) : option pyclass :=
  match ns with
  | [] => None
  | (k, c) :: ns' => if String.eqb k n then Some c else assoc n ns'
  end.

Definition lookup_name (globals : namespace) (n : string) : option pyclass :=
  match assoc n globals with
  | Some c => Some c
  | None => assoc n builtins
  end.

Definition name_error (n : string) : exn :=
  Exn NameError ("name '" +:+ n +:+ "' is not defined").

(** [raise N(msg)] where [N] is a name of the module. *)
Definition raise_named {S A} (globals : namespace) (n msg : string) : py S A :=
  match lookup_name globals n with
  | Some c => raise (Exn c msg)
  | None => raise (name_error n)
  end.

(** The names of one [except] clause, evaluated left to right. *)
Fixpoint lookup_names (globals : namespace) (ns : list string)
  : outcome (list pyclass) :=
  match ns with
  | [] => Return []
  | n :: ns' =>
      match lookup_name globals n with
      | None => Raise (name_error n)
      | Some c =>
          match lookup_names globals ns' with
          | Return cs => Return (c :: cs)
          | Raise e => Raise e
          end
      end
  end.

(** ** try / except

    The clauses are tried in order.  The expression of a clause is
    evaluated only when the clause is reached, and an exception raised by
    a handler is not offered to the clauses of the same [try]. *)
Record clause (S A : Type) : Type :=
  Except { cl_names : list string; cl_body : exn -> py S A }.
Arguments Except {S A} cl_names cl_body.
Arguments cl_names {S A} c.
Arguments cl_body {S A} c.

Fixpoint dispatch {S A} (globals : namespace) (e : exn)
    (cls : list (clause S A)) : py S A :=
  match cls with
  | [] => raise e
  | cl :: cls' =>
      match lookup_names globals (cl_names cl) with
      | Raise ne => raise ne
      | Return cs =>
          if existsb (isinstance e) cs then cl_body cl e
          else dispatch globals e cls'
      end
  end.

Definition try_except {S A} (globals : namespace) (body : py S A)
    (cls : list (clause S A)) : py S A :=
  fun s => match body s with
           | (Return a, s') => (Return a, s')
           | (Raise e, s') => dispatch globals e cls s'
           end.

(** ** Values of loosely typed mappings

    What [json()] decodes and what the [Dict] fields of the models hold,
    as a tagged union. *)
#[warnings="-register-all"] Inductive pyval : Type :=
  | PNone
  | PBool (b : bool)
  | PInt (n : Z)
  | PFloat (f : spec_float)
  | PStr (s : string)
  | PList (l : list pyval)
  | PDict (d : list (string * pyval)).

Fixpoint dict_get (k : string) (d : list (string * pyval)) : option pyval :=
  match d with
  | [] => None
  | (k', v) :: d' => if String.eqb k' k then Some v else dict_get k d'
  end.

(** [v[k]] for a string key [k]. *)
Definition getitem (v : pyval) (k : string) : outcome pyval :=
  match v with
  | PDict d =>
      match dict_get k d with
      | Some x => Return x
      | None => Raise (Exn KeyError ("'" +:+ k +:+ "'"))
      end
  | PList _ =>
      Raise (Exn TypeError "list indices must be integers or slices, not str")
  | PStr _ => Raise (Exn TypeError "string indices must be integers")
  | PNone => Raise (Exn TypeError "'NoneType' object is not subscriptable")
  | PBool _ => Raise (Exn TypeError "'bool' object is not subscriptable")
  | PInt _ => Raise (Exn TypeError "'int' object is not subscriptable")
  | PFloat _ => Raise (Exn TypeError "'float' object is not subscriptable")
  end.

(** [str.capitalize()] on ASCII text: first letter upper case, the others
    lower case. *)
Definition upper_ascii (c : ascii) : ascii :=
  let n := nat_of_ascii c in
  if ((97 <=? n) && (n <=? 122))%nat then ascii_of_nat (n - 32) else c.

Definition lower_ascii (c : ascii) : ascii :=
  let n := nat_of_ascii c in
  if ((65 <=? n) && (n <=? 90))%nat then ascii_of_nat (n + 32) else c.

Fixpoint map_string (f : ascii -> ascii) (s : string) : string :=
  match s with
  | EmptyString => EmptyString
  | String c r => String (f c) (map_string f r)
  end.

Definition capitalize (s : string) : string :=
  match s with
  | EmptyString => EmptyString
  | String c r => String (upper_ascii c) (map_string lower_ascii r)
  end.

Definition nl : string := String (ascii_of_nat 10) EmptyString.

(** ** repr of a str

    [repr(s)] as [%r] formats it.  The text is put between single quotes,
    or between double quotes when it holds a single quote and no double
    quote; the enclosing quote and the backslash are escaped with a
    backslash, tab, line feed and carriage return are written [\t], [\n]
    and [\r], and any other character that [str.isprintable] refuses is
    written [\xNN] in lower-case hexadecimal.  Below 256 the characters
    refused are the control characters 0-31 and 127-159, the no-break
    space 160 and the soft hyphen 173. *)
Definition single_quote : ascii := ascii_of_nat 39.
Definition double_quote : ascii := ascii_of_nat 34.
Definition backslash : ascii := ascii_of_nat 92.

Fixpoint contains_char (c : ascii) (s : string) : bool :=
  match s with
  | EmptyString => false
  | String d r => Ascii.eqb c d || contains_char c r
  end.

Definition hex_digit (n : nat) : ascii :=
  default "0"%char (String.get n "0123456789abcdef").

Definition isprintable (n : nat) : bool :=
  (((32 <=? n) && (n <=? 126)) || ((161 <=? n) && negb (n =? 173)))%nat.

Definition repr_char (q c : ascii) : string :=
  let n := nat_of_ascii c in
  if Ascii.eqb c q || Ascii.eqb c backslash
  then String backslash (String c EmptyString)
  else if (n =? 9)%nat then String backslash "t"
  else if (n =? 10)%nat then String backslash "n"
  else if (n =? 13)%nat then String backslash "r"
  else if isprintable n then String c EmptyString
  else String backslash
         (String "x" (String (hex_digit (n / 16))
                        (String (hex_digit (n mod 16)) EmptyString))).

Fixpoint escaped (q : ascii) (s : string) : string :=
  match s with
  | EmptyString => EmptyString
  | String c r => repr_char q c +:+ escaped q r
  end.

Definition repr_str (s : string) : string :=
  let q := if contains_char single_quote s && negb (contains_char double_quote s)
           then double_quote else single_quote in
  String q (escaped q s +:+ String q EmptyString).

(** ** float (binary64) *)

Definition prec : Z := 53.
Definition emax : Z := 1024.

(** [a / b] on ints with [b > 0]: the quotient correctly rounded to the
    nearest binary64, ties to even; too large a quotient raises. *)
Definition int_truediv (a : Z) (b : positive) : outcome spec_float :=
  let q := match a with
           | Z0 => S754_zero false
           | Zpos m => SFdiv prec emax (S754_finite false m 0) (S754_finite false b 0)
           | Zneg m => SFdiv prec emax (S754_finite true m 0) (S754_finite false b 0)
           end in
  match q with
  | S754_infinity _ =>
      Raise (Exn OverflowError "integer division result too large for a float")
  | _ => Return q
  end.

(** [float(n)] for an int [n] that a binary64 can hold. *)
Definition float_of_int (n : Z) : spec_float :=
  binary_normalize prec emax n 0 false.

Definition float_mul (x y : spec_float) : spec_float := SFmul prec emax x y.

(** The integer part of a positive magnitude [m * 2^e]. *)
Definition magnitude_floor (m : positive) (e : Z) : Z :=
  match e with
  | Zneg p => Z.shiftr (Zpos m) (Zpos p)
  | _ => Z.shiftl (Zpos m) e
  end.

(** [int(x)]: truncation towards zero. *)
Definition int_of_float (x : spec_float) : outcome Z :=
  match x with
  | S754_zero _ => Return 0
  | S754_finite s m e => Return (cond_Zopp s (magnitude_floor m e))
  | S754_infinity _ =>
      Raise (Exn OverflowError "cannot convert float infinity to integer")
  | S754_nan => Raise (Exn ValueError "cannot convert float NaN to integer")
  end.

(** [round(x)] with one argument: the nearest int, ties to even. *)
Definition round_float (x : spec_float) : outcome Z :=
  match x with
  | S754_zero _ => Return 0
  | S754_finite s m e =>
      let q := magnitude_floor m e in
      let up :=
        match e with
        | Zneg p =>
            let r := Zpos m - Z.shiftl q (Zpos p) in
            match Z.compare (2 * r) (Z.shiftl 1 (Zpos p)) with
            | Lt => false
            | Gt => true
            | Eq => Z.odd q
            end
        | _ => false
        end in
      Return (cond_Zopp s (if up then q + 1 else q))
  | S754_infinity _ =>
      Raise (Exn OverflowError "cannot convert float infinity to integer")
  | S754_nan => Raise (Exn ValueError "cannot convert float NaN to integer")
  end.

(** ** datetime

    What subtraction reads of a [datetime]: the microseconds that its
    calendar fields count on its own wall clock, and its [tzinfo].  A
    naive datetime has none.  The [tzinfo] of an aware one is held as the
    name of the object, since subtraction compares the [tzinfo] of its
    operands by identity, together with the offset from UTC that
    [utcoffset()] gives for this datetime, in microseconds.  Two datetimes
    may share a [tzinfo] and differ in offset, as on the two sides of a
    daylight-saving change.  A [tzinfo] whose [utcoffset()] gives [None]
    is left out: the time zones of the standard library and of pydantic's
    parser always give an offset. *)
Record datetime : Type :=
  Datetime { dt_micros : Z; dt_tzinfo : option (string * Z) }.

Definition dt_aware (d : datetime) : bool :=
  bool_decide (is_Some (dt_tzinfo d)).

Definition utcoffset (d : datetime) : option Z := snd <$> dt_tzinfo d.

(** [a.tzinfo is b.tzinfo] *)
Definition same_tzinfo (a b : datetime) : bool :=
  match dt_tzinfo a, dt_tzinfo b with
  | None, None => true
  | Some (n, _), Some (m, _) => String.eqb n m
  | _, _ => false
  end.

(** [a - b]: a timedelta, held as its total of microseconds.  The
    difference of the two wall clocks when both operands have the same
    [tzinfo] (two naive ones included); otherwise the difference of the
    two instants on UTC, and [TypeError] when only one is aware. *)
Definition datetime_sub (a b : datetime) : outcome Z :=
  let base := dt_micros a - dt_micros b in
  if same_tzinfo a b then Return base
  else match utcoffset a, utcoffset b with
       | Some myoff, Some otoff => Return (base + otoff - myoff)
       | None, None => Return base
       | _, _ =>
           Raise (Exn TypeError
                    "can't subtract offset-naive and offset-aware datetimes")
       end.

(** [timedelta.total_seconds()]: the microseconds divided by [10**6]. *)
Definition total_seconds (td : Z) : outcome spec_float :=
  int_truediv td 1000000.

End Py.

(* ===================================================================== *)
(** * core/models.py *)
(* ===================================================================== *)

Module Models.
Import Py.

Inductive TestStatus : Type :=
  | PENDING | RUNNING | PASSED | FAILED | ERROR | SKIPPED.

Definition TestStatus_value (s : TestStatus) : string :=
  match s with
  | PENDING => "pending"
  | RUNNING => "running"
  | PASSED => "passed"
  | FAILED => "failed"
  | ERROR => "error"
  | SKIPPED => "skipped"
  end.

Inductive TestType : Type :=
  | FUNCTIONAL | PERFORMANCE | RELIABILITY | SAFETY | CUSTOM.

Definition TestType_value (t : TestType) : string :=
  match t with
  | FUNCTIONAL => "functional"
  | PERFORMANCE => "performance"
  | RELIABILITY => "reliability"
  | SAFETY => "safety"
  | CUSTOM => "custom"
  end.

(** [TestType(s)]: the member whose value is [s]; for any other [s] the
    enum raises [ValueError("%r is not a valid %s" % (s, "TestType"))]. *)
Definition TestType_of_value (s : string) : outcome TestType :=
  match find (fun t => String.eqb (TestType_value t) s)
             [FUNCTIONAL; PERFORMANCE; RELIABILITY; SAFETY; CUSTOM] with
  | Some t => Return t
  | None => Raise (Exn ValueError (repr_str s +:+ " is not a valid TestType"))
  end.

(** ** pydantic field validation

    A [ValueError] or [TypeError] raised by a validator of a field is
    reported as the [ValidationError] of the model; any other exception
    leaves the constructor as it is. *)
Definition validation_error (model field : string) (e : exn) : exn :=
  Exn ValidationError
      ("1 validation error for " +:+ model +:+ nl +:+ field +:+ nl +:+
       "  " +:+ exn_str e +:+
       (if isinstance e ValueError then " (type=value_error)"
        else " (type=type_error)")).

Definition run_validator {A} (model field : string) (o : outcome A)
  : outcome A :=
  match o with
  | Return a => Return a
  | Raise e =>
      if isinstance e ValueError || isinstance e TypeError
      then Raise (validation_error model field e)
      else Raise e
  end.

(** ** TestCase *)

(** A value of [inputs] and of [expected_outputs], lines 38-39:
    [Union[str, List[str], Dict]]. *)
Inductive input_value : Type :=
  | InStr (s : string)
  | InList (l : list string)
  | InDict (d : list (string * pyval)).

(** A value of [evaluation_criteria], line 40: [Union[str, float, Dict]]. *)
Inductive criterion_value : Type :=
  | CrStr (s : string)
  | CrFloat (f : spec_float)
  | CrDict (d : list (string * pyval)).

Record TestCase : Type := MkTestCase {
  tc_id : string;
  tc_name : string;
  tc_description : string;
  tc_test_type : TestType;
  tc_inputs : gmap string input_value;
  tc_expected_outputs : option (gmap string input_value);
  tc_evaluation_criteria : gmap string criterion_value;
  tc_tags : list string;
  tc_timeout : Z
}.

(** pydantic validates a value against the members of a [Union] from
    left to right and stores what the first member that accepts it makes
    of it.

    [Union[str, List[str], Dict]]: [str] keeps a str and refuses a list
    and a dict; [List[str]] keeps a list of str and refuses a dict;
    [Dict] keeps a dict. *)
Definition validate_input_value (v : input_value) : input_value :=
  match v with
  | InStr s => InStr s
  | InList l => InList l
  | InDict d => InDict d
  end.

(** [Union[str, float, Dict]]: [str] comes first, keeps a str and turns
    a float [f] into [str(f)], so that no float is ever stored; a dict is
    refused by [str] and by [float] and kept by [Dict].  [str_float] is
    the built-in [str] on floats. *)
Definition validate_criterion_value (str_float : spec_float -> string)
    (v : criterion_value) : criterion_value :=
  match v with
  | CrStr s => CrStr s
  | CrFloat f => CrStr (str_float f)
  | CrDict d => CrDict d
  end.

(** [validate_criteria], lines 44-49: [not v] on a dict is [len(v) == 0]. *)
Definition validate_criteria (v : gmap string criterion_value)
  : outcome (gmap string criterion_value) :=
  if (size v =? 0)%nat
  then Raise (Exn ValueError
                "At least one evaluation criterion must be provided")
  else Return v.

(** [TestCase(...)], for arguments of the annotated types; [tags] and
    [timeout] may be left out.  Each mapping is stored with its values
    validated, and [validate_criteria] runs on the validated mapping. *)
Definition TestCase_new (str_float : spec_float -> string)
    (id name description : string) (test_type : TestType)
    (inputs : gmap string input_value)
    (expected_outputs : option (gmap string input_value))
    (evaluation_criteria : gmap string criterion_value)
    (tags : option (list string)) (timeout : option Z) : outcome TestCase :=
  let inputs' := validate_input_value <$> inputs in
  let expected_outputs' :=
    match expected_outputs with
    | Some outputs => Some (validate_input_value <$> outputs)
    | None => None
    end in
  match run_validator "TestCase" "evaluation_criteria"
          (validate_criteria
             (validate_criterion_value str_float <$> evaluation_criteria)) with
  | Raise e => Raise e
  | Return crit =>
      Return {| tc_id := id; tc_name := name; tc_description := description;
                tc_test_type := test_type; tc_inputs := inputs';
                tc_expected_outputs := expected_outputs';
                tc_evaluation_criteria := crit;
                tc_tags := default [] tags;
                tc_timeout := default 30 timeout |}
  end.

(** ** TestResult *)

Record TestResult : Type := MkTestResult {
  tr_test_case_id : string;
  tr_agent_id : string;
  tr_status : TestStatus;
  tr_start_time : datetime;
  tr_end_time : option datetime;
  tr_duration_ms : option Z;
  tr_inputs : gmap string pyval;
  tr_actual_outputs : option (gmap string pyval);
  tr_metrics : gmap string spec_float;
  tr_errors : list string;
  tr_logs : list string
}.

Definition pending_or_running (s : TestStatus) : bool :=
  match s with
  | PENDING | RUNNING => true
  | _ => false
  end.

(** [set_end_time], lines 68-73; [now] is what [datetime.now()] reads. *)
Definition set_end_time (now : datetime) (v : option datetime)
    (status : TestStatus) : option datetime :=
  match v with
  | None => if negb (pending_or_running status) then Some now else v
  | Some _ => v
  end.

(** The arithmetic of line 82: [int((end - start).total_seconds() * 1000)]. *)
Definition duration_of (end_ start : datetime) : outcome Z :=
  match datetime_sub end_ start with
  | Raise e => Raise e
  | Return td =>
      match total_seconds td with
      | Raise e => Raise e
      | Return secs => int_of_float (float_mul secs (float_of_int 1000))
      end
  end.

(** [calculate_duration], lines 75-83.  A datetime is always truthy, so
    the tests on [end_time] and [start_time] ask whether they are set;
    [start_time] is a required field. *)
Definition calculate_duration (v : option Z) (end_time : option datetime)
    (start_time : datetime) : outcome (option Z) :=
  match v, end_time with
  | None, Some end_ =>
      match duration_of end_ start_time with
      | Raise e => Raise e
      | Return d => Return (Some d)
      end
  | _, _ => Return v
  end.

(** [TestResult(...)]; fields are validated in the order of declaration. *)
Definition TestResult_new (now : datetime) (test_case_id agent_id : string)
    (status : TestStatus) (start_time : datetime)
    (end_time : option datetime) (duration_ms : option Z)
    (inputs : gmap string pyval)
    (actual_outputs : option (gmap string pyval))
    (metrics : option (gmap string spec_float))
    (errors logs : option (list string)) : outcome TestResult :=
  let end_time' := set_end_time now end_time status in
  match run_validator "TestResult" "duration_ms"
          (calculate_duration duration_ms end_time' start_time) with
  | Raise e => Raise e
  | Return duration' =>
      Return {| tr_test_case_id := test_case_id; tr_agent_id := agent_id;
                tr_status := status; tr_start_time := start_time;
                tr_end_time := end_time'; tr_duration_ms := duration';
                tr_inputs := inputs; tr_actual_outputs := actual_outputs;
                tr_metrics := default ∅ metrics;
                tr_errors := default [] errors;
                tr_logs := default [] logs |}
  end.

(** ** TestSuite *)

Record TestSuite : Type := MkTestSuite {
  ts_id : string;
  ts_name : string;
  ts_description : string;
  ts_test_cases : list string;
  ts_tags : list string;
  ts_created_at : datetime;
  ts_updated_at : datetime
}.

(** ** TestRun *)

Record TestRun : Type := MkTestRun {
  run_id : string;
  run_agent_id : string;
  run_test_suite_id : string;
  run_status : TestStatus;
  run_start_time : datetime;
  run_end_time : option datetime;
  run_results : list string;
  run_summary : gmap string Z
}.

(** [calculate_summary], lines 112-125. *)
Definition calculate_summary (v : gmap string Z) (results : list string)
  : gmap string Z :=
  if (size v =? 0)%nat && negb (length results =? 0)%nat
  then list_to_map
         [ ("total", Z.of_nat (length results));
           ("pending", 0); ("passed", 0); ("failed", 0);
           ("error", 0); ("skipped", 0) ]
  else v.

(** [TestRun(...)]; [results] and [summary] default to an empty list and
    an empty dict, and the summary validator runs on the default too. *)
Definition TestRun_new (id agent_id test_suite_id : string)
    (status : TestStatus) (start_time : datetime)
    (end_time : option datetime) (results : option (list string))
    (summary : option (gmap string Z)) : TestRun :=
  let results' := default [] results in
  {| run_id := id; run_agent_id := agent_id;
     run_test_suite_id := test_suite_id; run_status := status;
     run_start_time := start_time; run_end_time := end_time;
     run_results := results';
     run_summary := calculate_summary (default ∅ summary) results' |}.

(** The per-status counts of a summary, read as [summary.get(k, 0)]. *)
Definition status_keys : list string :=
  ["pending"; "passed"; "failed"; "error"; "skipped"].

Definition summary_get (s : gmap string Z) (k : string) : Z :=
  default 0 (s !! k).

Definition counts_sum (s : gmap string Z) : Z :=
  foldr (fun k acc => summary_get s k + acc) 0 status_keys.

End Models.

(* ===================================================================== *)
(** * archon/client.py *)
(* ===================================================================== *)

Module Client.
Import Py.

(** What the code reads of an [httpx.Response]: the status code, the
    body text, and the body decoded as JSON, or the text of the decoding
    error when the body is not JSON. *)
Record Response : Type := MkResponse {
  status_code : Z;
  text : string;
  decoded : pyval + string
}.

(** [Response.json()]: the decoded body; a body that does not decode
    raises [JSONDecodeError], a [ValueError]. *)
Definition json (r : Response) : outcome pyval :=
  match decoded r with
  | inl v => Return v
  | inr msg => Raise (Exn JSONDecodeError msg)
  end.

(** [httpx.Client] as the client uses it, over a world [W] that stands
    for the network and the remote service. *)
Record Transport (W : Type) : Type := MkTransport {
  http_get : string -> py W Response;
  http_post : string -> pyval -> py W Response
}.
Arguments http_get {W} t _ _.
Arguments http_post {W} t _ _ _.

(** Lines 7-10: the names the module binds. *)
Definition globals : namespace :=
  [ ("httpx.HTTPStatusError", HTTPStatusError);
    ("ArchonAPIError", ArchonAPIError);
    ("AgentNotFoundError", AgentNotFoundError) ].

(** [Response.is_success] and [Response.raise_for_status] of httpx: a
    status outside 200..299 raises [HTTPStatusError]. *)
Definition is_success (r : Response) : bool :=
  (200 <=? status_code r) && (status_code r <=? 299).

Definition raise_for_status (r : Response) : outcome unit :=
  if is_success r then Return tt
  else Raise (Exn HTTPStatusError
                ("HTTP status " +:+ pretty (status_code r))).

Section WithTransport.
Context {W : Type} (tr : Transport W).

(** [_handle_response], lines 46-67.  The [response] of the caught
    [HTTPStatusError] is the response it was raised for. *)
Definition _handle_response (response : Response) : py W pyval :=
  try_except globals
    (bind (lift (raise_for_status response)) (fun _ =>
     lift (json response)))
    [ Except ["httpx.HTTPStatusError"] (fun e =>
        if status_code response =? 404
        then raise_named globals "AgentNotFoundError"
               ("Agent not found: " +:+ text response)
        else raise_named globals "ArchonAPIError"
               ("API error: " +:+ pretty (status_code response) +:+ " - "
                +:+ text response));
      Except ["Exception"] (fun e =>
        raise_named globals "ArchonAPIError"
          ("Error processing response: " +:+ exn_str e)) ].

(** [get_agent], lines 69-89. *)
Definition get_agent (agent_id : string) : py W pyval :=
  try_except globals
    (bind (http_get tr ("/agents/" +:+ agent_id)) (fun response =>
     _handle_response response))
    [ Except ["AgentNotFoundError"] (fun e => raise e);
      Except ["Exception"] (fun e =>
        raise_named globals "ArchonAPIError"
          ("Error getting agent " +:+ agent_id +:+ ": " +:+ exn_str e)) ].

(** [invoke_agent], lines 111-132. *)
Definition invoke_agent (agent_id : string) (inputs : list (string * pyval))
  : py W pyval :=
  try_except globals
    (bind (http_post tr ("/agents/" +:+ agent_id +:+ "/invoke")
             (PDict [("inputs", PDict inputs)])) (fun response =>
     _handle_response response))
    [ Except ["AgentNotFoundError"] (fun e => raise e);
      Except ["Exception"] (fun e =>
        raise_named globals "ArchonAPIError"
          ("Error invoking agent " +:+ agent_id +:+ ": " +:+ exn_str e)) ].

End WithTransport.
End Client.

(* ===================================================================== *)
(** * archon_agent_tester.py *)
(* ===================================================================== *)

Module Tester.
Import Py Models.

(** Lines 8-13: the classes the module imports.  [TestRunNotFoundError]
    is not among them, and [core/exceptions.py] does not define it. *)
Definition globals : namespace :=
  [ ("ArchonAgentTesterError", ArchonAgentTesterError);
    ("ConfigurationError", ConfigurationError);
    ("ArchonAPIError", ArchonAPIError);
    ("OpenRouterAPIError", OpenRouterAPIError);
    ("TestCaseNotFoundError", TestCaseNotFoundError);
    ("TestSuiteNotFoundError", TestSuiteNotFoundError);
    ("AgentNotFoundError", AgentNotFoundError);
    ("TestExecutionError", TestExecutionError);
    ("EvaluationError", EvaluationError);
    ("ReportGenerationError", ReportGenerationError) ].

(** The collaborators whose modules are not part of the source tree
    ([archon/adapter.py], [execution/engine.py],
    [reporting/generators.py]), the uuid source and the built-in [str],
    over the same world [W] as the transport. *)
Record Collaborators (W : Type) : Type := MkCollaborators {
  transport : Client.Transport W;
  str_of : pyval -> string;
  uuid4 : W -> string * W;
  generate_test_cases_for_agent : string -> TestType -> py W (list TestCase);
  create_test_suite :
    string -> list TestCase -> string -> string -> py W TestSuite;
  update_agent_with_test_results : string -> TestRun -> py W unit;
  execute_test_suite :
    gmap string TestCase -> gmap string TestSuite ->
    string -> string -> py W TestRun;
  render_report :
    gmap string TestCase -> gmap string TestSuite -> gmap string TestRun ->
    string -> string -> py W string
}.
Arguments transport {W} c.
Arguments str_of {W} c _.
Arguments uuid4 {W} c _.
Arguments generate_test_cases_for_agent {W} c _ _ _.
Arguments create_test_suite {W} c _ _ _ _ _.
Arguments update_agent_with_test_results {W} c _ _ _.
Arguments execute_test_suite {W} c _ _ _ _ _.
Arguments render_report {W} c _ _ _ _ _ _.

(** The state of an [ArchonTester]: its three registries (lines 68-70),
    the registries of its execution engine and of its report generator,
    and the world. *)
Record ArchonTester (W : Type) : Type := MkArchonTester {
  test_cases : gmap string TestCase;
  test_suites : gmap string TestSuite;
  test_runs : gmap string TestRun;
  engine_test_cases : gmap string TestCase;
  engine_test_suites : gmap string TestSuite;
  report_test_cases : gmap string TestCase;
  report_test_suites : gmap string TestSuite;
  report_test_runs : gmap string TestRun;
  world : W
}.
Arguments MkArchonTester {W}.
Arguments test_cases {W} a.
Arguments test_suites {W} a.
Arguments test_runs {W} a.
Arguments engine_test_cases {W} a.
Arguments engine_test_suites {W} a.
Arguments report_test_cases {W} a.
Arguments report_test_suites {W} a.
Arguments report_test_runs {W} a.
Arguments world {W} a.

Section WithCollaborators.
Context {W : Type} (env : Collaborators W).

Abbreviation T := (ArchonTester W).

Notation "'let*' x := c 'in' k" := (bind c (fun x => k))
  (at level 10, x name, c at level 100, k at level 200).
Notation "'do*' c 'then' k" := (bind c (fun _ => k))
  (at level 10, c at level 100, k at level 200).

(** A call that touches only the world. *)
Definition set_world (w : W) (t : T) : T :=
  MkArchonTester (test_cases t) (test_suites t) (test_runs t)
    (engine_test_cases t) (engine_test_suites t)
    (report_test_cases t) (report_test_suites t) (report_test_runs t) w.

Definition in_world {A} (m : py W A) : py T A :=
  fun t => let '(o, w) := m (world t) in (o, set_world w t).

(** [self.test_cases[k] = v] and its siblings. *)
Definition set_test_case (k : string) (v : TestCase) (t : T) : T :=
  MkArchonTester (<[k := v]> (test_cases t)) (test_suites t) (test_runs t)
    (engine_test_cases t) (engine_test_suites t)
    (report_test_cases t) (report_test_suites t) (report_test_runs t)
    (world t).

Definition set_test_suite (k : string) (v : TestSuite) (t : T) : T :=
  MkArchonTester (test_cases t) (<[k := v]> (test_suites t)) (test_runs t)
    (engine_test_cases t) (engine_test_suites t)
    (report_test_cases t) (report_test_suites t) (report_test_runs t)
    (world t).

Definition set_test_run (k : string) (v : TestRun) (t : T) : T :=
  MkArchonTester (test_cases t) (test_suites t) (<[k := v]> (test_runs t))
    (engine_test_cases t) (engine_test_suites t)
    (report_test_cases t) (report_test_suites t) (report_test_runs t)
    (world t).

(** Modelled from the spec: [TestExecutionEngine.register_test_case] of
    [execution/engine.py], which is not in the source tree; section 4.1
    has it as an idempotent upsert keyed by id that stores the given
    value and overwrites an earlier one. *)
Definition register_test_case (tc : TestCase) : py T unit :=
  modify (fun t =>
    MkArchonTester (test_cases t) (test_suites t) (test_runs t)
      (<[tc_id tc := tc]> (engine_test_cases t)) (engine_test_suites t)
      (report_test_cases t) (report_test_suites t) (report_test_runs t)
      (world t)).

(** Modelled from the spec: [TestExecutionEngine.register_test_suite] of
    [execution/engine.py], which is not in the source tree; section 4.1
    has it as an idempotent upsert keyed by id. *)
Definition register_test_suite (s : TestSuite) : py T unit :=
  modify (fun t =>
    MkArchonTester (test_cases t) (test_suites t) (test_runs t)
      (engine_test_cases t) (<[ts_id s := s]> (engine_test_suites t))
      (report_test_cases t) (report_test_suites t) (report_test_runs t)
      (world t)).

(** A [for] loop over a list. *)
Fixpoint for_each {A} (l : list A) (f : A -> py T unit) : py T unit :=
  match l with
  | [] => ret tt
  | x :: l' => do* f x then for_each l' f
  end.

(** Lines 96-126 of [test_agent]: the suite to run. *)
Definition determine_suite (agent_id : string) (agent : pyval)
    (test_suite : string + TestSuite) : py T TestSuite :=
  match test_suite with
  | inl kind =>
      let* test_type := lift (TestType_of_value kind) in
      let* cases :=
        in_world (generate_test_cases_for_agent env agent_id test_type) in
      do* for_each cases (fun test_case =>
            do* modify (set_test_case (tc_id test_case) test_case) then
            register_test_case test_case) then
      let* name := lift (getitem agent "name") in
      let suite_name :=
        str_of env name +:+ " - " +:+ capitalize kind +:+ " Tests" in
      let* name' := lift (getitem agent "name") in
      let* suite_to_run :=
        in_world (create_test_suite env agent_id cases suite_name
                    (capitalize kind +:+ " tests for " +:+ str_of env name')) in
      do* modify (set_test_suite (ts_id suite_to_run) suite_to_run) then
      do* register_test_suite suite_to_run then
      ret suite_to_run
  | inr suite_to_run =>
      let* known :=
        gets (fun t =>
                bool_decide (is_Some (test_suites t !! ts_id suite_to_run))) in
      do* (if known then ret tt
           else do* modify (set_test_suite (ts_id suite_to_run) suite_to_run) then
                register_test_suite suite_to_run) then
      ret suite_to_run
  end.

(** Lines 93-132: fetch the agent, determine the suite, execute it and
    store the run. *)
Definition execute_and_store (agent_id : string)
    (test_suite : string + TestSuite) : py T TestRun :=
  let* agent := in_world (Client.get_agent (transport env) agent_id) in
  let* suite_to_run := determine_suite agent_id agent test_suite in
  let* test_run :=
    (fun t => in_world (execute_test_suite env (engine_test_cases t)
                          (engine_test_suites t) (ts_id suite_to_run)
                          agent_id) t) in
  do* modify (set_test_run (run_id test_run) test_run) then
  ret test_run.

(** Lines 93-137: the block under [try]. *)
Definition test_agent_body (agent_id : string)
    (test_suite : string + TestSuite) : py T TestRun :=
  let* test_run := execute_and_store agent_id test_suite in
  do* in_world (update_agent_with_test_results env agent_id test_run) then
  ret test_run.

(** [test_agent], lines 72-141. *)
Definition test_agent (agent_id : string) (test_suite : string + TestSuite)
  : py T TestRun :=
  try_except globals
    (test_agent_body agent_id test_suite)
    [ Except ["AgentNotFoundError"; "TestSuiteNotFoundError"]
        (fun e => raise e);
      Except ["Exception"] (fun e =>
        raise_named globals "ArchonAgentTesterError"
          ("Error testing agent " +:+ agent_id +:+ ": " +:+ exn_str e)) ].

(** Lines 179-184 of [generate_report]: hand the registries to the report
    generator and render. [dict.update] lets the argument win. *)
Definition report_registered (run_to_report : TestRun) (format : string)
  : py T string :=
  do* modify (fun t =>
        MkArchonTester (test_cases t) (test_suites t) (test_runs t)
          (engine_test_cases t) (engine_test_suites t)
          (test_cases t ∪ report_test_cases t)
          (test_suites t ∪ report_test_suites t)
          (<[run_id run_to_report := run_to_report]> (report_test_runs t))
          (world t)) then
  (fun t => in_world (render_report env (report_test_cases t)
              (report_test_suites t) (report_test_runs t)
              (run_id run_to_report) format) t).

(** [generate_report], lines 143-188. *)
Definition generate_report (test_run : string + TestRun) (format : string)
  : py T string :=
  try_except globals
    (let* run_to_report :=
       match test_run with
       | inl run_name =>
           let* found := gets (fun t => test_runs t !! run_name) in
           match found with
           | None =>
               raise_named globals "TestRunNotFoundError"
                 ("Test run " +:+ run_name +:+ " not found")
           | Some run => ret run
           end
       | inr run =>
           let* known :=
             gets (fun t =>
                     bool_decide (is_Some (test_runs t !! run_id run))) in
           do* (if known then ret tt
                else modify (set_test_run (run_id run) run)) then
           ret run
       end in
     report_registered run_to_report format)
    [ Except ["TestRunNotFoundError"] (fun e => raise e);
      Except ["Exception"] (fun e =>
        raise_named globals "ReportGenerationError"
          ("Error generating report: " +:+ exn_str e)) ].

(** [create_custom_test_case], lines 266-321; the mappings are those
    that the fields of [TestCase] are annotated with. *)
Definition create_custom_test_case (name description : string)
    (test_type : TestType) (inputs : gmap string input_value)
    (expected_outputs : option (gmap string input_value))
    (evaluation_criteria : option (gmap string criterion_value))
    (tags : option (list string)) (timeout : Z) : py T TestCase :=
  let* test_case_id :=
    in_world (fun w => let '(u, w') := uuid4 env w in (Return u, w')) in
  let evaluation_criteria' :=
    match evaluation_criteria with
    | None => {[ "response_not_empty" :=
                   CrStr "The agent should provide a non-empty response" ]}
    | Some c => c
    end in
  let tags' :=
    match tags with
    | None => [TestType_value test_type; "custom"]
    | Some l => l
    end in
  let* test_case :=
    lift (TestCase_new (fun f => str_of env (PFloat f))
            test_case_id name description test_type
            inputs expected_outputs evaluation_criteria'
            (Some tags') (Some timeout)) in
  do* modify (set_test_case (tc_id test_case) test_case) then
  do* register_test_case test_case then
  ret test_case.

End WithCollaborators.
End Tester.


(* ===================================================================== *)
(** * archon/client.py: the other requests *)
(* ===================================================================== *)

Module ClientMore.
Import Py.

(** The requests of [httpx.Client] that the methods below add to those
    of [Client.Transport]: a GET with query parameters and a PATCH with
    a JSON body. *)
Record Requests (W : Type) : Type := MkRequests {
  http_get_params : string -> list (string * Z) -> py W Client.Response;
  http_patch : string -> pyval -> py W Client.Response
}.
Arguments http_get_params {W} r _ _ _.
Arguments http_patch {W} r _ _ _.

Section WithTransport.
Context {W : Type} (tr : Client.Transport W) (rq : Requests W).

(** [list_agents], lines 91-109: one clause only, for [Exception]. *)
Definition list_agents (limit offset : Z) : py W pyval :=
  try_except Client.globals
    (bind (http_get_params rq "/agents"
             [("limit", limit); ("offset", offset)]) (fun response =>
     Client._handle_response response))
    [ Except ["Exception"] (fun e =>
        raise_named Client.globals "ArchonAPIError"
          ("Error listing agents: " +:+ exn_str e)) ].

(** [get_agent_metrics], lines 134-154. *)
Definition get_agent_metrics (agent_id : string) : py W pyval :=
  try_except Client.globals
    (bind (Client.http_get tr ("/agents/" +:+ agent_id +:+ "/metrics"))
       (fun response => Client._handle_response response))
    [ Except ["AgentNotFoundError"] (fun e => raise e);
      Except ["Exception"] (fun e =>
        raise_named Client.globals "ArchonAPIError"
          ("Error getting metrics for agent " +:+ agent_id +:+ ": "
           +:+ exn_str e)) ].

(** [update_agent_metadata], lines 156-177. *)
Definition update_agent_metadata (agent_id : string)
    (metadata : list (string * pyval)) : py W pyval :=
  try_except Client.globals
    (bind (http_patch rq ("/agents/" +:+ agent_id)
             (PDict [("metadata", PDict metadata)])) (fun response =>
     Client._handle_response response))
    [ Except ["AgentNotFoundError"] (fun e => raise e);
      Except ["Exception"] (fun e =>
        raise_named Client.globals "ArchonAPIError"
          ("Error updating metadata for agent " +:+ agent_id +:+ ": "
           +:+ exn_str e)) ].

End WithTransport.
End ClientMore.

(* ===================================================================== *)
(** * archon/adapter.py: the write-back after a run *)
(* ===================================================================== *)

Module Adapter.
Import Py Models.

(** The two classes of gateway failure, as [archon/client.py] imports
    them. *)
Definition globals : namespace :=
  [ ("ArchonAPIError", ArchonAPIError);
    ("AgentNotFoundError", AgentNotFoundError) ].

(** What section 6 leaves open on the write-back: the requests of the
    gateway client it goes through, the summary metrics recorded for a
    run, and the logger that takes the failure. *)
Record WriteBack (W : Type) : Type := MkWriteBack {
  requests : ClientMore.Requests W;
  summary_metrics : TestRun -> list (string * pyval);
  log_failure : exn -> py W unit
}.
Arguments requests {W} w.
Arguments summary_metrics {W} w _.
Arguments log_failure {W} w _ _.

Section WithWriteBack.
Context {W : Type} (wb : WriteBack W).

(** Modelled from the spec: [ArchonAdapter.update_agent_with_test_results]
    of [archon/adapter.py], which is not in the source tree; section 6
    has [update_agent_metadata] invoked once after a run completes, to
    record summary metrics back on the agent, a failure of it (not found
    or gateway error) being logged and not fatal to the run. *)
Definition update_agent_with_test_results (agent_id : string)
    (test_run : TestRun) : py W unit :=
  try_except globals
    (bind (ClientMore.update_agent_metadata (requests wb) agent_id
             (summary_metrics wb test_run)) (fun _ => ret tt))
    [ Except ["AgentNotFoundError"; "ArchonAPIError"] (fun e =>
        log_failure wb e) ].

(** The collaborators of a tester whose adapter writes back in this way;
    the others are those of [env]. *)
Definition with_write_back (env : Tester.Collaborators W)
  : Tester.Collaborators W :=
  Tester.MkCollaborators W
    (Tester.transport env) (Tester.str_of env) (Tester.uuid4 env)
    (Tester.generate_test_cases_for_agent env)
    (Tester.create_test_suite env)
    update_agent_with_test_results
    (Tester.execute_test_suite env)
    (Tester.render_report env).

End WithWriteBack.
End Adapter.

(* ===================================================================== *)
(** * archon_agent_tester.py: the other methods *)
(* ===================================================================== *)

Module TesterMore.
Import Py Models.

(** What the methods below need beyond [Tester.Collaborators]: the other
    requests of the gateway client, [OpenRouterClient.list_models] (of
    [openrouter/client.py], not in the source tree) and the clock that
    [datetime.now] reads. *)
Record Surroundings (W : Type) : Type := MkSurroundings {
  requests : ClientMore.Requests W;
  list_models : py W pyval;
  now : W -> datetime * W
}.
Arguments requests {W} s.
Arguments list_models {W} s _.
Arguments now {W} s _.

Section WithCollaborators.
Context {W : Type} (env : Tester.Collaborators W) (sur : Surroundings W).

Abbreviation T := (Tester.ArchonTester W).

Notation "'let*' x := c 'in' k" := (bind c (fun x => k))
  (at level 10, x name, c at level 100, k at level 200).
Notation "'do*' c 'then' k" := (bind c (fun _ => k))
  (at level 10, c at level 100, k at level 200).

(** [list_available_models], lines 190-203. *)
Definition list_available_models : py T pyval :=
  try_except Tester.globals
    (Tester.in_world (list_models sur))
    [ Except ["Exception"] (fun e =>
        raise_named Tester.globals "OpenRouterAPIError"
          ("Error listing models: " +:+ exn_str e)) ].

(** [list_agents], lines 205-222. *)
Definition list_agents (limit offset : Z) : py T pyval :=
  try_except Tester.globals
    (Tester.in_world
       (ClientMore.list_agents (requests sur) limit offset))
    [ Except ["Exception"] (fun e =>
        raise_named Tester.globals "ArchonAPIError"
          ("Error listing agents: " +:+ exn_str e)) ].

(** [get_agent], lines 224-243. *)
Definition get_agent (agent_id : string) : py T pyval :=
  try_except Tester.globals
    (Tester.in_world (Client.get_agent (Tester.transport env) agent_id))
    [ Except ["AgentNotFoundError"] (fun e => raise e);
      Except ["Exception"] (fun e =>
        raise_named Tester.globals "ArchonAPIError"
          ("Error getting agent " +:+ agent_id +:+ ": " +:+ exn_str e)) ].

(** [get_agent_metrics], lines 245-264. *)
Definition get_agent_metrics (agent_id : string) : py T pyval :=
  try_except Tester.globals
    (Tester.in_world
       (ClientMore.get_agent_metrics (Tester.transport env) agent_id))
    [ Except ["AgentNotFoundError"] (fun e => raise e);
      Except ["Exception"] (fun e =>
        raise_named Tester.globals "ArchonAPIError"
          ("Error getting metrics for agent " +:+ agent_id +:+ ": "
           +:+ exn_str e)) ].

(** [TestSuite(...)] of [core/models.py], lines 86-96: no validator; a
    time stamp that is left out is read from the clock, [created_at]
    before [updated_at]. *)
Definition TestSuite_new (id name description : string)
    (test_cases tags : list string)
    (created_at updated_at : option datetime) : py W TestSuite :=
  fun w =>
    let '(created, w1) :=
      match created_at with
      | Some d => (d, w)
      | None => now sur w
      end in
    let '(updated, w2) :=
      match updated_at with
      | Some d => (d, w1)
      | None => now sur w1
      end in
    (Return (MkTestSuite id name description test_cases tags created updated),
     w2).

(** [create_custom_test_suite], lines 323-362. *)
Definition create_custom_test_suite (name description : string)
    (test_cases : list TestCase) (tags : option (list string))
  : py T TestSuite :=
  let* test_suite_id :=
    Tester.in_world
      (fun w => let '(u, w') := Tester.uuid4 env w in (Return u, w')) in
  let tags' :=
    match tags with
    | None => ["custom"]
    | Some l => l
    end in
  let* test_suite :=
    Tester.in_world
      (TestSuite_new test_suite_id name description
         (map tc_id test_cases) tags' None None) in
  do* modify (Tester.set_test_suite (ts_id test_suite) test_suite) then
  do* Tester.register_test_suite test_suite then
  ret test_suite.

End WithCollaborators.
End TesterMore.

(* ===================================================================== *)
(** * cli.py: the commands [test] and [create_test_case] *)
(* ===================================================================== *)

Module Cli.
Import Py Models.

(** Lines 14-16: the one exception class the module imports. *)
Definition globals : namespace :=
  [ ("ArchonAgentTesterError", ArchonAgentTesterError) ].

(** What the commands use of their process, over the world [W]: the
    environment variables, [str.lower], the rich console, the logger,
    the file the test case is dumped to, and what the execution engine
    and the report generator of a new [ArchonTester] hold. *)
Record Shell (W : Type) : Type := MkShell {
  environ : string -> option string;
  str_lower : string -> string;
  console_print : string -> py W unit;
  console_print_table : list string -> list (list string) -> py W unit;
  logger_exception : string -> exn -> py W unit;
  dump_json : string -> TestCase -> py W unit;
  parts : Tester.ArchonTester W
}.
Arguments environ {W} s _.
Arguments str_lower {W} s _.
Arguments console_print {W} s _ _.
Arguments console_print_table {W} s _ _ _.
Arguments logger_exception {W} s _ _ _.
Arguments dump_json {W} s _ _ _.
Arguments parts {W} s.

(** Truth of an optional string: [None] and [""] are false. *)
Definition truthy (s : option string) : bool :=
  match s with
  | Some (String _ _) => true
  | _ => false
  end.

(** [a or b]. *)
Definition py_or (a b : option string) : option string :=
  if truthy a then a else b.

(** [sys.exit(code)] raises [SystemExit(code)]. *)
Definition sys_exit {S A} (code : Z) : py S A :=
  raise (Exn SystemExit (pretty code)).

Section WithShell.
Context {W : Type} (env : Tester.Collaborators W) (sh : Shell W).

Notation "'let*' x := c 'in' k" := (bind c (fun x => k))
  (at level 10, x name, c at level 100, k at level 200).
Notation "'do*' c 'then' k" := (bind c (fun _ => k))
  (at level 10, c at level 100, k at level 200).

(** [ArchonTester(...)], lines 67-70 of [archon_agent_tester.py]: the
    three registries start empty. *)
Definition ArchonTester_new (w : W) : Tester.ArchonTester W :=
  Tester.MkArchonTester ∅ ∅ ∅
    (Tester.engine_test_cases (parts sh))
    (Tester.engine_test_suites (parts sh))
    (Tester.report_test_cases (parts sh))
    (Tester.report_test_suites (parts sh))
    (Tester.report_test_runs (parts sh)) w.

(** A method call on the tester held in a local variable: the tester
    sees the world as it is now; the call gives its result and the tester
    after it. *)
Definition call_tester {A} (m : py (Tester.ArchonTester W) A)
    (tester : Tester.ArchonTester W)
  : py W (A * Tester.ArchonTester W) :=
  fun w =>
    match m (Tester.set_world w tester) with
    | (Return a, tester') => (Return (a, tester'), Tester.world tester')
    | (Raise e, tester') => (Raise e, Tester.world tester')
    end.

(** The two handlers that close each command. *)
Definition handlers {A} : list (clause W A) :=
  [ Except ["ArchonAgentTesterError"] (fun e =>
      do* console_print sh ("[bold red]Error:[/bold red] " +:+ exn_str e) then
      sys_exit 1);
    Except ["Exception"] (fun e =>
      do* console_print sh
            ("[bold red]Unexpected error:[/bold red] " +:+ exn_str e) then
      do* logger_exception sh "Unexpected error" e then
      sys_exit 1) ].

(** The rows of the table of lines 75-80. *)
Definition result_rows (test_run : TestRun) : list (list string) :=
  [ ["Status"; TestStatus_value (run_status test_run)];
    ["Total Tests"; pretty (summary_get (run_summary test_run) "total")];
    ["Passed"; pretty (summary_get (run_summary test_run) "passed")];
    ["Failed"; pretty (summary_get (run_summary test_run) "failed")];
    ["Error"; pretty (summary_get (run_summary test_run) "error")];
    ["Skipped"; pretty (summary_get (run_summary test_run) "skipped")] ].

(** Lines 46-85 of [test]: the block under [try]. *)
Definition test_body (agent_id test_type report_format : string)
    (archon_api_key openrouter_api_key : option string) : py W unit :=
  let archon_key := py_or archon_api_key (environ sh "ARCHON_API_KEY") in
  let openrouter_key :=
    py_or openrouter_api_key (environ sh "OPENROUTER_API_KEY") in
  do* (if negb (truthy archon_key)
       then do* console_print sh
                  "[bold red]Error:[/bold red] Archon API key is required"
            then sys_exit 1
       else ret tt) then
  do* (if negb (truthy openrouter_key)
       then do* console_print sh
                  "[bold red]Error:[/bold red] OpenRouter API key is required"
            then sys_exit 1
       else ret tt) then
  let* tester := gets ArchonTester_new in
  do* console_print sh
        ("[bold]Testing agent " +:+ agent_id +:+ " with " +:+ test_type
         +:+ " tests...[/bold]") then
  let* tested :=
    call_tester (Tester.test_agent env agent_id (inl test_type)) tester in
  let test_run := fst tested in
  do* console_print sh (nl +:+ "[bold]Test Results:[/bold]") then
  do* console_print_table sh ["Metric"; "Value"] (result_rows test_run) then
  let* reported :=
    call_tester (Tester.generate_report env (inr test_run) report_format)
      (snd tested) in
  console_print sh
    (nl +:+ "[bold]Report generated:[/bold] " +:+ fst reported).

(** [test], lines 34-93. *)
Definition test (agent_id test_type report_format : string)
    (archon_api_key openrouter_api_key : option string) : py W unit :=
  try_except globals
    (test_body agent_id test_type report_format archon_api_key
       openrouter_api_key)
    handlers.

(** Lines 206-223 of [create_test_case]: the block under [try]. *)
Definition create_test_case_body (name description test_type prompt
    output_file : string) : py W unit :=
  let* tester := gets ArchonTester_new in
  let* kind := lift (TestType_of_value (str_lower sh test_type)) in
  let* created :=
    call_tester
      (Tester.create_custom_test_case env name description kind
         {[ "prompt" := InStr prompt ]} None
         (Some {[ "response_not_empty" :=
                    CrStr "The agent should provide a non-empty response" ]})
         None 30)
      tester in
  do* dump_json sh output_file (fst created) then
  console_print sh
    ("[bold]Test case created and saved to " +:+ output_file +:+
     "[/bold]").

(** [create_test_case], lines 195-231. *)
Definition create_test_case (name description test_type prompt
    output_file : string) : py W unit :=
  try_except globals
    (create_test_case_body name description test_type prompt output_file)
    handlers.

End WithShell.
End Cli.
(* ===================================================================== *)
(** * Statements and sample values *)
(* ===================================================================== *)

Import Py Models.

(** ** Statements of the specification, kept as definitions so that
       they can be tested on values *)

(** Section 8, first property, read on one [TestRun]. *)
Definition summary_consistent (r : TestRun) : Prop :=
  run_summary r !! "total" = Some (Z.of_nat (length (run_results r))) /\
  counts_sum (run_summary r) = Z.of_nat (length (run_results r)).

(** The duration as section 8 words it:
    [round((end_time - start_time).total_seconds() * 1000)]. *)
Definition rounded_duration (end_ start : datetime) : outcome Z :=
  match datetime_sub end_ start with
  | Raise e => Raise e
  | Return td =>
      match total_seconds td with
      | Raise e => Raise e
      | Return secs => round_float (float_mul secs (float_of_int 1000))
      end
  end.

(** Section 8, second property, read on one [TestResult]. *)
Definition duration_consistent (r : TestResult) : Prop :=
  (pending_or_running (tr_status r) = false -> is_Some (tr_end_time r)) /\
  (forall end_, tr_end_time r = Some end_ ->
     exists d, tr_duration_ms r = Some d /\
               rounded_duration end_ (tr_start_time r) = Return d /\
               0 <= d).

(** A float carries the sign [s], or is not a number. *)
Definition has_sign (s : bool) (x : spec_float) : Prop :=
  match x with
  | S754_zero s' | S754_infinity s' | S754_finite s' _ _ => s' = s
  | S754_nan => True
  end.

(** What section 7 asks of a gateway call that received the response
    [r]: not-found exactly for status 404, and for any other status
    outside 2xx a gateway error whose text has the status code and the
    body.  [call] starts in world [w]; [w'] is the world after the
    response arrived; [diag] is the text put before the diagnostics. *)
Definition gateway_errors_mapped {W A} (call : py W A) (diag : string)
    (w : W) (r : Client.Response) (w' : W) : Prop :=
  (Client.status_code r = 404 ->
   call w = (Raise (Exn AgentNotFoundError
                      ("Agent not found: " +:+ Client.text r)), w')) /\
  (forall e w'', call w = (Raise e, w'') ->
     isinstance e AgentNotFoundError = true -> Client.status_code r = 404) /\
  (Client.is_success r = false -> Client.status_code r <> 404 ->
   call w = (Raise (Exn ArchonAPIError
                      (diag +:+ "API error: " +:+
                       pretty (Client.status_code r) +:+ " - " +:+
                       Client.text r)), w')).

(** What the two [except] clauses of [test_agent] (lines 138-141) make of
    an exception [e0] raised under its [try]. *)
Definition surfaced (agent_id : string) (e0 : exn) : exn :=
  if isinstance e0 AgentNotFoundError || isinstance e0 TestSuiteNotFoundError
  then e0
  else if isinstance e0 Exception
  then Exn ArchonAgentTesterError
         ("Error testing agent " +:+ agent_id +:+ ": " +:+ exn_str e0)
  else e0.

(** Section 7 on the entry point [test_agent]: every error that it
    raises, an exception that derives from [Exception], is an
    [ArchonAgentTesterError]. *)
Definition only_tester_errors {W} (env : Tester.Collaborators W)
    (agent_id : string) (test_suite : string + TestSuite)
    (t : Tester.ArchonTester W) : Prop :=
  forall e t',
    Tester.test_agent env agent_id test_suite t = (Raise e, t') ->
    isinstance e Exception = true ->
    isinstance e ArchonAgentTesterError = true.

(** ** Sample values *)

Definition sample_start : datetime := Datetime 0 None.

(** The time zone of Paris, one hour ahead of UTC in winter. *)
Definition paris (offset_hours : Z) : option (string * Z) :=
  Some ("Europe/Paris", offset_hours * 3600000000).

Definition utc : option (string * Z) := Some ("UTC", 0).

Definition sample_inputs : gmap string pyval := {[ "prompt" := PStr "hello" ]}.

Definition sample_prompt : gmap string input_value :=
  {[ "prompt" := InStr "hello" ]}.

Definition sample_criteria : gmap string criterion_value :=
  {[ "response_not_empty" :=
       CrStr "The agent should provide a non-empty response" ]}.

(** Criteria with a numeric threshold, and [str] where the samples need
    it, on the one float they hold: [str(0.5)] is ['0.5']. *)
Definition half : spec_float := S754_finite false 4503599627370496 (-53).

Definition threshold_criteria : gmap string criterion_value :=
  {[ "min_score" := CrFloat half;
     "response_not_empty" :=
       CrStr "The agent should provide a non-empty response" ]}.

Definition sample_str_float (f : spec_float) : string :=
  match f with
  | S754_finite false m e =>
      if (m =? 4503599627370496)%positive && (e =? -53) then "0.5" else "?"
  | _ => "?"
  end.

(** A world for the samples: the log of the calls that reached it. *)
Definition log_call {A} (entry : string) (o : outcome A)
  : py (list string) A :=
  fun w => (o, (w ++ [entry])%list).

Definition sample_transport (r : outcome Client.Response)
  : Client.Transport (list string) :=
  Client.MkTransport _
    (fun path => log_call ("GET " +:+ path) r)
    (fun path body => log_call ("POST " +:+ path) r).

Definition sample_agent : pyval :=
  PDict [("id", PStr "agent-1"); ("name", PStr "Greeter")].

Definition ok_response : Client.Response :=
  Client.MkResponse 200 "{}" (inl sample_agent).

Definition not_found_response : Client.Response :=
  Client.MkResponse 404 "no such agent" (inr "Expecting value").

Definition server_error_response : Client.Response :=
  Client.MkResponse 500 "boom" (inr "Expecting value").

Definition sample_suite : TestSuite :=
  MkTestSuite "suite-1" "Greeter suite" "greets" ["tc-1"] [] sample_start
    sample_start.

Definition sample_run (agent_id suite_id : string) : TestRun :=
  TestRun_new "run-1" agent_id suite_id PASSED sample_start None
    (Some ["result-1"]) None.

(** Collaborators that answer every gateway request with [r] and every
    write-back with [update]. *)
Definition sample_env (r : outcome Client.Response) (update : outcome unit)
  : Tester.Collaborators (list string) :=
  Tester.MkCollaborators _
    (sample_transport r)
    (fun v => match v with PStr s => s | _ => "?" end)
    (fun w => ("uuid-" +:+ pretty (length w), (w ++ ["uuid4"])%list))
    (fun agent_id test_type =>
       log_call "generate_test_cases_for_agent" (Return []))
    (fun agent_id cases name description =>
       log_call "create_test_suite"
         (Return (MkTestSuite "suite-1" name description (map tc_id cases) []
                    sample_start sample_start)))
    (fun agent_id run => log_call "update_agent_with_test_results" update)
    (fun cases suites suite_id agent_id =>
       log_call "execute_test_suite" (Return (sample_run agent_id suite_id)))
    (fun cases suites runs run_name format =>
       log_call "generate_report"
         (Return ("reports/" +:+ run_name +:+ "." +:+ format))).

Definition fresh_tester : Tester.ArchonTester (list string) :=
  Tester.MkArchonTester ∅ ∅ ∅ ∅ ∅ ∅ ∅ ∅ [].

(** ** Statements about the methods that follow one pattern *)

(** The pattern of [get_agent], [invoke_agent], [get_agent_metrics] and
    [update_agent_metadata] in [archon/client.py]: send, hand the response
    to [_handle_response], re-raise [AgentNotFoundError], wrap any other
    [Exception] in an [ArchonAPIError] with the text [msg e]. *)
Definition guarded_call {W} (send : py W Client.Response)
    (msg : exn -> string) : py W pyval :=
  try_except Client.globals
    (bind send (fun response => Client._handle_response response))
    [ Except ["AgentNotFoundError"] (fun e => raise e);
      Except ["Exception"] (fun e =>
        raise_named Client.globals "ArchonAPIError" (msg e)) ].

(** A call that received the 2xx response [r] returns the decoded body,
    and raises an [ArchonAPIError] when the body does not decode. *)
Definition success_handled {W} (call : py W pyval) (diag : string)
    (w : W) (r : Client.Response) (w' : W) : Prop :=
  Client.is_success r = true ->
  call w =
    match Client.decoded r with
    | inl v => (Return v, w')
    | inr msg =>
        (Raise (Exn ArchonAPIError
                  (diag +:+ "Error processing response: " +:+ msg)), w')
    end.

(** A call whose request [send] itself raises [e0]: an [Exception] that
    is not an [AgentNotFoundError] is wrapped with its text, anything that
    is not an [Exception] passes. *)
Definition send_failure_handled {W} (send : py W Client.Response)
    (call : py W pyval) (diag : string) : Prop :=
  forall w e0 w',
    send w = (Raise e0, w') ->
    (isinstance e0 Exception = true ->
     isinstance e0 AgentNotFoundError = false ->
     call w = (Raise (Exn ArchonAPIError (diag +:+ exn_str e0)), w')) /\
    (isinstance e0 Exception = false -> call w = (Raise e0, w')).

(** The errors a call lets out are of two classes only. *)
Definition gateway_surface {S A} (call : py S A) : Prop :=
  forall s e s',
    call s = (Raise e, s') ->
    isinstance e Exception = true ->
    exn_class e = AgentNotFoundError \/ exn_class e = ArchonAPIError.

(** A call leaves the three registries of the tester as they are. *)
Definition registries_kept {W A} (call : py (Tester.ArchonTester W) A)
  : Prop :=
  forall t o t',
    call t = (o, t') ->
    Tester.test_cases t' = Tester.test_cases t /\
    Tester.test_suites t' = Tester.test_suites t /\
    Tester.test_runs t' = Tester.test_runs t.

(** The pattern of [get_agent] and [get_agent_metrics] in
    [archon_agent_tester.py]: call the client, re-raise
    [AgentNotFoundError], wrap any other [Exception] in an
    [ArchonAPIError] with the text [msg e]. *)
Definition tester_guarded_call {W} (inner : py W pyval)
    (msg : exn -> string) : py (Tester.ArchonTester W) pyval :=
  try_except Tester.globals
    (Tester.in_world inner)
    [ Except ["AgentNotFoundError"] (fun e => raise e);
      Except ["Exception"] (fun e =>
        raise_named Tester.globals "ArchonAPIError" (msg e)) ].

(** The pattern of [list_agents] and [list_available_models] in
    [archon_agent_tester.py]: one clause, which wraps any [Exception] in
    the class named [wrapper]. *)
Definition tester_wrapping_call {W} (inner : py W pyval)
    (wrapper : string) (diag : string) : py (Tester.ArchonTester W) pyval :=
  try_except Tester.globals
    (Tester.in_world inner)
    [ Except ["Exception"] (fun e =>
        raise_named Tester.globals wrapper (diag +:+ exn_str e)) ].

(** What such a one-clause method does with each outcome of the call it
    wraps, [c] being the class it wraps into. *)
Definition wraps_all {W} (inner : py W pyval)
    (call : py (Tester.ArchonTester W) pyval) (c : pyclass) (diag : string)
  : Prop :=
  forall t w',
    (forall v, inner (Tester.world t) = (Return v, w') ->
               call t = (Return v, Tester.set_world w' t)) /\
    (forall e0, inner (Tester.world t) = (Raise e0, w') ->
       (isinstance e0 Exception = true ->
        call t = (Raise (Exn c (diag +:+ exn_str e0)), Tester.set_world w' t))
       /\
       (isinstance e0 Exception = false ->
        call t = (Raise e0, Tester.set_world w' t))).

(** The body of the loop of lines 103-105 of [test_agent], as a change
    of state. *)
Definition register_step {W} (c : TestCase) (t : Tester.ArchonTester W)
  : Tester.ArchonTester W :=
  snd (bind (modify (Tester.set_test_case (tc_id c) c))
         (fun _ => Tester.register_test_case c) t).

(** The suite registry of the engine once [test_agent] (lines 124-126)
    has made sure that the suite it was given is registered: the suite
    goes to the engine only when the tester does not hold its id. *)
Definition engine_suites_with {W} (suite : TestSuite)
    (t : Tester.ArchonTester W) : gmap string TestSuite :=
  match Tester.test_suites t !! ts_id suite with
  | Some _ => Tester.engine_test_suites t
  | None => <[ts_id suite := suite]> (Tester.engine_test_suites t)
  end.

(** What the two closing handlers of a command make of the block [body]
    under its [try]: an [ArchonAgentTesterError] is printed as an error,
    any other [Exception] is printed as unexpected and logged, and both
    end in [SystemExit(1)]; what is not an [Exception] passes, and so
    does a return. *)
Definition reports_and_exits {W A} (sh : Cli.Shell W)
    (body command : py W A) : Prop :=
  forall w,
    (forall e0 w0,
       body w = (Raise e0, w0) ->
       (isinstance e0 ArchonAgentTesterError = true ->
        forall w1,
          Cli.console_print sh
            ("[bold red]Error:[/bold red] " +:+ exn_str e0) w0
            = (Return tt, w1) ->
          command w = (Raise (Exn SystemExit "1"), w1)) /\
       (isinstance e0 ArchonAgentTesterError = false ->
        isinstance e0 Exception = true ->
        forall w1 w2,
          Cli.console_print sh
            ("[bold red]Unexpected error:[/bold red] " +:+ exn_str e0) w0
            = (Return tt, w1) ->
          Cli.logger_exception sh "Unexpected error" e0 w1
            = (Return tt, w2) ->
          command w = (Raise (Exn SystemExit "1"), w2)) /\
       (isinstance e0 Exception = false -> command w = (Raise e0, w0))) /\
    (forall a w0, body w = (Return a, w0) -> command w = (Return a, w0)).

(** The console and the logger of a shell do not raise. *)
Definition shell_shows_all {W} (sh : Cli.Shell W) : Prop :=
  (forall line w, exists w', Cli.console_print sh line w = (Return tt, w')) /\
  (forall m e w, exists w', Cli.logger_exception sh m e w = (Return tt, w')).

(** No [Exception] leaves a command: what it raises is [SystemExit(1)],
    or something that is not an [Exception] and that it did not catch. *)
Definition exits_cleanly {W A} (command : py W A) : Prop :=
  forall w e w',
    command w = (Raise e, w') -> isinstance e Exception = false.

(** ** More sample values *)

Definition sample_requests (r : outcome Client.Response)
  : ClientMore.Requests (list string) :=
  ClientMore.MkRequests _
    (fun path params => log_call ("GET " +:+ path) r)
    (fun path body => log_call ("PATCH " +:+ path) r).

Definition sample_surroundings (r : outcome Client.Response)
    (models : outcome pyval) : TesterMore.Surroundings (list string) :=
  TesterMore.MkSurroundings _
    (sample_requests r)
    (log_call "list_models" models)
    (fun w => (Datetime (Z.of_nat (length w)) None, (w ++ ["now"])%list)).

(** Collaborators like [sample_env], with a report generator that fails
    on any format. *)
Definition failing_report_env : Tester.Collaborators (list string) :=
  Tester.MkCollaborators _
    (Tester.transport (sample_env (Return ok_response) (Return tt)))
    (Tester.str_of (sample_env (Return ok_response) (Return tt)))
    (Tester.uuid4 (sample_env (Return ok_response) (Return tt)))
    (Tester.generate_test_cases_for_agent
       (sample_env (Return ok_response) (Return tt)))
    (Tester.create_test_suite (sample_env (Return ok_response) (Return tt)))
    (Tester.update_agent_with_test_results
       (sample_env (Return ok_response) (Return tt)))
    (Tester.execute_test_suite (sample_env (Return ok_response) (Return tt)))
    (fun cases suites runs run_name format =>
       log_call "generate_report"
         (Raise (Exn ReportGenerationError
                   ("Unsupported format: " +:+ format)))).

Definition nameless_agent_response : Client.Response :=
  Client.MkResponse 200 "{}" (inl (PDict [("id", PStr "agent-1")])).

Definition sample_case : TestCase :=
  MkTestCase "tc-1" "greets" "the agent greets" FUNCTIONAL sample_prompt None
    sample_criteria [] 30.

(** Collaborators like [sample_env r (Return tt)] whose adapter generates
    the one test case [sample_case]. *)
Definition generating_env (r : outcome Client.Response)
  : Tester.Collaborators (list string) :=
  Tester.MkCollaborators _
    (Tester.transport (sample_env r (Return tt)))
    (Tester.str_of (sample_env r (Return tt)))
    (Tester.uuid4 (sample_env r (Return tt)))
    (fun agent_id test_type =>
       log_call "generate_test_cases_for_agent" (Return [sample_case]))
    (Tester.create_test_suite (sample_env r (Return tt)))
    (Tester.update_agent_with_test_results (sample_env r (Return tt)))
    (Tester.execute_test_suite (sample_env r (Return tt)))
    (Tester.render_report (sample_env r (Return tt))).

Definition bad_json_response : Client.Response :=
  Client.MkResponse 200 "<html>" (inr "Expecting value").

(** A shell without environment variables, whose console, logger and
    file system write to the log of the world. *)
Definition sample_shell (vars : string -> option string)
  : Cli.Shell (list string) :=
  Cli.MkShell _ vars (map_string lower_ascii)
    (fun line => log_call ("print " +:+ line) (Return tt))
    (fun columns rows => log_call "print table" (Return tt))
    (fun m e => log_call ("log " +:+ m) (Return tt))
    (fun file tc => log_call ("write " +:+ file) (Return tt))
    fresh_tester.

(** Collaborators like [sample_env (Return ok_response) (Return tt)]
    whose engine looks the suite up in the registry it is given and fails
    when the suite is not there. *)
Definition resolving_env : Tester.Collaborators (list string) :=
  Tester.MkCollaborators _
    (Tester.transport (sample_env (Return ok_response) (Return tt)))
    (Tester.str_of (sample_env (Return ok_response) (Return tt)))
    (Tester.uuid4 (sample_env (Return ok_response) (Return tt)))
    (Tester.generate_test_cases_for_agent
       (sample_env (Return ok_response) (Return tt)))
    (Tester.create_test_suite (sample_env (Return ok_response) (Return tt)))
    (Tester.update_agent_with_test_results
       (sample_env (Return ok_response) (Return tt)))
    (fun cases suites suite_id agent_id =>
       log_call "execute_test_suite"
         match suites !! suite_id with
         | Some suite => Return (sample_run agent_id (ts_id suite))
         | None =>
             Raise (Exn TestSuiteNotFoundError
                      ("Test suite " +:+ suite_id +:+ " not found"))
         end)
    (Tester.render_report (sample_env (Return ok_response) (Return tt))).

(** A write-back through a gateway that answers the PATCH with [r]; it
    records the status of the run, and the logger writes to the log of
    the world. *)
Definition sample_write_back (r : outcome Client.Response)
  : Adapter.WriteBack (list string) :=
  Adapter.MkWriteBack _
    (sample_requests r)
    (fun run =>
       [("last_test_status", PStr (TestStatus_value (run_status run)))])
    (fun e => log_call ("log " +:+ exn_str e) (Return tt)).
(* ===================================================================== *)
(** * Properties of the domain models *)
(* ===================================================================== *)

(** ** Helper lemmas *)

Lemma size_zero_iff {A} (m : gmap string A) : (size m =? 0)%nat = true <-> m = ∅.
Proof. rewrite Nat.eqb_eq. apply map_size_empty_iff. Qed.

Lemma size_zero_false {A} (m : gmap string A) :
  m <> ∅ -> (size m =? 0)%nat = false.
Proof.
  intros Hne. apply Nat.eqb_neq. intros Hz. apply Hne.
  by apply map_size_empty_iff.
Qed.

Lemma length_zero_false {A} (l : list A) :
  l <> [] -> (length l =? 0)%nat = false.
Proof. destruct l; [congruence | reflexivity]. Qed.

Lemma calculate_summary_default (results : list string) :
  results <> [] ->
  calculate_summary ∅ results =
    list_to_map [ ("total", Z.of_nat (length results));
                  ("pending", 0); ("passed", 0); ("failed", 0);
                  ("error", 0); ("skipped", 0) ].
Proof.
  intros Hne. unfold calculate_summary.
  rewrite map_size_empty, (length_zero_false _ Hne). reflexivity.
Qed.

Lemma calculate_summary_given (v : gmap string Z) (results : list string) :
  v <> ∅ -> calculate_summary v results = v.
Proof.
  intros Hne. unfold calculate_summary.
  by rewrite (size_zero_false _ Hne).
Qed.

Lemma calculate_summary_no_results (v : gmap string Z) :
  calculate_summary v [] = v.
Proof. unfold calculate_summary. by rewrite andb_false_r. Qed.

Lemma binary_round_aux_sign s m e l :
  has_sign s (binary_round_aux prec emax s m e l).
Proof.
  unfold binary_round_aux.
  destruct (shr_fexp prec emax m e l) as [mrs' e'].
  destruct (shr_fexp prec emax _ e' loc_Exact) as [mrs'' e''].
  destruct (shr_m mrs''); simpl; auto.
  destruct (Z.leb e'' (Z.sub emax prec)); simpl; auto.
Qed.

Lemma int_truediv_sign (a : Z) (b : positive) (q : spec_float) :
  0 <= a -> int_truediv a b = Return q -> has_sign false q.
Proof.
  intros Ha. unfold int_truediv.
  destruct a as [|m|m]; [| |lia].
  - intros [= <-]. reflexivity.
  - unfold SFdiv.
    destruct (SFdiv_core_binary prec emax (Z.pos m) 0 (Z.pos b) 0) as [[mz ez] lz].
    pose proof (binary_round_aux_sign (xorb false false) mz ez lz) as Hs.
    destruct (binary_round_aux prec emax (xorb false false) mz ez lz);
      intros [= <-] || discriminate; exact Hs.
Qed.

Lemma float_mul_1000_sign (x : spec_float) :
  has_sign false x -> has_sign false (float_mul x (float_of_int 1000)).
Proof.
  intros Hx.
  change (float_of_int 1000) with (S754_finite false 8796093022208000 (-43)).
  destruct x as [s|s| |s m e]; simpl in Hx; subst; simpl; auto.
  apply (binary_round_aux_sign (xorb false false)).
Qed.

Lemma magnitude_floor_nonneg m e : 0 <= magnitude_floor m e.
Proof.
  unfold magnitude_floor. destruct e.
  - apply Z.shiftl_nonneg. lia.
  - apply Z.shiftl_nonneg. lia.
  - apply Z.shiftr_nonneg. lia.
Qed.

Lemma int_of_float_nonneg (x : spec_float) (d : Z) :
  has_sign false x -> int_of_float x = Return d -> 0 <= d.
Proof.
  destruct x as [s|s| |s m e]; simpl; intros Hs; try discriminate.
  - intros [= <-]. lia.
  - subst s. intros [= <-]. simpl. apply magnitude_floor_nonneg.
Qed.

(** The duration has the sign of the timedelta it is computed from. *)
Lemma duration_of_nonneg (end_ start : datetime) (td d : Z) :
  datetime_sub end_ start = Return td ->
  duration_of end_ start = Return d ->
  0 <= td -> 0 <= d.
Proof.
  unfold duration_of, total_seconds. intros -> Hd Hle.
  destruct (int_truediv td 1000000) as [secs|] eqn:Hq; [|discriminate].
  apply int_truediv_sign in Hq; [|lia].
  eapply int_of_float_nonneg; [|exact Hd].
  by apply float_mul_1000_sign.
Qed.

(** Subtraction raises exactly when one operand is aware and the other
    naive. *)
Lemma datetime_sub_mixed (a b : datetime) :
  dt_aware a <> dt_aware b ->
  datetime_sub a b =
    Raise (Exn TypeError
             "can't subtract offset-naive and offset-aware datetimes").
Proof.
  unfold datetime_sub, same_tzinfo, utcoffset, dt_aware.
  destruct (dt_tzinfo a) as [[n x]|], (dt_tzinfo b) as [[m y]|]; simpl;
    intros H; try reflexivity; exfalso; apply H; reflexivity.
Qed.

Lemma datetime_sub_same_awareness (a b : datetime) :
  dt_aware a = dt_aware b -> exists td, datetime_sub a b = Return td.
Proof.
  unfold datetime_sub, same_tzinfo, utcoffset, dt_aware.
  destruct (dt_tzinfo a) as [[n x]|], (dt_tzinfo b) as [[m y]|]; simpl;
    intros H; try discriminate H; [|eauto].
  destruct (String.eqb n m); eauto.
Qed.

(** Swapping the operands negates the timedelta. *)
Lemma datetime_sub_swap (a b : datetime) (td : Z) :
  datetime_sub a b = Return td -> datetime_sub b a = Return (- td).
Proof.
  unfold datetime_sub, same_tzinfo, utcoffset.
  destruct (dt_tzinfo a) as [[n x]|], (dt_tzinfo b) as [[m y]|]; simpl;
    try discriminate.
  - rewrite (String.eqb_sym m n).
    destruct (String.eqb n m); intros [= <-]; f_equal; lia.
  - intros [= <-]. f_equal. lia.
Qed.

Lemma datetime_sub_diag (a : datetime) : datetime_sub a a = Return 0.
Proof.
  unfold datetime_sub, same_tzinfo.
  destruct (dt_tzinfo a) as [[n x]|]; simpl.
  - rewrite String.eqb_refl. f_equal. lia.
  - f_equal. lia.
Qed.

(** The validation of the values of [inputs] changes none of them. *)
Lemma validate_inputs_id (m : gmap string input_value) :
  validate_input_value <$> m = m.
Proof.
  rewrite <- (map_fmap_id m) at 2. apply map_fmap_ext.
  by intros k [s|l|d] _.
Qed.

(** ** TestCase *)

Lemma TestCase_new_no_criteria str_float id name description test_type
    inputs expected_outputs tags timeout :
  TestCase_new str_float id name description test_type inputs
               expected_outputs ∅ tags timeout
  = Raise (Exn ValidationError
             ("1 validation error for TestCase" +:+ nl +:+
              "evaluation_criteria" +:+ nl +:+
              "  At least one evaluation criterion must be provided" +:+
              " (type=value_error)")).
Proof. unfold TestCase_new. by rewrite fmap_empty. Qed.

Lemma validated_criteria_non_empty str_float
    (criteria : gmap string criterion_value) :
  criteria <> ∅ -> validate_criterion_value str_float <$> criteria <> ∅.
Proof. intros Hne He. by apply fmap_empty_inv in He. Qed.

Lemma TestCase_new_with_criteria str_float id name description test_type
    inputs expected_outputs (criteria : gmap string criterion_value)
    tags timeout :
  criteria <> ∅ ->
  TestCase_new str_float id name description test_type inputs
               expected_outputs criteria tags timeout
  = Return (MkTestCase id name description test_type inputs
              expected_outputs
              (validate_criterion_value str_float <$> criteria)
              (default [] tags) (default 30 timeout)).
Proof.
  intros Hne. unfold TestCase_new, validate_criteria.
  rewrite (size_zero_false _ (validated_criteria_non_empty _ _ Hne)).
  rewrite validate_inputs_id.
  destruct expected_outputs as [outputs|]; [|reflexivity].
  by rewrite validate_inputs_id.
Qed.

(** Criteria that hold no float are stored as they are. *)
Lemma validated_criteria_without_float str_float
    (criteria : gmap string criterion_value) :
  (forall k f, criteria !! k <> Some (CrFloat f)) ->
  validate_criterion_value str_float <$> criteria = criteria.
Proof.
  intros Hno. rewrite <- (map_fmap_id criteria) at 2. apply map_fmap_ext.
  intros k [s|f|d] Hk; [reflexivity| |reflexivity].
  by destruct (Hno k f).
Qed.

(** C3. Constructing a TestCase with an empty [evaluation_criteria]
    fails with a validation error, whatever the other fields hold; with
    at least one criterion, and fields of the annotated types, the
    construction succeeds.  The test case holds the fields as they were
    passed, with each criterion as pydantic validates it: a float is kept
    as its [str], a str and a mapping as they are.  The stored criteria
    have the keys that were passed, so they are not empty. *)
Theorem TestCase_requires_criteria :
  forall str_float id name description test_type inputs expected_outputs
         tags timeout,
    TestCase_new str_float id name description test_type inputs
                 expected_outputs ∅ tags timeout
    = Raise (Exn ValidationError
               ("1 validation error for TestCase" +:+ nl +:+
                "evaluation_criteria" +:+ nl +:+
                "  At least one evaluation criterion must be provided" +:+
                " (type=value_error)")) /\
    forall criteria : gmap string criterion_value,
      criteria <> ∅ ->
      let stored := validate_criterion_value str_float <$> criteria in
      TestCase_new str_float id name description test_type inputs
                   expected_outputs criteria tags timeout
      = Return (MkTestCase id name description test_type inputs
                  expected_outputs stored (default [] tags)
                  (default 30 timeout)) /\
      stored <> ∅ /\
      (forall k, stored !! k = validate_criterion_value str_float
                                 <$> criteria !! k) /\
      ((forall k f, criteria !! k <> Some (CrFloat f)) -> stored = criteria).
Proof.
  intros. split.
  - apply TestCase_new_no_criteria.
  - intros criteria Hne stored. subst stored.
    split; [by apply TestCase_new_with_criteria|].
    split; [by apply validated_criteria_non_empty|].
    split; [intros k; apply lookup_fmap|].
    apply validated_criteria_without_float.
Qed.

Lemma TestCase_requires_criteria_witness :
  TestCase_new sample_str_float "tc-1" "greets" "the agent greets" FUNCTIONAL
    sample_prompt None threshold_criteria None None
  = Return (MkTestCase "tc-1" "greets" "the agent greets" FUNCTIONAL
              sample_prompt None
              {[ "min_score" := CrStr "0.5";
                 "response_not_empty" :=
                   CrStr "The agent should provide a non-empty response" ]}
              [] 30).
Proof.
  assert (Hne : threshold_criteria <> ∅) by apply insert_non_empty.
  destruct (proj2 (TestCase_requires_criteria sample_str_float "tc-1" "greets"
                     "the agent greets" FUNCTIONAL sample_prompt None None
                     None) threshold_criteria Hne) as (Hnew & _ & _ & _).
  rewrite Hnew. reflexivity.
Defined.

(** ** TestRun *)

(** C1, as stated, fails: a run built from one result and no summary gets
    total 1 and five zero counts. *)
Lemma summary_consistent_fails :
  ~ summary_consistent
      (TestRun_new "run-1" "agent-1" "suite-1" PASSED sample_start None
                   (Some ["result-1"]) None).
Proof.
  unfold summary_consistent. intros [_ Hsum].
  vm_compute in Hsum. discriminate Hsum.
Qed.

(** C1, amended. A TestRun built from a non-empty results list and no
    summary (or an empty one) has [summary["total"] = len(results)] and
    each per-status count equal to 0, so the counts sum to 0; a non-empty
    summary given to the constructor is stored as it is. *)
Theorem TestRun_default_summary :
  forall id agent_id suite_id status start_time end_time
         (results : list string),
    results <> [] ->
    (forall summary,
       summary = None \/ summary = Some ∅ ->
       let r := TestRun_new id agent_id suite_id status start_time end_time
                            (Some results) summary in
       run_results r = results /\
       run_summary r !! "total" = Some (Z.of_nat (length results)) /\
       (forall k, k ∈ status_keys -> run_summary r !! k = Some 0) /\
       counts_sum (run_summary r) = 0) /\
    (forall given : gmap string Z,
       given <> ∅ ->
       run_summary (TestRun_new id agent_id suite_id status start_time
                                end_time (Some results) (Some given))
       = given).
Proof.
  intros id agent_id suite_id status start_time end_time results Hne. split.
  - intros summary Hs r.
    assert (Hr : run_summary r =
                 list_to_map [ ("total", Z.of_nat (length results));
                               ("pending", 0); ("passed", 0); ("failed", 0);
                               ("error", 0); ("skipped", 0) ]).
    { subst r. destruct Hs as [-> | ->]; simpl;
        by apply calculate_summary_default. }
    rewrite Hr. repeat split.
    + intros k Hk. unfold status_keys in Hk.
      repeat (apply elem_of_cons in Hk as [-> | Hk]; [reflexivity|]).
      by apply elem_of_nil in Hk.
  - intros given Hg. simpl. by apply calculate_summary_given.
Qed.

Lemma TestRun_default_summary_witness :
  let r := TestRun_new "run-1" "agent-1" "suite-1" PASSED sample_start None
                       (Some ["result-1"; "result-2"]) None in
  run_results r = ["result-1"; "result-2"] /\
  run_summary r !! "total" = Some 2 /\
  (forall k, k ∈ status_keys -> run_summary r !! k = Some 0) /\
  counts_sum (run_summary r) = 0.
Proof.
  apply (proj1 (TestRun_default_summary "run-1" "agent-1" "suite-1" PASSED
                  sample_start None ["result-1"; "result-2"]
                  ltac:(discriminate)) None).
  left; reflexivity.
Defined.

(** C10. A TestRun built with an empty results list (given or by
    default) and no summary has the empty mapping as its summary: neither
    a "total" key nor any per-status key. *)
Theorem TestRun_no_results_empty_summary :
  forall id agent_id suite_id status start_time end_time,
    let r0 := TestRun_new id agent_id suite_id status start_time end_time
                          None None in
    let r1 := TestRun_new id agent_id suite_id status start_time end_time
                          (Some []) None in
    run_summary r0 = ∅ /\ run_summary r1 = ∅ /\
    run_summary r1 !! "total" = None /\
    (forall k, run_summary r0 !! k = None /\ run_summary r1 !! k = None).
Proof.
  intros. subst r0 r1. simpl. rewrite calculate_summary_no_results.
  repeat split; apply lookup_empty.
Qed.

(** ** TestResult *)

Lemma set_end_time_terminal now v status :
  pending_or_running status = false ->
  is_Some (set_end_time now v status).
Proof.
  intros Hs. unfold set_end_time. destruct v; [eauto|].
  rewrite Hs. simpl. eauto.
Qed.

Lemma run_validator_Return {A} model field (o : outcome A) (a : A) :
  run_validator model field o = Return a -> o = Return a.
Proof.
  destruct o as [a'|e]; simpl; [done|].
  by destruct (isinstance e ValueError || isinstance e TypeError).
Qed.

(** C2, as stated, fails twice: the code truncates where the statement
    rounds (1600 microseconds give 1 ms, rounding gives 2), and an end
    before the start gives a negative duration. *)
Lemma duration_consistent_fails :
  (exists r,
     TestResult_new sample_start "tc-1" "agent-1" PASSED sample_start
       (Some (Datetime 1600 None)) None sample_inputs None None None None
     = Return r /\ tr_duration_ms r = Some 1 /\
     rounded_duration (Datetime 1600 None) sample_start = Return 2 /\
     ~ duration_consistent r) /\
  (exists r,
     TestResult_new sample_start "tc-1" "agent-1" FAILED
       (Datetime 5000000 None) None None sample_inputs None None None None
     = Return r /\ tr_end_time r = Some sample_start /\
     tr_duration_ms r = Some (-5000) /\
     ~ duration_consistent r).
Proof.
  split.
  - eexists. split; [reflexivity|]. split; [reflexivity|].
    split; [reflexivity|].
    intros [_ H]. destruct (H _ eq_refl) as (d & Hd & Hr & _).
    vm_compute in Hd. injection Hd as <-.
    vm_compute in Hr. discriminate Hr.
  - eexists. split; [reflexivity|]. split; [reflexivity|].
    split; [reflexivity|].
    intros [_ H]. destruct (H _ eq_refl) as (d & Hd & _ & Hpos).
    vm_compute in Hd. injection Hd as <-. lia.
Qed.

(** C2, amended. In every TestResult that the constructor returns, a
    status other than pending and running comes with an end time; and when
    no duration was passed and the end time is set, [duration_ms] is
    [int((end_time - start_time).total_seconds() * 1000)], truncated
    towards zero, which is not negative when the timedelta
    [end_time - start_time] is not negative. A duration passed to the
    constructor is kept as it is. *)
Theorem TestResult_end_time_and_duration :
  forall now test_case_id agent_id status start_time end_time duration_ms
         inputs actual_outputs metrics errors logs r,
    TestResult_new now test_case_id agent_id status start_time end_time
                   duration_ms inputs actual_outputs metrics errors logs
    = Return r ->
    tr_status r = status /\ tr_start_time r = start_time /\
    tr_end_time r = set_end_time now end_time status /\
    (pending_or_running status = false -> is_Some (tr_end_time r)) /\
    (forall end_,
       duration_ms = None -> tr_end_time r = Some end_ ->
       exists td d, datetime_sub end_ start_time = Return td /\
                    tr_duration_ms r = Some d /\
                    duration_of end_ start_time = Return d /\
                    (0 <= td -> 0 <= d)) /\
    (forall d, duration_ms = Some d -> tr_duration_ms r = Some d).
Proof.
  intros now test_case_id agent_id status start_time end_time duration_ms
         inputs actual_outputs metrics errors logs r Hnew.
  unfold TestResult_new in Hnew.
  destruct (run_validator "TestResult" "duration_ms" _) as [dur|] eqn:Hv;
    [|discriminate].
  apply run_validator_Return in Hv.
  injection Hnew as <-. simpl.
  split; [reflexivity|]. split; [reflexivity|]. split; [reflexivity|].
  split; [apply set_end_time_terminal|]. split.
  - intros end_ -> Hend. rewrite Hend in Hv. simpl in Hv.
    destruct (duration_of end_ start_time) as [d|] eqn:Hd; [|discriminate].
    injection Hv as <-.
    destruct (datetime_sub end_ start_time) as [td|e] eqn:Hsub.
    + exists td, d. split; [reflexivity|]. split; [reflexivity|].
      split; [reflexivity|]. by apply (duration_of_nonneg end_ start_time).
    + unfold duration_of in Hd. rewrite Hsub in Hd. discriminate.
  - intros d ->. simpl in Hv. by injection Hv as <-.
Qed.

Lemma TestResult_end_time_and_duration_witness :
  exists r,
    TestResult_new (Datetime 2500 None) "tc-1" "agent-1" PASSED sample_start
      None None sample_inputs None None None None = Return r /\
    tr_end_time r = Some (Datetime 2500 None) /\
    tr_duration_ms r = Some 2.
Proof.
  eexists. split; [reflexivity|].
  destruct (TestResult_end_time_and_duration (Datetime 2500 None) "tc-1"
              "agent-1" PASSED sample_start None None sample_inputs None None
              None None _ eq_refl) as (_ & _ & Hend & _ & _ & _).
  split; [exact Hend | reflexivity].
Defined.

(** Two aware times of one time zone, on the two sides of the change
    from summer to winter time: the end is 40 minutes after the start,
    and 20 minutes before it on the wall clock, which is what the
    subtraction of two datetimes with the same [tzinfo] reads. *)
Lemma duration_across_offset_change :
  let start_time := Datetime 9000000000 (paris 2) in
  let end_time := Datetime 7800000000 (paris 1) in
  datetime_sub end_time start_time = Return (- 1200000000) /\
  duration_of end_time start_time = Return (- 1200000) /\
  duration_of (Datetime 7800000000 (Some ("CET", 3600000000)))
              (Datetime 9000000000 (Some ("CEST", 7200000000)))
  = Return 2400000.
Proof. by vm_compute. Qed.


(* ===================================================================== *)
(** * Properties of the gateway client *)
(* ===================================================================== *)

Lemma try_except_Return {S A} g (body : py S A) cls s a s' :
  body s = (Return a, s') -> try_except g body cls s = (Return a, s').
Proof. intros H. unfold try_except. by rewrite H. Qed.

Lemma try_except_Raise {S A} g (body : py S A) cls s e s' :
  body s = (Raise e, s') -> try_except g body cls s = dispatch g e cls s'.
Proof. intros H. unfold try_except. by rewrite H. Qed.

Lemma try_except_Raise_inv {S A} g (body : py S A) cls s e s' :
  try_except g body cls s = (Raise e, s') ->
  exists e0 s0, body s = (Raise e0, s0) /\ dispatch g e0 cls s0 = (Raise e, s').
Proof.
  unfold try_except. destruct (body s) as [[a|e0] s0]; [discriminate|].
  intros H. by exists e0, s0.
Qed.

Lemma isinstance_AgentNotFoundError e :
  isinstance e AgentNotFoundError = true -> exn_class e = AgentNotFoundError.
Proof. destruct e as [[] msg]; cbv; congruence. Qed.

Lemma isinstance_TestSuiteNotFoundError e :
  isinstance e TestSuiteNotFoundError = true ->
  exn_class e = TestSuiteNotFoundError.
Proof. destruct e as [[] msg]; cbv; congruence. Qed.

Lemma string_app_assoc (a b c : string) : (a +:+ b) +:+ c = a +:+ b +:+ c.
Proof.
  induction a as [|x a IH]; [reflexivity|].
  change (String x ((a +:+ b) +:+ c) = String x (a +:+ b +:+ c)).
  by rewrite IH.
Qed.

Lemma is_success_not_404 r :
  Client.is_success r = true -> (Client.status_code r =? 404) = false.
Proof. unfold Client.is_success. lia. Qed.

Section ClientFacts.
Context {W : Type}.

(** What [_handle_response] does, case by case. *)
Lemma handle_response_failure (r : Client.Response) (w : W) :
  Client.is_success r = false ->
  Client._handle_response r w =
    if Client.status_code r =? 404
    then (Raise (Exn AgentNotFoundError
                   ("Agent not found: " +:+ Client.text r)), w)
    else (Raise (Exn ArchonAPIError
                   ("API error: " +:+ pretty (Client.status_code r) +:+ " - "
                    +:+ Client.text r)), w).
Proof.
  intros Hs.
  unfold Client._handle_response, try_except, bind, lift,
    Client.raise_for_status.
  rewrite Hs. cbn. by destruct (Client.status_code r =? 404).
Qed.

Lemma handle_response_success (r : Client.Response) (w : W) :
  Client.is_success r = true ->
  Client._handle_response r w =
    match Client.decoded r with
    | inl v => (Return v, w)
    | inr msg =>
        (Raise (Exn ArchonAPIError
                  ("Error processing response: " +:+ msg)), w)
    end.
Proof.
  intros Hs.
  unfold Client._handle_response, try_except, bind, lift,
    Client.raise_for_status, Client.json.
  rewrite Hs. by destruct (Client.decoded r) as [v|msg].
Qed.

(** A response that is not a 404 leaves [_handle_response], if as an
    exception, as an [ArchonAPIError]. *)
Lemma handle_response_not_found_only_404 (r : Client.Response) (w : W) e w' :
  Client._handle_response r w = (Raise e, w') ->
  (Client.status_code r =? 404) = false ->
  w' = w /\ exn_class e = ArchonAPIError.
Proof.
  intros H Hne. destruct (Client.is_success r) eqn:Hs.
  - rewrite (handle_response_success _ _ Hs) in H.
    destruct (Client.decoded r) as [v|msg]; [discriminate|].
    by injection H as <- <-.
  - rewrite (handle_response_failure _ _ Hs), Hne in H.
    by injection H as <- <-.
Qed.

(** The pattern shared by [get_agent] and [invoke_agent]: send, handle,
    re-raise not-found, wrap the rest. *)
Lemma guarded_call_errors (send : py W Client.Response) (diag : string)
    (msg : exn -> string) (w : W) (r : Client.Response) (w' : W) :
  (forall e, msg e = diag +:+ exn_str e) ->
  send w = (Return r, w') ->
  gateway_errors_mapped
    (try_except Client.globals
       (bind send (fun response => Client._handle_response response))
       [ Except ["AgentNotFoundError"] (fun e => raise e);
         Except ["Exception"] (fun e =>
           raise_named Client.globals "ArchonAPIError" (msg e)) ])
    diag w r w'.
Proof.
  intros Hmsg Hsend. unfold gateway_errors_mapped. split; [|split].
  - intros H404.
    assert (Hs : Client.is_success r = false)
      by (unfold Client.is_success; lia).
    erewrite try_except_Raise.
    2:{ unfold bind. rewrite Hsend, (handle_response_failure _ _ Hs).
        apply Z.eqb_eq in H404. rewrite H404. reflexivity. }
    reflexivity.
  - intros e w'' Hcall Ha.
    destruct (Client.status_code r =? 404) eqn:H404; [lia|]. exfalso.
    apply try_except_Raise_inv in Hcall as (e0 & w0 & Hbody & Hd).
    unfold bind in Hbody. rewrite Hsend in Hbody.
    destruct (handle_response_not_found_only_404 _ _ _ _ Hbody H404)
      as (-> & Hcls).
    destruct e0 as [c msg0]; simpl in Hcls; subst c.
    cbn in Hd. injection Hd as <- <-. discriminate Ha.
  - intros Hs H404. apply Z.eqb_neq in H404.
    erewrite try_except_Raise.
    2:{ unfold bind. rewrite Hsend, (handle_response_failure _ _ Hs), H404.
        reflexivity. }
    cbn. by rewrite Hmsg.
Qed.

End ClientFacts.

(** C8. When the transport hands [get_agent] or [invoke_agent] a
    response, the call raises [AgentNotFoundError] exactly when the status
    is 404, and for any other status outside 2xx it raises
    [ArchonAPIError] with a message that holds the status code and the
    body text. *)
Theorem client_error_mapping :
  forall (W : Type) (tr : Client.Transport W) (agent_id : string)
         (inputs : list (string * pyval)) (w : W) (r : Client.Response)
         (w' : W),
    (Client.http_get tr ("/agents/" +:+ agent_id) w = (Return r, w') ->
     gateway_errors_mapped (Client.get_agent tr agent_id)
       ("Error getting agent " +:+ agent_id +:+ ": ") w r w') /\
    (Client.http_post tr ("/agents/" +:+ agent_id +:+ "/invoke")
       (PDict [("inputs", PDict inputs)]) w = (Return r, w') ->
     gateway_errors_mapped (Client.invoke_agent tr agent_id inputs)
       ("Error invoking agent " +:+ agent_id +:+ ": ") w r w').
Proof.
  intros. split; intros Hsend.
  - refine (guarded_call_errors _ _ _ _ _ _ _ Hsend).
    intros e. cbn. by rewrite <- !string_app_assoc.
  - refine (guarded_call_errors _ _ _ _ _ _ _ Hsend).
    intros e. cbn. by rewrite <- !string_app_assoc.
Qed.

Lemma client_error_mapping_witness :
  Client.get_agent (sample_transport (Return not_found_response)) "agent-1" []
  = (Raise (Exn AgentNotFoundError "Agent not found: no such agent"),
     ["GET /agents/agent-1"]) /\
  Client.invoke_agent (sample_transport (Return server_error_response))
    "agent-1" [("prompt", PStr "hello")] []
  = (Raise (Exn ArchonAPIError
              "Error invoking agent agent-1: API error: 500 - boom"),
     ["POST /agents/agent-1/invoke"]).
Proof.
  split.
  - apply (proj1 (client_error_mapping (list string)
                    (sample_transport (Return not_found_response)) "agent-1"
                    [] [] not_found_response ["GET /agents/agent-1"]));
      reflexivity.
  - apply (proj2 (client_error_mapping (list string)
                    (sample_transport (Return server_error_response))
                    "agent-1" [("prompt", PStr "hello")] []
                    server_error_response ["POST /agents/agent-1/invoke"]));
      [reflexivity | reflexivity | discriminate].
Defined.

(* ===================================================================== *)
(** * Properties of the orchestrator *)
(* ===================================================================== *)

Lemma bind_Return {S A B} (m : py S A) (k : A -> py S B) s a s' :
  m s = (Return a, s') -> bind m k s = k a s'.
Proof. intros H. unfold bind. by rewrite H. Qed.

Lemma bind_Raise {S A B} (m : py S A) (k : A -> py S B) s e s' :
  m s = (Raise e, s') -> bind m k s = (Raise e, s').
Proof. intros H. unfold bind. by rewrite H. Qed.

Lemma bind_Return_inv {S A B} (m : py S A) (k : A -> py S B) s b s' :
  bind m k s = (Return b, s') ->
  exists a s0, m s = (Return a, s0) /\ k a s0 = (Return b, s').
Proof.
  unfold bind. destruct (m s) as [[a|e] s0]; [|discriminate].
  intros H. by exists a, s0.
Qed.

Lemma surfaced_not_found agent_id e0 :
  isinstance e0 AgentNotFoundError = true \/
  isinstance e0 TestSuiteNotFoundError = true ->
  surfaced agent_id e0 = e0.
Proof.
  intros [H|H]; unfold surfaced; rewrite H; [reflexivity|].
  by rewrite orb_true_r.
Qed.

Lemma surfaced_wrapped agent_id e0 :
  isinstance e0 AgentNotFoundError = false ->
  isinstance e0 TestSuiteNotFoundError = false ->
  isinstance e0 Exception = true ->
  surfaced agent_id e0 =
    Exn ArchonAgentTesterError
      ("Error testing agent " +:+ agent_id +:+ ": " +:+ exn_str e0).
Proof. intros Ha Hs He. unfold surfaced. by rewrite Ha, Hs, He. Qed.

Lemma surfaced_tester_error agent_id e0 :
  isinstance e0 Exception = true ->
  isinstance (surfaced agent_id e0) ArchonAgentTesterError = true.
Proof.
  intros He. unfold surfaced.
  destruct (isinstance e0 AgentNotFoundError) eqn:Ha.
  { apply isinstance_AgentNotFoundError in Ha.
    destruct e0 as [c msg]; simpl in *; by subst c. }
  destruct (isinstance e0 TestSuiteNotFoundError) eqn:Hs.
  { apply isinstance_TestSuiteNotFoundError in Hs.
    destruct e0 as [c msg]; simpl in *; by subst c. }
  by rewrite He.
Qed.

Section TesterFacts.
Context {W : Type} (env : Tester.Collaborators W).

Lemma test_agent_Return agent_id suite (t : Tester.ArchonTester W) run t' :
  Tester.test_agent_body env agent_id suite t = (Return run, t') ->
  Tester.test_agent env agent_id suite t = (Return run, t').
Proof. intros H. unfold Tester.test_agent. by apply try_except_Return. Qed.

Lemma test_agent_Raise agent_id suite (t : Tester.ArchonTester W) e0 t' :
  Tester.test_agent_body env agent_id suite t = (Raise e0, t') ->
  Tester.test_agent env agent_id suite t = (Raise (surfaced agent_id e0), t').
Proof.
  intros H. unfold Tester.test_agent.
  rewrite (try_except_Raise _ _ _ _ _ _ H). cbn. unfold surfaced.
  rewrite orb_false_r.
  destruct (isinstance e0 AgentNotFoundError || isinstance e0 TestSuiteNotFoundError);
    [reflexivity|].
  cbn. rewrite orb_false_r. by destruct (isinstance e0 Exception).
Qed.

Lemma test_agent_Raise_inv agent_id suite (t : Tester.ArchonTester W) e t' :
  Tester.test_agent env agent_id suite t = (Raise e, t') ->
  exists e0, Tester.test_agent_body env agent_id suite t = (Raise e0, t') /\
             e = surfaced agent_id e0.
Proof.
  intros H.
  destruct (Tester.test_agent_body env agent_id suite t) as [[run|e0] t0] eqn:Hb.
  - rewrite (test_agent_Return _ _ _ _ _ Hb) in H. discriminate.
  - rewrite (test_agent_Raise _ _ _ _ _ Hb) in H. injection H as <- <-.
    by exists e0.
Qed.

(** A run that [execute_and_store] returns is in the registry. *)
Lemma execute_and_store_stores agent_id suite (t : Tester.ArchonTester W)
    run t1 :
  Tester.execute_and_store env agent_id suite t = (Return run, t1) ->
  Tester.test_runs t1 !! run_id run = Some run.
Proof.
  unfold Tester.execute_and_store. intros H.
  apply bind_Return_inv in H as (agent & ta & _ & H).
  apply bind_Return_inv in H as (s & ts & _ & H).
  apply bind_Return_inv in H as (run' & tr & _ & H).
  apply bind_Return_inv in H as ([] & tm & Hm & H).
  unfold modify in Hm. injection Hm as <-.
  unfold ret in H. injection H as <- <-.
  simpl. apply lookup_insert_eq.
Qed.

(** When the write-back returns, so does [test_agent], with the run. *)
Lemma test_agent_write_back_returns agent_id suite
    (t t1 : Tester.ArchonTester W) run w2 :
  Tester.execute_and_store env agent_id suite t = (Return run, t1) ->
  Tester.update_agent_with_test_results env agent_id run (Tester.world t1)
    = (Return tt, w2) ->
  Tester.test_agent env agent_id suite t
    = (Return run, Tester.set_world w2 t1).
Proof.
  intros Hrun Hupd. apply test_agent_Return.
  unfold Tester.test_agent_body. rewrite (bind_Return _ _ _ _ _ Hrun).
  unfold bind, Tester.in_world. by rewrite Hupd.
Qed.

End TesterFacts.

(** C4. When the gateway does not know the agent, that is when
    [get_agent] raises an [AgentNotFoundError], [test_agent] raises that
    same exception and the three registries, the runs among them, are as
    they were before the call. *)
Theorem test_agent_unknown_agent :
  forall (W : Type) (env : Tester.Collaborators W) (agent_id : string)
         (test_suite : string + TestSuite) (t : Tester.ArchonTester W)
         (e : exn) (w' : W),
    Client.get_agent (Tester.transport env) agent_id (Tester.world t)
      = (Raise e, w') ->
    isinstance e AgentNotFoundError = true ->
    exists t',
      Tester.test_agent env agent_id test_suite t = (Raise e, t') /\
      exn_class e = AgentNotFoundError /\
      Tester.test_runs t' = Tester.test_runs t /\
      Tester.test_suites t' = Tester.test_suites t /\
      Tester.test_cases t' = Tester.test_cases t /\
      Tester.world t' = w'.
Proof.
  intros W env agent_id test_suite t e w' Hget Ha.
  exists (Tester.set_world w' t).
  split; [|by split; [apply isinstance_AgentNotFoundError|]].
  rewrite <- (surfaced_not_found agent_id e (or_introl Ha)) at 1.
  apply test_agent_Raise.
  unfold Tester.test_agent_body, Tester.execute_and_store.
  apply bind_Raise, bind_Raise. unfold Tester.in_world. by rewrite Hget.
Qed.

Lemma test_agent_unknown_agent_witness :
  exists t',
    Tester.test_agent (sample_env (Return not_found_response) (Return tt))
      "agent-1" (inl "functional") fresh_tester
    = (Raise (Exn AgentNotFoundError "Agent not found: no such agent"), t') /\
    exn_class (Exn AgentNotFoundError "Agent not found: no such agent")
      = AgentNotFoundError /\
    Tester.test_runs t' = ∅ /\
    Tester.test_suites t' = ∅ /\
    Tester.test_cases t' = ∅ /\
    Tester.world t' = ["GET /agents/agent-1"].
Proof.
  apply (test_agent_unknown_agent (list string)
           (sample_env (Return not_found_response) (Return tt)) "agent-1"
           (inl "functional") fresh_tester
           (Exn AgentNotFoundError "Agent not found: no such agent")
           ["GET /agents/agent-1"]); reflexivity.
Defined.

(** C5, on the code. For a run id that is not registered,
    [generate_report] raises [NameError]: the name [TestRunNotFoundError]
    that line 168 raises, and that line 185 names again, is bound nowhere.
    The tester is left as it was. *)
Theorem generate_report_unregistered :
  forall (W : Type) (env : Tester.Collaborators W) (run_name format : string)
         (t : Tester.ArchonTester W),
    Tester.test_runs t !! run_name = None ->
    Tester.generate_report env (inl run_name) format t
    = (Raise (Exn NameError "name 'TestRunNotFoundError' is not defined"), t).
Proof.
  intros W env run_name format t Hnone.
  unfold Tester.generate_report, try_except, bind, gets.
  rewrite Hnone. reflexivity.
Qed.

Lemma generate_report_unregistered_witness :
  Tester.generate_report (sample_env (Return ok_response) (Return tt))
    (inl "run-9") "json" fresh_tester
  = (Raise (Exn NameError "name 'TestRunNotFoundError' is not defined"),
     fresh_tester).
Proof.
  apply (generate_report_unregistered (list string)
           (sample_env (Return ok_response) (Return tt)) "run-9" "json"
           fresh_tester).
  reflexivity.
Defined.

(** What [test_agent] does with an exception raised under its [try]
    that derives from [Exception]. *)
Lemma test_agent_surfaces {W : Type} (env : Tester.Collaborators W)
    agent_id suite (t t' : Tester.ArchonTester W) e0 :
  Tester.test_agent_body env agent_id suite t = (Raise e0, t') ->
  isinstance e0 Exception = true ->
  (isinstance e0 AgentNotFoundError = true \/
   isinstance e0 TestSuiteNotFoundError = true ->
   Tester.test_agent env agent_id suite t = (Raise e0, t')) /\
  (isinstance e0 AgentNotFoundError = false ->
   isinstance e0 TestSuiteNotFoundError = false ->
   Tester.test_agent env agent_id suite t
   = (Raise (Exn ArchonAgentTesterError
               ("Error testing agent " +:+ agent_id +:+ ": " +:+
                exn_str e0)), t')).
Proof.
  intros Hbody He. apply test_agent_Raise in Hbody. split.
  - intros Hnf. by rewrite (surfaced_not_found _ _ Hnf) in Hbody.
  - intros Ha Hs. by rewrite (surfaced_wrapped _ _ Ha Hs He) in Hbody.
Qed.

(** C7. Whatever the block under the [try] of [test_agent] does comes out
    as the claim says.  An exception [e0] that derives from [Exception]
    and is raised there leaves [test_agent] unchanged when it is an
    [AgentNotFoundError] or a [TestSuiteNotFoundError], and otherwise as
    an [ArchonAgentTesterError] whose text is
    ["Error testing agent <id>: "] followed by [str(e0)]; nothing else is
    raised, so every error that [test_agent] raises is an
    [ArchonAgentTesterError]; and a run returned under the [try] is
    returned. *)
Theorem test_agent_error_surface :
  forall (W : Type) (env : Tester.Collaborators W) (agent_id : string)
         (test_suite : string + TestSuite) (t : Tester.ArchonTester W),
    (forall e0 t',
       Tester.test_agent_body env agent_id test_suite t = (Raise e0, t') ->
       isinstance e0 Exception = true ->
       (isinstance e0 AgentNotFoundError = true \/
        isinstance e0 TestSuiteNotFoundError = true ->
        Tester.test_agent env agent_id test_suite t = (Raise e0, t')) /\
       (isinstance e0 AgentNotFoundError = false ->
        isinstance e0 TestSuiteNotFoundError = false ->
        Tester.test_agent env agent_id test_suite t
        = (Raise (Exn ArchonAgentTesterError
                    ("Error testing agent " +:+ agent_id +:+ ": " +:+
                     exn_str e0)), t'))) /\
    (forall e t',
       Tester.test_agent env agent_id test_suite t = (Raise e, t') ->
       isinstance e Exception = true ->
       isinstance e ArchonAgentTesterError = true /\
       exists e0,
         Tester.test_agent_body env agent_id test_suite t = (Raise e0, t') /\
         isinstance e0 Exception = true) /\
    (forall run t',
       Tester.test_agent_body env agent_id test_suite t = (Return run, t') ->
       Tester.test_agent env agent_id test_suite t = (Return run, t')).
Proof.
  intros W env agent_id test_suite t. split; [|split].
  - intros e0 t'. apply test_agent_surfaces.
  - intros e t' Hraise He.
    apply test_agent_Raise_inv in Hraise as (e0 & Hbody & ->).
    destruct (isinstance e0 Exception) eqn:He0.
    + split; [by apply surfaced_tester_error|]. by exists e0.
    + exfalso. unfold surfaced in He. rewrite He0 in He.
      destruct (isinstance e0 AgentNotFoundError
                || isinstance e0 TestSuiteNotFoundError); congruence.
  - intros run t'. apply test_agent_Return.
Qed.

Lemma test_agent_error_surface_witness :
  Tester.test_agent (sample_env (Return server_error_response) (Return tt))
    "agent-1" (inl "functional") fresh_tester
  = (Raise (Exn ArchonAgentTesterError
              ("Error testing agent agent-1: " +:+
               "Error getting agent agent-1: API error: 500 - boom")),
     Tester.set_world ["GET /agents/agent-1"] fresh_tester) /\
  only_tester_errors (sample_env (Return server_error_response) (Return tt))
    "agent-1" (inl "functional") fresh_tester.
Proof.
  pose proof (test_agent_error_surface (list string)
                (sample_env (Return server_error_response) (Return tt))
                "agent-1" (inl "functional") fresh_tester)
    as (Hforward & Hsurface & _).
  split.
  - apply (Hforward
             (Exn ArchonAPIError
                "Error getting agent agent-1: API error: 500 - boom")
             (Tester.set_world ["GET /agents/agent-1"] fresh_tester));
      reflexivity.
  - intros e t' Hraise He. by apply (Hsurface e t').
Defined.

(** C9. [create_custom_test_case] without criteria puts the single
    default criterion in their place and returns the registered test
    case; given criteria that are not empty it returns the registered
    test case with those criteria as [TestCase] validates them, a float
    as its [str]; so the criteria of a test case it returns are never
    empty.  Given the empty mapping it raises the validation error of
    [TestCase], and no test case is registered. *)
Theorem create_custom_test_case_criteria :
  forall (W : Type) (env : Tester.Collaborators W) (name description : string)
         (test_type : TestType) (inputs : gmap string input_value)
         (expected_outputs : option (gmap string input_value))
         (tags : option (list string)) (timeout : Z)
         (t : Tester.ArchonTester W),
    (exists tc t',
       Tester.create_custom_test_case env name description test_type inputs
         expected_outputs None tags timeout t = (Return tc, t') /\
       tc_evaluation_criteria tc =
         {[ "response_not_empty" :=
              CrStr "The agent should provide a non-empty response" ]} /\
       tc_evaluation_criteria tc <> ∅ /\
       Tester.test_cases t' !! tc_id tc = Some tc) /\
    (forall criteria : gmap string criterion_value,
       criteria <> ∅ ->
       exists tc t',
         Tester.create_custom_test_case env name description test_type inputs
           expected_outputs (Some criteria) tags timeout t = (Return tc, t') /\
         tc_evaluation_criteria tc =
           validate_criterion_value (fun f => Tester.str_of env (PFloat f))
             <$> criteria /\
         tc_evaluation_criteria tc <> ∅ /\
         Tester.test_cases t' !! tc_id tc = Some tc) /\
    (exists e t',
       Tester.create_custom_test_case env name description test_type inputs
         expected_outputs (Some ∅) tags timeout t = (Raise e, t') /\
       exn_class e = ValidationError /\
       Tester.test_cases t' = Tester.test_cases t).
Proof.
  intros W env name description test_type inputs expected_outputs tags
         timeout t.
  set (str_float := fun f => Tester.str_of env (PFloat f)).
  assert (Hok : forall criteria : gmap string criterion_value,
            criteria <> ∅ ->
            forall given,
              (given = None /\
               criteria = {[ "response_not_empty" :=
                   CrStr "The agent should provide a non-empty response" ]}) \/
              given = Some criteria ->
              exists tc t',
                Tester.create_custom_test_case env name description test_type
                  inputs expected_outputs given tags timeout t
                = (Return tc, t') /\
                tc_evaluation_criteria tc =
                  validate_criterion_value str_float <$> criteria /\
                Tester.test_cases t' !! tc_id tc = Some tc).
  { intros criteria Hne given Hgiven.
    unfold Tester.create_custom_test_case, bind, Tester.in_world, lift.
    destruct (Tester.uuid4 env (Tester.world t)) as [u w'].
    destruct Hgiven as [[-> ->] | ->];
      rewrite (TestCase_new_with_criteria _ _ _ _ _ _ _ _ _ _ Hne);
      cbn; eexists _, _; (split; [reflexivity|]);
      (split; [reflexivity|]); apply lookup_insert_eq. }
  split; [|split].
  - assert (Hd : ({[ "response_not_empty" :=
                       CrStr "The agent should provide a non-empty response" ]}
                    : gmap string criterion_value) <> ∅)
      by apply insert_non_empty.
    destruct (Hok _ Hd None) as (tc & t' & H1 & H2 & H3); [by left|].
    rewrite map_fmap_singleton in H2. cbn in H2.
    exists tc, t'. rewrite H2. by repeat split.
  - intros criteria Hne.
    destruct (Hok _ Hne (Some criteria)) as (tc & t' & H1 & H2 & H3);
      [by right|].
    exists tc, t'. rewrite H2.
    repeat split; try done. by apply validated_criteria_non_empty.
  - unfold Tester.create_custom_test_case, bind, Tester.in_world, lift.
    destruct (Tester.uuid4 env (Tester.world t)) as [u w'].
    rewrite TestCase_new_no_criteria.
    eexists _, _. split; [reflexivity|]. by split.
Qed.

Lemma create_custom_test_case_criteria_witness :
  exists tc t',
    Tester.create_custom_test_case (sample_env (Return ok_response) (Return tt))
      "greets" "the agent greets" CUSTOM sample_prompt None
      (Some sample_criteria) None 30 fresh_tester = (Return tc, t') /\
    tc_evaluation_criteria tc = sample_criteria /\
    Tester.test_cases t' !! tc_id tc = Some tc.
Proof.
  assert (Hne : sample_criteria <> ∅) by apply insert_non_empty.
  destruct (proj1 (proj2 (create_custom_test_case_criteria (list string)
                            (sample_env (Return ok_response) (Return tt))
                            "greets" "the agent greets" CUSTOM sample_prompt
                            None None 30 fresh_tester)) sample_criteria Hne)
    as (tc & t' & Hcall & Hcrit & _ & Hreg).
  exists tc, t'. split; [exact Hcall|]. split; [|exact Hreg].
  rewrite Hcrit. reflexivity.
Defined.

(* ===================================================================== *)
(** * Further properties of the domain models *)
(* ===================================================================== *)

Lemma TestType_of_value_invalid (s : string) :
  (forall t, TestType_value t <> s) ->
  TestType_of_value s
  = Raise (Exn ValueError (repr_str s +:+ " is not a valid TestType")).
Proof.
  intros Hno. unfold TestType_of_value. cbn [find TestType_value].
  repeat (match goal with
          | |- context [String.eqb ?a s] =>
              destruct (String.eqb_spec a s) as [Heq|_]
          end; [exfalso|]).
  6: reflexivity.
  - by apply (Hno FUNCTIONAL).
  - by apply (Hno PERFORMANCE).
  - by apply (Hno RELIABILITY).
  - by apply (Hno SAFETY).
  - by apply (Hno CUSTOM).
Qed.

(** X1. [TestType(s)] and [.value] are inverse to each other: the value
    of a member names that member, a string that names a member is its
    value, letter case included, and any other string raises
    [ValueError] with the text [repr(s)] followed by
    [" is not a valid TestType"]. *)
Theorem TestType_value_round_trip :
  (forall t, TestType_of_value (TestType_value t) = Return t) /\
  (forall s t, TestType_of_value s = Return t -> TestType_value t = s) /\
  (forall s, (forall t, TestType_value t <> s) ->
     TestType_of_value s
     = Raise (Exn ValueError (repr_str s +:+ " is not a valid TestType"))).
Proof.
  split; [|split].
  - by intros [].
  - intros s t. unfold TestType_of_value. cbn [find TestType_value].
    repeat (match goal with
            | |- context [String.eqb ?a s] =>
                destruct (String.eqb_spec a s) as [<-|_]
            end; [by intros [= <-]|]).
    intros [=].
  - apply TestType_of_value_invalid.
Qed.

Lemma TestType_value_round_trip_witness :
  TestType_value SAFETY = "safety" /\
  TestType_of_value "Safety"
  = Raise (Exn ValueError "'Safety' is not a valid TestType") /\
  TestType_of_value "it's"
  = Raise (Exn ValueError
             (String double_quote
                ("it's" +:+
                 String double_quote " is not a valid TestType"))).
Proof.
  split; [|split].
  - apply (proj1 (proj2 TestType_value_round_trip) "safety" SAFETY).
    reflexivity.
  - apply (proj2 (proj2 TestType_value_round_trip) "Safety").
    by intros [].
  - apply (proj2 (proj2 TestType_value_round_trip) "it's").
    by intros [].
Defined.

(** [repr] on a few strings: plain text, text with a single quote, with
    both quotes, with a backslash, a tab and the control character 127. *)
Lemma repr_str_examples :
  repr_str "safety" = "'safety'" /\
  repr_str "it's" = String double_quote ("it's" +:+ String double_quote EmptyString) /\
  repr_str ("a'" +:+ String double_quote "b")
  = "'a" +:+ String backslash ("'" +:+ String double_quote "b'") /\
  repr_str ("x" +:+ String backslash "y")
  = "'x" +:+ String backslash (String backslash "y'") /\
  repr_str (String (ascii_of_nat 9) EmptyString)
  = "'" +:+ String backslash "t'" /\
  repr_str (String (ascii_of_nat 127) EmptyString)
  = "'" +:+ String backslash "x7f'".
Proof. by vm_compute. Qed.

(** X2. A TestResult built pending or running and without an end time
    keeps [end_time] and [duration_ms] unset, whatever the clock reads,
    and its construction does not fail. *)
Theorem TestResult_unfinished_has_no_end :
  forall now test_case_id agent_id status start_time inputs actual_outputs
         metrics errors logs,
    pending_or_running status = true ->
    exists r,
      TestResult_new now test_case_id agent_id status start_time None None
                     inputs actual_outputs metrics errors logs = Return r /\
      tr_end_time r = None /\ tr_duration_ms r = None /\
      tr_status r = status.
Proof.
  intros now test_case_id agent_id status start_time inputs actual_outputs
         metrics errors logs Hs.
  unfold TestResult_new, set_end_time. rewrite Hs. simpl.
  eexists. by repeat split.
Qed.

Lemma TestResult_unfinished_has_no_end_witness :
  exists r,
    TestResult_new (Datetime 2500 None) "tc-1" "agent-1" RUNNING sample_start
      None None sample_inputs None None None None = Return r /\
    tr_end_time r = None /\ tr_duration_ms r = None /\ tr_status r = RUNNING.
Proof.
  apply (TestResult_unfinished_has_no_end (Datetime 2500 None) "tc-1"
           "agent-1" RUNNING sample_start sample_inputs None None None None).
  reflexivity.
Defined.

(** X3. When no duration is passed and the end time in force (the one
    passed, else the clock's) is naive where the start time is aware, or
    the reverse, the constructor fails with the validation error of the
    field [duration_ms], of type [type_error]. *)
Theorem TestResult_mixed_awareness_fails :
  forall now test_case_id agent_id status start_time end_time inputs
         actual_outputs metrics errors logs end_,
    set_end_time now end_time status = Some end_ ->
    dt_aware end_ <> dt_aware start_time ->
    TestResult_new now test_case_id agent_id status start_time end_time None
                   inputs actual_outputs metrics errors logs
    = Raise (Exn ValidationError
               ("1 validation error for TestResult" +:+ nl +:+
                "duration_ms" +:+ nl +:+
                "  can't subtract offset-naive and offset-aware datetimes" +:+
                " (type=type_error)")).
Proof.
  intros now test_case_id agent_id status start_time end_time inputs
         actual_outputs metrics errors logs end_ Hend Hmix.
  unfold TestResult_new. rewrite Hend.
  unfold calculate_duration, duration_of.
  by rewrite (datetime_sub_mixed _ _ Hmix).
Qed.

Lemma TestResult_mixed_awareness_fails_witness :
  exists e,
    TestResult_new (Datetime 2500 None) "tc-1" "agent-1" PASSED
      (Datetime 0 utc) None None sample_inputs None None None None
    = Raise e /\ exn_class e = ValidationError.
Proof.
  eexists. split.
  - apply (TestResult_mixed_awareness_fails (Datetime 2500 None) "tc-1"
             "agent-1" PASSED (Datetime 0 utc) None sample_inputs None None
             None None (Datetime 2500 None)); [reflexivity | by vm_compute].
  - reflexivity.
Defined.

(** Rounding does not look at the sign: the result for a negative sign is
    the opposite of the result for a positive one. *)
Lemma binary_round_aux_opp m e l :
  binary_round_aux prec emax true m e l
  = SFopp (binary_round_aux prec emax false m e l).
Proof.
  unfold binary_round_aux.
  destruct (shr_fexp prec emax m e l) as [mrs' e'].
  destruct (shr_fexp prec emax _ e' loc_Exact) as [mrs'' e''].
  destruct (shr_m mrs''); simpl; auto.
  by destruct (Z.leb e'' (Z.sub emax prec)).
Qed.

Lemma SFopp_involutive x : SFopp (SFopp x) = x.
Proof. destruct x as [s|s| |s m e]; simpl; by rewrite ?negb_involutive. Qed.

Lemma int_truediv_pos_neg (m b : positive) :
  match int_truediv (Zpos m) b with
  | Return q => int_truediv (Zneg m) b = Return (SFopp q)
  | Raise e => int_truediv (Zneg m) b = Raise e
  end.
Proof.
  unfold int_truediv, SFdiv.
  destruct (SFdiv_core_binary prec emax (Z.pos m) 0 (Z.pos b) 0)
    as [[mz ez] lz].
  change (xorb true false) with true. change (xorb false false) with false.
  rewrite binary_round_aux_opp.
  by destruct (binary_round_aux prec emax false mz ez lz).
Qed.

Lemma int_truediv_opp (a : Z) (b : positive) q :
  a <> 0 -> int_truediv a b = Return q ->
  int_truediv (- a) b = Return (SFopp q).
Proof.
  intros Ha Hq. pose proof (int_truediv_pos_neg) as H.
  destruct a as [|m|m]; [done| |]; specialize (H m b).
  - change (- Z.pos m) with (Z.neg m). by rewrite Hq in H.
  - change (- Z.neg m) with (Z.pos m).
    destruct (int_truediv (Z.pos m) b) as [q'|e'].
    + rewrite H in Hq. injection Hq as <-. by rewrite SFopp_involutive.
    + rewrite H in Hq. discriminate.
Qed.

Lemma float_mul_1000_opp x :
  float_mul (SFopp x) (float_of_int 1000)
  = SFopp (float_mul x (float_of_int 1000)).
Proof.
  change (float_of_int 1000) with (S754_finite false 8796093022208000 (-43)).
  destruct x as [[]|[]| |[] m e]; simpl; try reflexivity.
  - by rewrite binary_round_aux_opp, SFopp_involutive.
  - by rewrite binary_round_aux_opp.
Qed.

Lemma int_of_float_opp x d :
  int_of_float x = Return d -> int_of_float (SFopp x) = Return (- d).
Proof.
  destruct x as [s|s| |s m e]; simpl; try discriminate.
  - by intros [= <-].
  - intros [= <-]. f_equal. destruct s; simpl; lia.
Qed.

(** X4. Swapping the two times negates the duration that line 82
    computes: truncation is towards zero, and the float division and
    product round the magnitude without regard to the sign.  Equal times
    give 0. *)
Theorem duration_of_antisymmetric :
  forall a b : datetime,
    (forall d, duration_of a b = Return d -> duration_of b a = Return (- d)) /\
    duration_of a a = Return 0.
Proof.
  intros a b. split.
  - intros d. unfold duration_of, total_seconds.
    destruct (datetime_sub a b) as [td|e] eqn:Hsub; [|discriminate].
    rewrite (datetime_sub_swap _ _ _ Hsub). intros Hd.
    destruct (Z.eq_dec td 0) as [Hz|Hnz].
    + subst td. vm_compute in Hd. injection Hd as <-. reflexivity.
    + destruct (int_truediv td 1000000) as [q|] eqn:Hq; [|discriminate].
      rewrite (int_truediv_opp _ _ _ Hnz Hq), float_mul_1000_opp.
      by apply int_of_float_opp.
  - unfold duration_of. rewrite datetime_sub_diag. reflexivity.
Qed.

Lemma duration_of_antisymmetric_witness :
  duration_of sample_start (Datetime 1600 None) = Return (- 1).
Proof.
  apply (proj1 (duration_of_antisymmetric (Datetime 1600 None) sample_start)
           1).
  reflexivity.
Defined.

Lemma default_summary_non_empty (n : Z) :
  (list_to_map [ ("total", n); ("pending", 0); ("passed", 0); ("failed", 0);
                 ("error", 0); ("skipped", 0) ] : gmap string Z) <> ∅.
Proof. apply insert_non_empty. Qed.

Lemma calculate_summary_idempotent (v : gmap string Z) (rs : list string) :
  calculate_summary (calculate_summary v rs) rs = calculate_summary v rs.
Proof.
  destruct ((size v =? 0)%nat && negb (length rs =? 0)%nat) eqn:Hc.
  - assert (E : calculate_summary v rs =
                list_to_map [ ("total", Z.of_nat (length rs));
                              ("pending", 0); ("passed", 0); ("failed", 0);
                              ("error", 0); ("skipped", 0) ])
      by (unfold calculate_summary; by rewrite Hc).
    rewrite E. apply calculate_summary_given, default_summary_non_empty.
  - assert (E : calculate_summary v rs = v)
      by (unfold calculate_summary; by rewrite Hc).
    by rewrite !E.
Qed.

(** X5. The summary validator is idempotent, so a TestRun built again
    from the fields of a TestRun is that same TestRun. *)
Theorem TestRun_rebuild_round_trip :
  forall id agent_id suite_id status start_time end_time results summary,
    let r := TestRun_new id agent_id suite_id status start_time end_time
                         results summary in
    calculate_summary (run_summary r) (run_results r) = run_summary r /\
    TestRun_new (run_id r) (run_agent_id r) (run_test_suite_id r)
                (run_status r) (run_start_time r) (run_end_time r)
                (Some (run_results r)) (Some (run_summary r)) = r.
Proof.
  intros id agent_id suite_id status start_time end_time results summary r.
  subst r. unfold TestRun_new. simpl.
  split; [apply calculate_summary_idempotent|].
  by rewrite calculate_summary_idempotent.
Qed.

(* ===================================================================== *)
(** * Further properties of the gateway client *)
(* ===================================================================== *)

Lemma isinstance_not_found_is_exception e :
  isinstance e AgentNotFoundError = true -> isinstance e Exception = true.
Proof.
  intros H. apply isinstance_AgentNotFoundError in H.
  destruct e as [c msg]; simpl in H; by subst c.
Qed.

Section GuardedCalls.
Context {W : Type}.

Lemma guarded_call_maps_errors (send : py W Client.Response) diag msg w r w' :
  (forall e, msg e = diag +:+ exn_str e) ->
  send w = (Return r, w') ->
  gateway_errors_mapped (guarded_call send msg) diag w r w'.
Proof. apply guarded_call_errors. Qed.

Lemma guarded_call_success (send : py W Client.Response) diag msg w r w' :
  (forall e, msg e = diag +:+ exn_str e) ->
  send w = (Return r, w') ->
  success_handled (guarded_call send msg) diag w r w'.
Proof.
  intros Hmsg Hsend Hs. unfold guarded_call.
  destruct (Client.decoded r) as [v|m] eqn:Hd.
  - apply try_except_Return. unfold bind.
    by rewrite Hsend, (handle_response_success _ _ Hs), Hd.
  - erewrite try_except_Raise.
    2:{ unfold bind. by rewrite Hsend, (handle_response_success _ _ Hs), Hd. }
    cbn. by rewrite Hmsg.
Qed.

Lemma guarded_call_send_failure (send : py W Client.Response) diag msg :
  (forall e, msg e = diag +:+ exn_str e) ->
  send_failure_handled send (guarded_call send msg) diag.
Proof.
  intros Hmsg w e0 w' Hsend. unfold guarded_call.
  erewrite try_except_Raise; [|by apply bind_Raise].
  cbn. rewrite !orb_false_r. split.
  - intros He Hna. rewrite Hna, He. cbn. by rewrite Hmsg.
  - intros He.
    destruct (isinstance e0 AgentNotFoundError) eqn:Ha; [reflexivity|].
    by rewrite He.
Qed.

Lemma guarded_call_surface (send : py W Client.Response) msg :
  gateway_surface (guarded_call send msg).
Proof.
  intros w e w' Hcall He. unfold guarded_call in Hcall.
  apply try_except_Raise_inv in Hcall as (e0 & w0 & _ & Hd).
  cbn in Hd. rewrite !orb_false_r in Hd.
  destruct (isinstance e0 AgentNotFoundError) eqn:Ha.
  { injection Hd as <- <-. left. by apply isinstance_AgentNotFoundError. }
  destruct (isinstance e0 Exception) eqn:He0.
  { cbn in Hd. injection Hd as <- <-. by right. }
  injection Hd as <- <-. congruence.
Qed.

End GuardedCalls.

(** X6. [list_agents] has one clause, for [Exception]: a 404 answer does
    not leave it as [AgentNotFoundError] but as an [ArchonAPIError] that
    holds the not-found text, every [Exception] it lets out is exactly an
    [ArchonAPIError], and a 2xx answer gives the decoded body. *)
Theorem list_agents_wraps_everything :
  forall (W : Type) (rq : ClientMore.Requests W) (limit offset : Z),
    (forall w e w',
       ClientMore.list_agents rq limit offset w = (Raise e, w') ->
       isinstance e Exception = true -> exn_class e = ArchonAPIError) /\
    (forall w r w',
       ClientMore.http_get_params rq "/agents"
         [("limit", limit); ("offset", offset)] w = (Return r, w') ->
       (Client.status_code r = 404 ->
        ClientMore.list_agents rq limit offset w
        = (Raise (Exn ArchonAPIError
                    ("Error listing agents: Agent not found: " +:+
                     Client.text r)), w')) /\
       success_handled (ClientMore.list_agents rq limit offset)
         "Error listing agents: " w r w').
Proof.
  intros W rq limit offset. split.
  - intros w e w' Hcall He. unfold ClientMore.list_agents in Hcall.
    apply try_except_Raise_inv in Hcall as (e0 & w0 & _ & Hd).
    cbn in Hd. rewrite orb_false_r in Hd.
    destruct (isinstance e0 Exception) eqn:He0.
    + cbn in Hd. by injection Hd as <- <-.
    + injection Hd as <- <-. congruence.
  - intros w r w' Hsend. split.
    + intros H404.
      assert (Hs : Client.is_success r = false)
        by (unfold Client.is_success; lia).
      unfold ClientMore.list_agents. erewrite try_except_Raise.
      2:{ unfold bind. rewrite Hsend, (handle_response_failure _ _ Hs).
          apply Z.eqb_eq in H404. by rewrite H404. }
      reflexivity.
    + intros Hs. unfold ClientMore.list_agents.
      destruct (Client.decoded r) as [v|m] eqn:Hd.
      * apply try_except_Return. unfold bind.
        by rewrite Hsend, (handle_response_success _ _ Hs), Hd.
      * erewrite try_except_Raise.
        2:{ unfold bind.
            by rewrite Hsend, (handle_response_success _ _ Hs), Hd. }
        reflexivity.
Qed.

Lemma list_agents_wraps_everything_witness :
  ClientMore.list_agents (sample_requests (Return not_found_response)) 100 0 []
  = (Raise (Exn ArchonAPIError
              "Error listing agents: Agent not found: no such agent"),
     ["GET /agents"]).
Proof.
  apply (proj2 (list_agents_wraps_everything (list string)
                  (sample_requests (Return not_found_response)) 100 0)
           [] not_found_response ["GET /agents"]); reflexivity.
Defined.

Lemma diag_assoc (a b c : string) (e : exn) :
  a +:+ b +:+ c +:+ exn_str e = (a +:+ b +:+ c) +:+ exn_str e.
Proof. by rewrite !string_app_assoc. Qed.

(** X7. [get_agent_metrics] and [update_agent_metadata] map a response
    as [get_agent] does: [AgentNotFoundError] exactly for status 404, and
    for any other status outside 2xx an [ArchonAPIError] whose text has
    the status code and the body. *)
Theorem metrics_and_metadata_error_mapping :
  forall (W : Type) (tr : Client.Transport W) (rq : ClientMore.Requests W)
         (agent_id : string) (metadata : list (string * pyval))
         (w : W) (r : Client.Response) (w' : W),
    (Client.http_get tr ("/agents/" +:+ agent_id +:+ "/metrics") w
       = (Return r, w') ->
     gateway_errors_mapped (ClientMore.get_agent_metrics tr agent_id)
       ("Error getting metrics for agent " +:+ agent_id +:+ ": ") w r w') /\
    (ClientMore.http_patch rq ("/agents/" +:+ agent_id)
       (PDict [("metadata", PDict metadata)]) w = (Return r, w') ->
     gateway_errors_mapped (ClientMore.update_agent_metadata rq agent_id metadata)
       ("Error updating metadata for agent " +:+ agent_id +:+ ": ") w r w').
Proof.
  intros. split; intros Hsend.
  - refine (guarded_call_maps_errors _ _ _ _ _ _ _ Hsend).
    intros e. apply diag_assoc.
  - refine (guarded_call_maps_errors _ _ _ _ _ _ _ Hsend).
    intros e. apply diag_assoc.
Qed.

Lemma metrics_and_metadata_error_mapping_witness :
  ClientMore.update_agent_metadata
    (sample_requests (Return server_error_response)) "agent-1"
    [("last_test_status", PStr "passed")] []
  = (Raise (Exn ArchonAPIError
              "Error updating metadata for agent agent-1: API error: 500 - boom"),
     ["PATCH /agents/agent-1"]).
Proof.
  apply (proj2 (metrics_and_metadata_error_mapping (list string)
                  (sample_transport (Return server_error_response))
                  (sample_requests (Return server_error_response)) "agent-1"
                  [("last_test_status", PStr "passed")] []
                  server_error_response ["PATCH /agents/agent-1"]));
    [reflexivity | reflexivity | discriminate].
Defined.

(** X8. A 2xx answer makes [get_agent], [invoke_agent],
    [get_agent_metrics] and [update_agent_metadata] return the decoded
    body; when the body is not JSON they raise an [ArchonAPIError] that
    says so, with the text of the decoding error. *)
Theorem client_decodes_success :
  forall (W : Type) (tr : Client.Transport W) (rq : ClientMore.Requests W)
         (agent_id : string) (inputs metadata : list (string * pyval))
         (w : W) (r : Client.Response) (w' : W),
    (Client.http_get tr ("/agents/" +:+ agent_id) w = (Return r, w') ->
     success_handled (Client.get_agent tr agent_id)
       ("Error getting agent " +:+ agent_id +:+ ": ") w r w') /\
    (Client.http_post tr ("/agents/" +:+ agent_id +:+ "/invoke")
       (PDict [("inputs", PDict inputs)]) w = (Return r, w') ->
     success_handled (Client.invoke_agent tr agent_id inputs)
       ("Error invoking agent " +:+ agent_id +:+ ": ") w r w') /\
    (Client.http_get tr ("/agents/" +:+ agent_id +:+ "/metrics") w
       = (Return r, w') ->
     success_handled (ClientMore.get_agent_metrics tr agent_id)
       ("Error getting metrics for agent " +:+ agent_id +:+ ": ") w r w') /\
    (ClientMore.http_patch rq ("/agents/" +:+ agent_id)
       (PDict [("metadata", PDict metadata)]) w = (Return r, w') ->
     success_handled (ClientMore.update_agent_metadata rq agent_id metadata)
       ("Error updating metadata for agent " +:+ agent_id +:+ ": ") w r w').
Proof.
  intros. repeat split; intros Hsend;
    refine (guarded_call_success _ _ _ _ _ _ _ Hsend);
    intros e; apply diag_assoc.
Qed.

Lemma client_decodes_success_witness :
  Client.get_agent (sample_transport (Return ok_response)) "agent-1" []
  = (Return sample_agent, ["GET /agents/agent-1"]) /\
  Client.get_agent (sample_transport (Return bad_json_response)) "agent-1" []
  = (Raise (Exn ArchonAPIError
              ("Error getting agent agent-1: " +:+
               "Error processing response: Expecting value")),
     ["GET /agents/agent-1"]).
Proof.
  split.
  - apply (proj1 (client_decodes_success (list string)
                    (sample_transport (Return ok_response))
                    (sample_requests (Return ok_response)) "agent-1" [] []
                    [] ok_response ["GET /agents/agent-1"]));
      reflexivity.
  - apply (proj1 (client_decodes_success (list string)
                    (sample_transport (Return bad_json_response))
                    (sample_requests (Return bad_json_response)) "agent-1"
                    [] [] [] bad_json_response ["GET /agents/agent-1"]));
      reflexivity.
Defined.

(** X9. Whatever the transport does, an [Exception] that leaves
    [get_agent], [invoke_agent], [get_agent_metrics] or
    [update_agent_metadata] is an [AgentNotFoundError] or exactly an
    [ArchonAPIError]; a request that itself raises an [Exception] is
    reported as an [ArchonAPIError] with the text of that exception, and
    what is not an [Exception] passes unchanged. *)
Theorem client_error_surface :
  forall (W : Type) (tr : Client.Transport W) (rq : ClientMore.Requests W)
         (agent_id : string) (inputs metadata : list (string * pyval)),
    (gateway_surface (Client.get_agent tr agent_id) /\
     gateway_surface (Client.invoke_agent tr agent_id inputs) /\
     gateway_surface (ClientMore.get_agent_metrics tr agent_id) /\
     gateway_surface (ClientMore.update_agent_metadata rq agent_id metadata)) /\
    (send_failure_handled (Client.http_get tr ("/agents/" +:+ agent_id))
       (Client.get_agent tr agent_id)
       ("Error getting agent " +:+ agent_id +:+ ": ") /\
     send_failure_handled
       (Client.http_post tr ("/agents/" +:+ agent_id +:+ "/invoke")
          (PDict [("inputs", PDict inputs)]))
       (Client.invoke_agent tr agent_id inputs)
       ("Error invoking agent " +:+ agent_id +:+ ": ") /\
     send_failure_handled
       (Client.http_get tr ("/agents/" +:+ agent_id +:+ "/metrics"))
       (ClientMore.get_agent_metrics tr agent_id)
       ("Error getting metrics for agent " +:+ agent_id +:+ ": ") /\
     send_failure_handled
       (ClientMore.http_patch rq ("/agents/" +:+ agent_id)
          (PDict [("metadata", PDict metadata)]))
       (ClientMore.update_agent_metadata rq agent_id metadata)
       ("Error updating metadata for agent " +:+ agent_id +:+ ": ")).
Proof.
  intros. split.
  - repeat split; apply guarded_call_surface.
  - repeat split;
      (refine (proj1 (guarded_call_send_failure _ _ _ _ _ _ _ _))
       || refine (proj2 (guarded_call_send_failure _ _ _ _ _ _ _ _)));
      try eassumption; intros e'; apply diag_assoc.
Qed.

Lemma client_error_surface_witness :
  Client.get_agent
    (sample_transport (Raise (Exn RequestError "connection refused")))
    "agent-1" []
  = (Raise (Exn ArchonAPIError
              "Error getting agent agent-1: connection refused"),
     ["GET /agents/agent-1"]).
Proof.
  apply (proj1 (proj2 (client_error_surface (list string)
                         (sample_transport
                            (Raise (Exn RequestError "connection refused")))
                         (sample_requests (Return ok_response)) "agent-1"
                         [] []))
           [] (Exn RequestError "connection refused")
           ["GET /agents/agent-1"]); reflexivity.
Defined.

(* ===================================================================== *)
(** * The write-back after a run *)
(* ===================================================================== *)

Section WriteBackFacts.
Context {W : Type} (wb : Adapter.WriteBack W).

(** A failure of [update_agent_metadata] goes to the logger, and the
    write-back returns. *)
Lemma write_back_logs_failure agent_id run (w w2 w3 : W) e :
  ClientMore.update_agent_metadata (Adapter.requests wb) agent_id
    (Adapter.summary_metrics wb run) w = (Raise e, w2) ->
  isinstance e Exception = true ->
  Adapter.log_failure wb e w2 = (Return tt, w3) ->
  Adapter.update_agent_with_test_results wb agent_id run w = (Return tt, w3).
Proof.
  intros Hupd He Hlog.
  assert (Hsurface : gateway_surface
                       (ClientMore.update_agent_metadata (Adapter.requests wb)
                          agent_id (Adapter.summary_metrics wb run)))
    by apply guarded_call_surface.
  pose proof (Hsurface _ _ _ Hupd He) as Hcls.
  unfold Adapter.update_agent_with_test_results.
  erewrite try_except_Raise; [|by apply bind_Raise].
  destruct e as [c msg]; simpl in Hcls.
  destruct Hcls as [-> | ->]; exact Hlog.
Qed.

Lemma write_back_returns agent_id run (w w2 : W) v :
  ClientMore.update_agent_metadata (Adapter.requests wb) agent_id
    (Adapter.summary_metrics wb run) w = (Return v, w2) ->
  Adapter.update_agent_with_test_results wb agent_id run w = (Return tt, w2).
Proof.
  intros Hupd. unfold Adapter.update_agent_with_test_results.
  apply try_except_Return. by rewrite (bind_Return _ _ _ _ _ Hupd).
Qed.

End WriteBackFacts.

(** C6. With the write-back of the adapter as section 6 has it, a run
    that was executed and stored is returned by [test_agent] when
    [update_agent_metadata] fails as well as when it returns: a failure,
    not found or gateway error, goes to the logger and is not raised, and
    the run is returned and stays in the registry of runs. *)
Theorem test_agent_write_back_not_fatal :
  forall (W : Type) (env : Tester.Collaborators W)
         (wb : Adapter.WriteBack W) (agent_id : string)
         (test_suite : string + TestSuite) (t t1 : Tester.ArchonTester W)
         (run : TestRun),
    Tester.execute_and_store (Adapter.with_write_back wb env) agent_id
      test_suite t = (Return run, t1) ->
    (forall e w2 w3,
       ClientMore.update_agent_metadata (Adapter.requests wb) agent_id
         (Adapter.summary_metrics wb run) (Tester.world t1) = (Raise e, w2) ->
       isinstance e Exception = true ->
       Adapter.log_failure wb e w2 = (Return tt, w3) ->
       Tester.test_agent (Adapter.with_write_back wb env) agent_id
         test_suite t = (Return run, Tester.set_world w3 t1) /\
       Tester.test_runs (Tester.set_world w3 t1) !! run_id run = Some run) /\
    (forall v w2,
       ClientMore.update_agent_metadata (Adapter.requests wb) agent_id
         (Adapter.summary_metrics wb run) (Tester.world t1)
         = (Return v, w2) ->
       Tester.test_agent (Adapter.with_write_back wb env) agent_id
         test_suite t = (Return run, Tester.set_world w2 t1) /\
       Tester.test_runs (Tester.set_world w2 t1) !! run_id run = Some run).
Proof.
  intros W env wb agent_id test_suite t t1 run Hrun.
  pose proof (execute_and_store_stores _ _ _ _ _ _ Hrun) as Hstored.
  split.
  - intros e w2 w3 Hupd He Hlog. split; [|exact Hstored].
    apply (test_agent_write_back_returns _ _ _ _ _ _ _ Hrun).
    by apply (write_back_logs_failure wb agent_id run _ w2 w3 e).
  - intros v w2 Hupd. split; [|exact Hstored].
    apply (test_agent_write_back_returns _ _ _ _ _ _ _ Hrun).
    by apply (write_back_returns wb agent_id run _ w2 v).
Qed.

Lemma test_agent_write_back_not_fatal_witness :
  Tester.test_agent
    (Adapter.with_write_back (sample_write_back (Return server_error_response))
       (sample_env (Return ok_response) (Return tt)))
    "agent-1" (inr sample_suite) fresh_tester
  = (Return (sample_run "agent-1" "suite-1"),
     Tester.MkArchonTester ∅ {[ "suite-1" := sample_suite ]}
       {[ "run-1" := sample_run "agent-1" "suite-1" ]}
       ∅ {[ "suite-1" := sample_suite ]} ∅ ∅ ∅
       ["GET /agents/agent-1"; "execute_test_suite"; "PATCH /agents/agent-1";
        "log Error updating metadata for agent agent-1: API error: 500 - boom"]).
Proof.
  refine (proj1 (proj1 (test_agent_write_back_not_fatal (list string)
                  (sample_env (Return ok_response) (Return tt))
                  (sample_write_back (Return server_error_response))
                  "agent-1" (inr sample_suite) fresh_tester
                  (Tester.MkArchonTester ∅ {[ "suite-1" := sample_suite ]}
                     {[ "run-1" := sample_run "agent-1" "suite-1" ]}
                     ∅ {[ "suite-1" := sample_suite ]} ∅ ∅ ∅
                     ["GET /agents/agent-1"; "execute_test_suite"])
                  (sample_run "agent-1" "suite-1") eq_refl)
           (Exn ArchonAPIError
              "Error updating metadata for agent agent-1: API error: 500 - boom")
           ["GET /agents/agent-1"; "execute_test_suite";
            "PATCH /agents/agent-1"]
           ["GET /agents/agent-1"; "execute_test_suite";
            "PATCH /agents/agent-1";
            "log Error updating metadata for agent agent-1: API error: 500 - boom"]
           eq_refl eq_refl eq_refl)).
Defined.

(* ===================================================================== *)
(** * Further properties of the orchestrator *)
(* ===================================================================== *)

Lemma generate_report_Raise_inv {W : Type} (env : Tester.Collaborators W)
    (test_run : string + TestRun) (format : string)
    (t t' : Tester.ArchonTester W) (e : exn) :
  Tester.generate_report env test_run format t = (Raise e, t') ->
  e = Exn NameError "name 'TestRunNotFoundError' is not defined".
Proof.
  intros H. unfold Tester.generate_report in H.
  apply try_except_Raise_inv in H as (e0 & t0 & _ & Hd).
  cbn in Hd. by injection Hd as <- <-.
Qed.

(** X10. Whatever goes wrong under the [try] of [generate_report], the
    caller gets the same [NameError]: the first [except] clause names
    [TestRunNotFoundError], which is bound nowhere, so the clause that
    would wrap the failure in a [ReportGenerationError] is never
    reached. *)
Theorem generate_report_raises_only_name_error :
  forall (W : Type) (env : Tester.Collaborators W)
         (test_run : string + TestRun) (format : string)
         (t t' : Tester.ArchonTester W) (e : exn),
    Tester.generate_report env test_run format t = (Raise e, t') ->
    e = Exn NameError "name 'TestRunNotFoundError' is not defined" /\
    isinstance e ReportGenerationError = false.
Proof.
  intros W env test_run format t t' e H.
  apply generate_report_Raise_inv in H as ->. by split.
Qed.

Lemma generate_report_raises_only_name_error_witness :
  let e := Exn NameError "name 'TestRunNotFoundError' is not defined" in
  e = Exn NameError "name 'TestRunNotFoundError' is not defined" /\
  isinstance e ReportGenerationError = false.
Proof.
  apply (generate_report_raises_only_name_error (list string)
           failing_report_env
           (inr (sample_run "agent-1" "suite-1")) "pdf"
           fresh_tester
           (Tester.MkArchonTester ∅ ∅
              {[ "run-1" := sample_run "agent-1" "suite-1" ]} ∅ ∅ ∅ ∅
              {[ "run-1" := sample_run "agent-1" "suite-1" ]}
              ["generate_report"])).
  reflexivity.
Defined.

(** X11. [generate_report] called with a TestRun object, whether the
    rendering returns or raises: a run already registered under that id
    is not replaced in [test_runs], an unregistered one is added; the
    report generator gets the run that was passed, and every test case
    and test suite of the tester; and the path is returned exactly when
    the rendering returns it. *)
Theorem generate_report_with_run_object :
  forall (W : Type) (env : Tester.Collaborators W) (run : TestRun)
         (format : string) (t : Tester.ArchonTester W),
    exists o t',
      Tester.generate_report env (inr run) format t = (o, t') /\
      Tester.test_runs t' =
        match Tester.test_runs t !! run_id run with
        | Some _ => Tester.test_runs t
        | None => <[run_id run := run]> (Tester.test_runs t)
        end /\
      Tester.report_test_runs t' !! run_id run = Some run /\
      (forall k v, Tester.test_cases t !! k = Some v ->
                   Tester.report_test_cases t' !! k = Some v) /\
      (forall k v, Tester.test_suites t !! k = Some v ->
                   Tester.report_test_suites t' !! k = Some v) /\
      Tester.test_cases t' = Tester.test_cases t /\
      Tester.test_suites t' = Tester.test_suites t /\
      (forall path,
         o = Return path <->
         fst (Tester.render_report env (Tester.report_test_cases t')
                (Tester.report_test_suites t') (Tester.report_test_runs t')
                (run_id run) format (Tester.world t)) = Return path).
Proof.
  intros W env run format t.
  unfold Tester.generate_report, Tester.report_registered, try_except, bind,
    gets, modify, ret, Tester.in_world.
  destruct (Tester.test_runs t !! run_id run) as [old|] eqn:Hold.
  - rewrite bool_decide_true by eauto. cbn.
    destruct (Tester.render_report env _ _ _ _ _ _) as [[path|e0] w] eqn:Hr;
      cbn; eexists _, _; (split; [reflexivity|]); cbn; rewrite ?Hr;
      repeat split; try (by apply lookup_insert_eq);
      try (by intros; apply lookup_union_Some_l);
      try congruence; try done.
  - rewrite bool_decide_false by (intros [? ?]; congruence). cbn.
    destruct (Tester.render_report env _ _ _ _ _ _) as [[path|e0] w] eqn:Hr;
      cbn; eexists _, _; (split; [reflexivity|]); cbn; rewrite ?Hr;
      repeat split; try (by apply lookup_insert_eq);
      try (by intros; apply lookup_union_Some_l);
      try congruence; try done.
Qed.

Lemma generate_report_with_run_object_witness :
  exists o t',
    Tester.generate_report (sample_env (Return ok_response) (Return tt))
      (inr (sample_run "agent-1" "suite-1")) "json" fresh_tester = (o, t') /\
    o = Return "reports/run-1.json" /\
    Tester.test_runs t' !! "run-1" = Some (sample_run "agent-1" "suite-1") /\
    Tester.report_test_runs t' !! "run-1"
      = Some (sample_run "agent-1" "suite-1").
Proof.
  destruct (generate_report_with_run_object (list string)
              (sample_env (Return ok_response) (Return tt))
              (sample_run "agent-1" "suite-1") "json" fresh_tester)
    as (o & t' & Hcall & Hruns & Hreport & _ & _ & _ & _ & Hpath).
  exists o, t'. split; [exact Hcall|].
  split; [by apply Hpath|]. split; [|exact Hreport].
  rewrite Hruns. reflexivity.
Defined.

Section RegistrationLoop.
Context {W : Type}.

Lemma for_each_register (cases : list TestCase) (t : Tester.ArchonTester W) :
  Tester.for_each cases (fun test_case =>
    bind (modify (Tester.set_test_case (tc_id test_case) test_case))
      (fun _ => Tester.register_test_case test_case)) t
  = (Return tt, foldl (fun t c => register_step c t) t cases).
Proof.
  revert t. induction cases as [|c cases IH]; intros t; [reflexivity|].
  cbn [Tester.for_each foldl]. unfold bind at 1.
  change (bind (modify (Tester.set_test_case (tc_id c) c))
            (fun _ => Tester.register_test_case c) t)
    with (Return tt, register_step c t).
  apply IH.
Qed.

Lemma register_steps_keep (cases : list TestCase) (t : Tester.ArchonTester W) :
  let t' := foldl (fun t c => register_step c t) t cases in
  Tester.test_cases t'
    = foldl (fun m c => <[tc_id c := c]> m) (Tester.test_cases t) cases /\
  Tester.test_suites t' = Tester.test_suites t /\
  Tester.test_runs t' = Tester.test_runs t /\
  Tester.world t' = Tester.world t.
Proof.
  revert t. induction cases as [|c cases IH]; intros t; [done|].
  cbn [foldl]. destruct (IH (register_step c t)) as (H1 & H2 & H3 & H4).
  by rewrite H1, H2, H3, H4.
Qed.

Lemma inserts_keep_own_key (cases : list TestCase) (m : gmap string TestCase)
    (k : string) (v : TestCase) :
  m !! k = Some v -> tc_id v = k ->
  exists c', foldl (fun m c => <[tc_id c := c]> m) m cases !! k = Some c' /\
             tc_id c' = k.
Proof.
  revert m v. induction cases as [|x cases IH]; intros m v Hm Hv; [eauto|].
  cbn [foldl]. destruct (decide (tc_id x = k)) as [Hx|Hx].
  - apply (IH _ x); [|exact Hx]. rewrite <- Hx. apply lookup_insert_eq.
  - apply (IH _ v); [|exact Hv]. by rewrite lookup_insert_ne.
Qed.

Lemma inserts_register_all (cases : list TestCase) (m : gmap string TestCase)
    (c : TestCase) :
  c ∈ cases ->
  exists c', foldl (fun m c => <[tc_id c := c]> m) m cases !! tc_id c = Some c'
             /\ tc_id c' = tc_id c.
Proof.
  revert m. induction cases as [|x cases IH]; intros m Hc.
  - by apply elem_of_nil in Hc.
  - cbn [foldl]. apply elem_of_cons in Hc as [->|Hc]; [|by apply IH].
    apply (inserts_keep_own_key _ _ _ x); [apply lookup_insert_eq | done].
Qed.

End RegistrationLoop.

Lemma test_agent_body_invalid_type {W : Type}
    (env : Tester.Collaborators W) (agent_id kind : string)
    (t : Tester.ArchonTester W) (agent : pyval) (w' : W) :
  Client.get_agent (Tester.transport env) agent_id (Tester.world t)
    = (Return agent, w') ->
  (forall ty, TestType_value ty <> kind) ->
  Tester.test_agent_body env agent_id (inl kind) t
  = (Raise (Exn ValueError (repr_str kind +:+ " is not a valid TestType")),
     Tester.set_world w' t).
Proof.
  intros Hget Hkind.
  unfold Tester.test_agent_body, Tester.execute_and_store.
  apply bind_Raise.
  erewrite bind_Return; [|unfold Tester.in_world; by rewrite Hget].
  apply bind_Raise. unfold Tester.determine_suite.
  apply bind_Raise. unfold lift.
  by rewrite (TestType_of_value_invalid kind Hkind).
Qed.

(** X12. A test type name that is not the value of a [TestType] member
    makes [test_agent] raise an [ArchonAgentTesterError] that holds the
    [repr] of the name, once the agent has been fetched; the registries
    are as before. *)
Theorem test_agent_invalid_test_type :
  forall (W : Type) (env : Tester.Collaborators W) (agent_id kind : string)
         (t : Tester.ArchonTester W) (agent : pyval) (w' : W),
    Client.get_agent (Tester.transport env) agent_id (Tester.world t)
      = (Return agent, w') ->
    (forall ty, TestType_value ty <> kind) ->
    Tester.test_agent env agent_id (inl kind) t
    = (Raise (Exn ArchonAgentTesterError
                ("Error testing agent " +:+ agent_id +:+ ": " +:+
                 repr_str kind +:+ " is not a valid TestType")),
       Tester.set_world w' t) /\
    Tester.test_cases (Tester.set_world w' t) = Tester.test_cases t /\
    Tester.test_suites (Tester.set_world w' t) = Tester.test_suites t /\
    Tester.test_runs (Tester.set_world w' t) = Tester.test_runs t.
Proof.
  intros W env agent_id kind t agent w' Hget Hkind.
  rewrite (test_agent_Raise env _ _ _ _ _
             (test_agent_body_invalid_type env agent_id kind t agent w'
                Hget Hkind)).
  by repeat split.
Qed.

Lemma test_agent_invalid_test_type_witness :
  Tester.test_agent (sample_env (Return ok_response) (Return tt)) "agent-1"
    (inl "Functional") fresh_tester
  = (Raise (Exn ArchonAgentTesterError
              ("Error testing agent agent-1: " +:+
               "'Functional' is not a valid TestType")),
     Tester.set_world ["GET /agents/agent-1"] fresh_tester) /\
  Tester.test_agent (sample_env (Return ok_response) (Return tt)) "agent-1"
    (inl "it's") fresh_tester
  = (Raise (Exn ArchonAgentTesterError
              ("Error testing agent agent-1: " +:+
               String double_quote
                 ("it's" +:+
                  String double_quote " is not a valid TestType"))),
     Tester.set_world ["GET /agents/agent-1"] fresh_tester).
Proof.
  split.
  - apply (test_agent_invalid_test_type (list string)
             (sample_env (Return ok_response) (Return tt)) "agent-1"
             "Functional" fresh_tester sample_agent ["GET /agents/agent-1"]).
    + reflexivity.
    + by intros [].
  - apply (test_agent_invalid_test_type (list string)
             (sample_env (Return ok_response) (Return tt)) "agent-1"
             "it's" fresh_tester sample_agent ["GET /agents/agent-1"]).
    + reflexivity.
    + by intros [].
Defined.

(** X13. The generated test cases are registered before the name of the
    agent is read.  When the agent record has no "name" key,
    [test_agent] raises an [ArchonAgentTesterError] that quotes the key,
    and each generated test case is by then registered under its id; no
    suite and no run is. *)
Theorem test_agent_agent_without_name :
  forall (W : Type) (env : Tester.Collaborators W) (agent_id kind : string)
         (test_type : TestType) (t : Tester.ArchonTester W)
         (record : list (string * pyval)) (cases : list TestCase)
         (w1 w2 : W),
    Client.get_agent (Tester.transport env) agent_id (Tester.world t)
      = (Return (PDict record), w1) ->
    TestType_of_value kind = Return test_type ->
    Tester.generate_test_cases_for_agent env agent_id test_type w1
      = (Return cases, w2) ->
    dict_get "name" record = None ->
    exists t',
      Tester.test_agent env agent_id (inl kind) t
      = (Raise (Exn ArchonAgentTesterError
                  ("Error testing agent " +:+ agent_id +:+ ": 'name'")), t') /\
      (forall c, c ∈ cases ->
         exists c', Tester.test_cases t' !! tc_id c = Some c' /\
                    tc_id c' = tc_id c) /\
      Tester.test_suites t' = Tester.test_suites t /\
      Tester.test_runs t' = Tester.test_runs t /\
      Tester.world t' = w2.
Proof.
  intros W env agent_id kind test_type t record cases w1 w2
         Hget Hkind Hgen Hname.
  pose (t2 := Tester.set_world w2 (Tester.set_world w1 t)).
  exists (foldl (fun t c => register_step c t) t2 cases). split.
  - erewrite test_agent_Raise.
    2:{ unfold Tester.test_agent_body, Tester.execute_and_store.
        apply bind_Raise.
        erewrite bind_Return; [|unfold Tester.in_world; by rewrite Hget].
        apply bind_Raise. unfold Tester.determine_suite.
        erewrite bind_Return; [|unfold lift; by rewrite Hkind].
        erewrite bind_Return.
        2:{ unfold Tester.in_world. cbn [Tester.world Tester.set_world].
            by rewrite Hgen. }
        erewrite bind_Return; [|apply for_each_register].
        apply bind_Raise. unfold lift, getitem. by rewrite Hname. }
    reflexivity.
  - destruct (register_steps_keep cases t2) as (Hc & Hs & Hr & Hw).
    split; [|by rewrite Hs, Hr, Hw].
    intros c Hin. rewrite Hc. by apply inserts_register_all.
Qed.

Lemma test_agent_agent_without_name_witness :
  exists t',
    Tester.test_agent (generating_env (Return nameless_agent_response))
      "agent-1" (inl "functional") fresh_tester
    = (Raise (Exn ArchonAgentTesterError
                ("Error testing agent agent-1: 'name'")), t') /\
    (forall c, c ∈ [sample_case] ->
       exists c', Tester.test_cases t' !! tc_id c = Some c' /\
                  tc_id c' = tc_id c) /\
    Tester.test_suites t' = ∅ /\
    Tester.test_runs t' = ∅ /\
    Tester.world t' = ["GET /agents/agent-1"; "generate_test_cases_for_agent"].
Proof.
  apply (test_agent_agent_without_name (list string)
           (generating_env (Return nameless_agent_response)) "agent-1"
           "functional" FUNCTIONAL fresh_tester [("id", PStr "agent-1")]
           [sample_case] ["GET /agents/agent-1"]
           ["GET /agents/agent-1"; "generate_test_cases_for_agent"]);
    reflexivity.
Defined.

Lemma test_agent_body_suite_object {W : Type}
    (env : Tester.Collaborators W) (agent_id : string) (suite : TestSuite)
    (t : Tester.ArchonTester W) (agent : pyval) (run : TestRun)
    (w1 w2 w3 : W) :
  Client.get_agent (Tester.transport env) agent_id (Tester.world t)
    = (Return agent, w1) ->
  Tester.execute_test_suite env (Tester.engine_test_cases t)
    (engine_suites_with suite t) (ts_id suite) agent_id w1
    = (Return run, w2) ->
  Tester.update_agent_with_test_results env agent_id run w2
    = (Return tt, w3) ->
  exists t',
    Tester.test_agent_body env agent_id (inr suite) t = (Return run, t') /\
    Tester.test_runs t' = <[run_id run := run]> (Tester.test_runs t) /\
    Tester.test_suites t' =
      match Tester.test_suites t !! ts_id suite with
      | Some _ => Tester.test_suites t
      | None => <[ts_id suite := suite]> (Tester.test_suites t)
      end /\
    Tester.engine_test_suites t' = engine_suites_with suite t /\
    Tester.test_cases t' = Tester.test_cases t /\
    Tester.world t' = w3.
Proof.
  intros Hget Hexec Hupd. unfold engine_suites_with in *.
  unfold Tester.test_agent_body, Tester.execute_and_store,
    Tester.determine_suite, bind, gets, modify, ret,
    Tester.in_world, Tester.register_test_suite.
  rewrite Hget. cbn.
  destruct (Tester.test_suites t !! ts_id suite) as [old|] eqn:Hold.
  - rewrite bool_decide_true by eauto. cbn. rewrite Hexec. cbn.
    rewrite Hupd. eexists. by repeat split.
  - rewrite bool_decide_false by (intros [? ?]; congruence). cbn.
    rewrite Hexec. cbn. rewrite Hupd. eexists. by repeat split.
Qed.

(** X14. [test_agent] with a TestSuite object, when the gateway knows the
    agent, the engine returns a run for the registries it then holds and
    the write-back returns: the run is returned and stored under its id;
    a suite already registered with the tester under the id of the one
    passed is not replaced, neither there nor in the engine, an
    unregistered one is added to both; the test cases are as before. *)
Theorem test_agent_with_suite_object :
  forall (W : Type) (env : Tester.Collaborators W) (agent_id : string)
         (suite : TestSuite) (t : Tester.ArchonTester W) (agent : pyval)
         (run : TestRun) (w1 w2 w3 : W),
    Client.get_agent (Tester.transport env) agent_id (Tester.world t)
      = (Return agent, w1) ->
    Tester.execute_test_suite env (Tester.engine_test_cases t)
      (engine_suites_with suite t) (ts_id suite) agent_id w1
      = (Return run, w2) ->
    Tester.update_agent_with_test_results env agent_id run w2
      = (Return tt, w3) ->
    exists t',
      Tester.test_agent env agent_id (inr suite) t = (Return run, t') /\
      Tester.test_runs t' = <[run_id run := run]> (Tester.test_runs t) /\
      Tester.test_suites t' =
        match Tester.test_suites t !! ts_id suite with
        | Some _ => Tester.test_suites t
        | None => <[ts_id suite := suite]> (Tester.test_suites t)
        end /\
      Tester.engine_test_suites t' = engine_suites_with suite t /\
      Tester.test_cases t' = Tester.test_cases t /\
      Tester.world t' = w3.
Proof.
  intros W env agent_id suite t agent run w1 w2 w3 Hget Hexec Hupd.
  destruct (test_agent_body_suite_object env agent_id suite t agent run
              w1 w2 w3 Hget Hexec Hupd) as (t' & Hbody & Hrest).
  exists t'. split; [|exact Hrest].
  by apply test_agent_Return.
Qed.

Lemma test_agent_with_suite_object_witness :
  exists t',
    Tester.test_agent resolving_env "agent-1" (inr sample_suite) fresh_tester
    = (Return (sample_run "agent-1" "suite-1"), t') /\
    Tester.test_runs t'
      = <[ "run-1" := sample_run "agent-1" "suite-1" ]> ∅ /\
    Tester.test_suites t' = <[ "suite-1" := sample_suite ]> ∅ /\
    Tester.engine_test_suites t' = <[ "suite-1" := sample_suite ]> ∅ /\
    Tester.test_cases t' = ∅ /\
    Tester.world t' = ["GET /agents/agent-1"; "execute_test_suite";
                       "update_agent_with_test_results"].
Proof.
  apply (test_agent_with_suite_object (list string) resolving_env "agent-1"
           sample_suite fresh_tester sample_agent
           (sample_run "agent-1" "suite-1") ["GET /agents/agent-1"]
           ["GET /agents/agent-1"; "execute_test_suite"]
           ["GET /agents/agent-1"; "execute_test_suite";
            "update_agent_with_test_results"]); reflexivity.
Defined.

Section TesterWrappers.
Context {W : Type}.

Lemma in_world_keeps {A} (m : py W A) (t : Tester.ArchonTester W) o t' :
  Tester.in_world m t = (o, t') ->
  m (Tester.world t) = (o, Tester.world t') /\
  t' = Tester.set_world (Tester.world t') t.
Proof.
  unfold Tester.in_world. destruct (m (Tester.world t)) as [o' w].
  by intros [= <- <-].
Qed.

Lemma tester_guarded_call_keeps (inner : py W pyval) msg :
  registries_kept (tester_guarded_call inner msg).
Proof.
  intros t o t' H. unfold tester_guarded_call, try_except in H.
  destruct (Tester.in_world inner t) as [[v|e0] t0] eqn:Hin;
    apply in_world_keeps in Hin as [_ Ht0].
  - injection H as <- <-. by rewrite Ht0.
  - cbn in H. rewrite !orb_false_r in H.
    destruct (isinstance e0 AgentNotFoundError);
      [|destruct (isinstance e0 Exception)];
      cbn in H; injection H as <- <-; by rewrite Ht0.
Qed.

Lemma tester_wrapping_call_keeps (inner : py W pyval) wrapper diag :
  registries_kept (tester_wrapping_call inner wrapper diag).
Proof.
  intros t o t' H. unfold tester_wrapping_call, try_except in H.
  destruct (Tester.in_world inner t) as [[v|e0] t0] eqn:Hin;
    apply in_world_keeps in Hin as [_ Ht0].
  - injection H as <- <-. by rewrite Ht0.
  - cbn in H. rewrite !orb_false_r in H.
    destruct (isinstance e0 Exception).
    + unfold raise_named in H.
      destruct (lookup_name Tester.globals wrapper);
        injection H as <- <-; by rewrite Ht0.
    + injection H as <- <-. by rewrite Ht0.
Qed.

Lemma tester_wrapping_call_wraps (inner : py W pyval) wrapper c diag :
  lookup_name Tester.globals wrapper = Some c ->
  wraps_all inner (tester_wrapping_call inner wrapper diag) c diag.
Proof.
  intros Hc t w'. split.
  - intros v Hin. apply try_except_Return.
    unfold Tester.in_world. by rewrite Hin.
  - intros e0 Hin.
    assert (Hraise : Tester.in_world inner t
                     = (Raise e0, Tester.set_world w' t))
      by (unfold Tester.in_world; by rewrite Hin).
    unfold tester_wrapping_call.
    rewrite (try_except_Raise _ _ _ _ _ _ Hraise). cbn.
    rewrite orb_false_r. split; intros He; rewrite He; [|reflexivity].
    unfold raise_named. by rewrite Hc.
Qed.

(** The mapping of the client carries over to the method of the tester
    that wraps it. *)
Lemma tester_guarded_call_maps (inner : py W pyval) msg diag1 diag
    (t : Tester.ArchonTester W) r w' :
  (forall m, msg (Exn ArchonAPIError (diag1 +:+ m)) = diag +:+ m) ->
  gateway_errors_mapped inner diag1 (Tester.world t) r w' ->
  gateway_errors_mapped (tester_guarded_call inner msg) diag t r
    (Tester.set_world w' t).
Proof.
  intros Hmsg (H404 & Honly & Hother). split; [|split].
  - intros Hs. unfold tester_guarded_call. erewrite try_except_Raise.
    2:{ unfold Tester.in_world. by rewrite (H404 Hs). }
    reflexivity.
  - intros e t' Hcall Ha. unfold tester_guarded_call in Hcall.
    apply try_except_Raise_inv in Hcall as (e0 & t0 & Hin & Hd).
    apply in_world_keeps in Hin as [Hin _].
    cbn in Hd. rewrite !orb_false_r in Hd.
    destruct (isinstance e0 AgentNotFoundError) eqn:Ha0.
    { by apply (Honly e0 _ Hin). }
    destruct (isinstance e0 Exception); cbn in Hd; injection Hd as <- <-.
    + discriminate Ha.
    + congruence.
  - intros Hs Hne. unfold tester_guarded_call. erewrite try_except_Raise.
    2:{ unfold Tester.in_world. by rewrite (Hother Hs Hne). }
    cbn. by rewrite Hmsg.
Qed.

End TesterWrappers.

Lemma double_diag (a b c m : string) :
  a +:+ b +:+ c +:+ (a +:+ b +:+ c) +:+ m
  = (a +:+ b +:+ c +:+ a +:+ b +:+ c) +:+ m.
Proof. by rewrite !string_app_assoc. Qed.

(** X15. [ArchonTester.get_agent] and [ArchonTester.get_agent_metrics]
    keep the mapping of the client they wrap: [AgentNotFoundError]
    exactly for status 404, unchanged; for any other status outside 2xx
    an [ArchonAPIError] whose text has the prefix of the method twice,
    then the status code and the body.  They leave the registries as they
    are. *)
Theorem tester_get_agent_error_mapping :
  forall (W : Type) (env : Tester.Collaborators W) (agent_id : string)
         (t : Tester.ArchonTester W) (r : Client.Response) (w' : W),
    (Client.http_get (Tester.transport env) ("/agents/" +:+ agent_id)
       (Tester.world t) = (Return r, w') ->
     gateway_errors_mapped (TesterMore.get_agent env agent_id)
       ("Error getting agent " +:+ agent_id +:+ ": " +:+
        "Error getting agent " +:+ agent_id +:+ ": ")
       t r (Tester.set_world w' t)) /\
    (Client.http_get (Tester.transport env)
       ("/agents/" +:+ agent_id +:+ "/metrics") (Tester.world t)
       = (Return r, w') ->
     gateway_errors_mapped (TesterMore.get_agent_metrics env agent_id)
       ("Error getting metrics for agent " +:+ agent_id +:+ ": " +:+
        "Error getting metrics for agent " +:+ agent_id +:+ ": ")
       t r (Tester.set_world w' t)) /\
    registries_kept (TesterMore.get_agent env agent_id) /\
    registries_kept (TesterMore.get_agent_metrics env agent_id).
Proof.
  intros W env agent_id t r w'. split; [|split; [|split]].
  - intros Hsend.
    refine (tester_guarded_call_maps _ _ _ _ _ _ _ _
              (guarded_call_maps_errors _ _ _ _ _ _ _ Hsend)).
    + intros m. cbn [exn_str]. apply double_diag.
    + intros e. apply diag_assoc.
  - intros Hsend.
    refine (tester_guarded_call_maps _ _ _ _ _ _ _ _
              (guarded_call_maps_errors _ _ _ _ _ _ _ Hsend)).
    + intros m. cbn [exn_str]. apply double_diag.
    + intros e. apply diag_assoc.
  - apply tester_guarded_call_keeps.
  - apply tester_guarded_call_keeps.
Qed.

Lemma tester_get_agent_error_mapping_witness :
  TesterMore.get_agent (sample_env (Return server_error_response) (Return tt))
    "agent-1" fresh_tester
  = (Raise (Exn ArchonAPIError
              ("Error getting agent agent-1: Error getting agent agent-1: "
               +:+ "API error: 500 - boom")),
     Tester.set_world ["GET /agents/agent-1"] fresh_tester).
Proof.
  apply (proj1 (tester_get_agent_error_mapping (list string)
                  (sample_env (Return server_error_response) (Return tt))
                  "agent-1" fresh_tester server_error_response
                  ["GET /agents/agent-1"]));
    [reflexivity | reflexivity | discriminate].
Defined.

(** X16. [ArchonTester.list_agents] and [list_available_models] return
    what the client returns, turn every [Exception] of the client into an
    [ArchonAPIError], respectively an [OpenRouterAPIError], with the text
    of the cause after their prefix, let pass what is not an [Exception],
    and leave the registries as they are. *)
Theorem tester_listing_wraps_all :
  forall (W : Type) (sur : TesterMore.Surroundings W) (limit offset : Z),
    wraps_all
      (ClientMore.list_agents (TesterMore.requests sur) limit offset)
      (TesterMore.list_agents sur limit offset)
      ArchonAPIError "Error listing agents: " /\
    wraps_all (TesterMore.list_models sur)
      (TesterMore.list_available_models sur)
      OpenRouterAPIError "Error listing models: " /\
    registries_kept (TesterMore.list_agents sur limit offset) /\
    registries_kept (TesterMore.list_available_models sur).
Proof.
  intros W sur limit offset. split; [|split; [|split]].
  - by apply tester_wrapping_call_wraps.
  - by apply tester_wrapping_call_wraps.
  - apply tester_wrapping_call_keeps.
  - apply tester_wrapping_call_keeps.
Qed.

Lemma tester_listing_wraps_all_witness :
  TesterMore.list_agents
    (sample_surroundings (Return not_found_response) (Return (PList [])))
    100 0 fresh_tester
  = (Raise (Exn ArchonAPIError
              ("Error listing agents: " +:+
               "Error listing agents: Agent not found: no such agent")),
     Tester.set_world ["GET /agents"] fresh_tester).
Proof.
  apply (proj1 (proj2 (proj1 (tester_listing_wraps_all (list string)
                         (sample_surroundings (Return not_found_response)
                            (Return (PList []))) 100 0)
                         fresh_tester ["GET /agents"])
                  (Exn ArchonAPIError
                     "Error listing agents: Agent not found: no such agent")
                  eq_refl)).
  reflexivity.
Defined.

Lemma create_custom_test_suite_steps {W : Type}
    (env : Tester.Collaborators W) (sur : TesterMore.Surroundings W)
    (name description : string) (cases : list TestCase)
    (tags : option (list string)) (t : Tester.ArchonTester W) :
  let '(u, w1) := Tester.uuid4 env (Tester.world t) in
  let '(created, w2) := TesterMore.now sur w1 in
  let '(updated, w3) := TesterMore.now sur w2 in
  let suite := MkTestSuite u name description (map tc_id cases)
                 (default ["custom"] tags) created updated in
  exists t',
    TesterMore.create_custom_test_suite env sur name description cases tags t
    = (Return suite, t') /\
    Tester.test_suites t' = <[u := suite]> (Tester.test_suites t) /\
    Tester.test_cases t' = Tester.test_cases t /\
    Tester.test_runs t' = Tester.test_runs t /\
    Tester.world t' = w3 /\
    Tester.engine_test_suites t'
      = <[u := suite]> (Tester.engine_test_suites t).
Proof.
  unfold TesterMore.create_custom_test_suite, TesterMore.TestSuite_new, bind,
    modify, ret, Tester.in_world, Tester.register_test_suite.
  destruct (Tester.uuid4 env (Tester.world t)) as [u w1]. cbn.
  destruct (TesterMore.now sur w1) as [created w2].
  destruct (TesterMore.now sur w2) as [updated w3]. cbn.
  eexists. split; [reflexivity|]. by repeat split.
Qed.

(** X17. [create_custom_test_suite] does not fail, whatever the test
    cases, an empty list included: it returns a suite whose id is the
    uuid drawn, whose test case ids are those of the cases in their
    order, whose tags default to ["custom"], and whose two time stamps
    are two successive readings of the clock; it registers the suite
    under its id and leaves the test cases and the runs of the tester as
    they are, so the cases themselves are not registered by it. *)
Theorem create_custom_test_suite_registers :
  forall (W : Type) (env : Tester.Collaborators W)
         (sur : TesterMore.Surroundings W) (name description : string)
         (cases : list TestCase) (tags : option (list string))
         (t : Tester.ArchonTester W),
    exists suite t',
      TesterMore.create_custom_test_suite env sur name description cases tags t
      = (Return suite, t') /\
      ts_id suite = fst (Tester.uuid4 env (Tester.world t)) /\
      ts_name suite = name /\ ts_description suite = description /\
      ts_test_cases suite = map tc_id cases /\
      ts_tags suite = default ["custom"] tags /\
      ts_created_at suite
        = fst (TesterMore.now sur (snd (Tester.uuid4 env (Tester.world t)))) /\
      ts_updated_at suite
        = fst (TesterMore.now sur
                 (snd (TesterMore.now sur
                         (snd (Tester.uuid4 env (Tester.world t)))))) /\
      Tester.test_suites t' = <[ts_id suite := suite]> (Tester.test_suites t) /\
      Tester.test_cases t' = Tester.test_cases t /\
      Tester.test_runs t' = Tester.test_runs t.
Proof.
  intros W env sur name description cases tags t.
  pose proof (create_custom_test_suite_steps env sur name description cases
                tags t) as H.
  destruct (Tester.uuid4 env (Tester.world t)) as [u w1]. cbn.
  destruct (TesterMore.now sur w1) as [created w2]. cbn.
  destruct (TesterMore.now sur w2) as [updated w3]. cbn.
  destruct H as (t' & Hcall & Hs & Hc & Hr & _).
  eexists _, t'. split; [exact Hcall|]. by repeat split.
Qed.

(** X18. A suite made by [create_custom_test_suite] is registered, with
    the tester and with the engine, when it comes back from it, so
    [test_agent] called with that suite finds it and writes neither suite
    registry again: the engine is asked to run the suite on the
    registries that the creation left, and after a run that completes
    both suite registries are those, with the suite under its id. *)
Theorem created_suite_is_run_as_registered :
  forall (W : Type) (env : Tester.Collaborators W)
         (sur : TesterMore.Surroundings W) (name description : string)
         (cases : list TestCase) (tags : option (list string))
         (agent_id : string) (t t1 : Tester.ArchonTester W)
         (suite : TestSuite) (agent : pyval) (run : TestRun) (w1 w2 w3 : W),
    TesterMore.create_custom_test_suite env sur name description cases tags t
      = (Return suite, t1) ->
    Client.get_agent (Tester.transport env) agent_id (Tester.world t1)
      = (Return agent, w1) ->
    Tester.execute_test_suite env (Tester.engine_test_cases t1)
      (Tester.engine_test_suites t1) (ts_id suite) agent_id w1
      = (Return run, w2) ->
    Tester.update_agent_with_test_results env agent_id run w2
      = (Return tt, w3) ->
    exists t',
      Tester.test_agent env agent_id (inr suite) t1 = (Return run, t') /\
      Tester.test_suites t' = Tester.test_suites t1 /\
      Tester.test_suites t' !! ts_id suite = Some suite /\
      Tester.engine_test_suites t' = Tester.engine_test_suites t1 /\
      Tester.engine_test_suites t' !! ts_id suite = Some suite /\
      Tester.test_runs t' !! run_id run = Some run.
Proof.
  intros W env sur name description cases tags agent_id t t1 suite agent run
         w1 w2 w3 Hcreate Hget Hexec Hupd.
  assert (Hreg : Tester.test_suites t1 !! ts_id suite = Some suite /\
                 Tester.engine_test_suites t1 !! ts_id suite = Some suite).
  { pose proof (create_custom_test_suite_steps env sur name description cases
                  tags t) as H.
    destruct (Tester.uuid4 env (Tester.world t)) as [u wa].
    destruct (TesterMore.now sur wa) as [created wb].
    destruct (TesterMore.now sur wb) as [updated wc].
    destruct H as (t1' & Hcall & Hs & _ & _ & _ & He).
    rewrite Hcreate in Hcall. injection Hcall as -> <-.
    rewrite Hs, He. split; apply lookup_insert_eq. }
  destruct Hreg as [Hreg Hengine].
  assert (Hsuites : engine_suites_with suite t1
                    = Tester.engine_test_suites t1)
    by (unfold engine_suites_with; by rewrite Hreg).
  rewrite <- Hsuites in Hexec.
  destruct (test_agent_body_suite_object env agent_id suite t1 agent run
              w1 w2 w3 Hget Hexec Hupd) as (t' & Hbody & Hr & Hs & He & _).
  exists t'. split; [by apply test_agent_Return|]. rewrite Hreg in Hs.
  rewrite Hsuites in He.
  split; [exact Hs|]. split; [by rewrite Hs|].
  split; [exact He|]. split; [by rewrite He|].
  rewrite Hr. apply lookup_insert_eq.
Qed.

Lemma created_suite_is_run_as_registered_witness :
  exists suite t1 t',
    TesterMore.create_custom_test_suite resolving_env
      (sample_surroundings (Return ok_response) (Return (PList [])))
      "greetings" "all greetings" [sample_case] None fresh_tester
    = (Return suite, t1) /\
    Tester.test_agent resolving_env "agent-1" (inr suite) t1
      = (Return (sample_run "agent-1" "uuid-0"), t') /\
    Tester.test_suites t' = Tester.test_suites t1 /\
    Tester.test_suites t' !! "uuid-0" = Some suite.
Proof.
  destruct (created_suite_is_run_as_registered (list string) resolving_env
              (sample_surroundings (Return ok_response) (Return (PList [])))
              "greetings" "all greetings" [sample_case] None "agent-1"
              fresh_tester _ _ sample_agent (sample_run "agent-1" "uuid-0")
              _ _ _ eq_refl eq_refl eq_refl eq_refl)
    as (t' & Hcall & Hsame & Hreg & _).
  match type of Hcall with
  | Tester.test_agent _ _ (inr ?s) ?t1 = _ => exists s, t1, t'
  end.
  split; [reflexivity|]. split; [exact Hcall|].
  split; [exact Hsame | exact Hreg].
Defined.

(* ===================================================================== *)
(** * Properties of the commands *)
(* ===================================================================== *)

Section Commands.
Context {W : Type} (env : Tester.Collaborators W) (sh : Cli.Shell W).

(** What the two closing handlers do with an exception, when the console
    and the logger do not raise. *)
Lemma handlers_exit {A} (e0 : exn) (w : W) :
  shell_shows_all sh ->
  exists w',
    dispatch Cli.globals e0 (Cli.handlers sh (A := A)) w
    = (Raise (if isinstance e0 Exception then Exn SystemExit "1" else e0), w').
Proof.
  intros [Hprint Hlog]. unfold Cli.handlers. cbn. rewrite !orb_false_r.
  destruct (isinstance e0 ArchonAgentTesterError) eqn:Ht.
  - assert (He : isinstance e0 Exception = true)
      by (destruct e0 as [[] m]; by vm_compute in Ht |- *).
    rewrite He. unfold bind.
    destruct (Hprint ("[bold red]Error:[/bold red] " +:+ exn_str e0) w)
      as [w1 ->].
    by exists w1.
  - destruct (isinstance e0 Exception); [|by exists w].
    unfold bind.
    destruct (Hprint ("[bold red]Unexpected error:[/bold red] " +:+ exn_str e0)
                w) as [w1 ->].
    destruct (Hlog "Unexpected error" e0 w1) as [w2 ->].
    by exists w2.
Qed.

Lemma command_exits_cleanly {A} (body : py W A) :
  shell_shows_all sh ->
  exits_cleanly (try_except Cli.globals body (Cli.handlers sh)).
Proof.
  intros Hsh w e w' H.
  apply try_except_Raise_inv in H as (e0 & w0 & _ & Hd).
  destruct (handlers_exit (A := A) e0 w0 Hsh) as [w1 Hd'].
  rewrite Hd' in Hd. injection Hd as <- <-.
  by destruct (isinstance e0 Exception) eqn:He.
Qed.

Lemma tester_error_is_exception e :
  isinstance e ArchonAgentTesterError = true -> isinstance e Exception = true.
Proof. destruct e as [[] m]; intros H; by vm_compute in H |- *. Qed.

(** The two handlers, exception by exception. *)
Lemma command_reports_and_exits {A} (body : py W A) :
  reports_and_exits sh body (try_except Cli.globals body (Cli.handlers sh)).
Proof.
  intros w. split.
  - intros e0 w0 Hbody. rewrite (try_except_Raise _ _ _ _ _ _ Hbody).
    unfold Cli.handlers. cbn. rewrite !orb_false_r. split; [|split].
    + intros Ht w1 Hprint. rewrite Ht. unfold bind. by rewrite Hprint.
    + intros Ht He w1 w2 Hprint Hlog. rewrite Ht, He. unfold bind.
      by rewrite Hprint, Hlog.
    + intros He.
      destruct (isinstance e0 ArchonAgentTesterError) eqn:Ht.
      * apply tester_error_is_exception in Ht. congruence.
      * by rewrite He.
  - intros a w0 Hbody. by apply try_except_Return.
Qed.

End Commands.

(** X20. [test] without credentials: when the Archon key is missing or
    empty, as an option and in the environment, the command prints that
    the key is required and exits with status 1, and the world is then
    what that one print left, so no request was sent; the same holds
    for the OpenRouter key once the Archon key is there. *)
Theorem test_requires_credentials :
  forall (W : Type) (env : Tester.Collaborators W) (sh : Cli.Shell W)
         (agent_id test_type report_format : string)
         (archon_api_key openrouter_api_key : option string) (w w' : W),
    (Cli.truthy (Cli.py_or archon_api_key
                   (Cli.environ sh "ARCHON_API_KEY")) = false ->
     Cli.console_print sh
       "[bold red]Error:[/bold red] Archon API key is required" w
       = (Return tt, w') ->
     Cli.test env sh agent_id test_type report_format archon_api_key
       openrouter_api_key w = (Raise (Exn SystemExit "1"), w')) /\
    (Cli.truthy (Cli.py_or archon_api_key
                   (Cli.environ sh "ARCHON_API_KEY")) = true ->
     Cli.truthy (Cli.py_or openrouter_api_key
                   (Cli.environ sh "OPENROUTER_API_KEY")) = false ->
     Cli.console_print sh
       "[bold red]Error:[/bold red] OpenRouter API key is required" w
       = (Return tt, w') ->
     Cli.test env sh agent_id test_type report_format archon_api_key
       openrouter_api_key w = (Raise (Exn SystemExit "1"), w')).
Proof.
  intros W env sh agent_id test_type report_format archon_api_key
         openrouter_api_key w w'.
  split.
  - intros Hkey Hprint. unfold Cli.test, Cli.test_body.
    erewrite try_except_Raise.
    2:{ apply bind_Raise. rewrite Hkey. cbn [negb].
        unfold bind. by rewrite Hprint. }
    reflexivity.
  - intros Hkey Hkey' Hprint. unfold Cli.test, Cli.test_body.
    erewrite try_except_Raise.
    2:{ rewrite Hkey. cbn [negb]. erewrite bind_Return; [|reflexivity].
        apply bind_Raise. rewrite Hkey'. cbn [negb].
        unfold bind. by rewrite Hprint. }
    reflexivity.
Qed.

Lemma test_requires_credentials_witness :
  Cli.test (sample_env (Return ok_response) (Return tt))
    (sample_shell (fun _ => None)) "agent-1" "functional" "html"
    (Some "") (Some "or-key") []
  = (Raise (Exn SystemExit "1"),
     ["print [bold red]Error:[/bold red] Archon API key is required"]).
Proof.
  apply (proj1 (test_requires_credentials (list string)
                  (sample_env (Return ok_response) (Return tt))
                  (sample_shell (fun _ => None)) "agent-1" "functional"
                  "html" (Some "") (Some "or-key") []
                  ["print [bold red]Error:[/bold red] Archon API key is required"]));
    reflexivity.
Defined.

(** X21. [test] and [create_test_case] close with the same two
    handlers.  An [ArchonAgentTesterError] raised under the [try] is
    printed after "Error:" and the command exits with status 1; any
    other [Exception] is printed after "Unexpected error:", logged, and
    the command exits with status 1; what is not an [Exception] passes
    unchanged, and a block that returns makes the command return.  So,
    when the console and the logger do not raise, no [Exception] leaves
    either command. *)
Theorem commands_exit_cleanly :
  forall (W : Type) (env : Tester.Collaborators W) (sh : Cli.Shell W)
         (agent_id test_type report_format : string)
         (archon_api_key openrouter_api_key : option string)
         (name description prompt output_file : string),
    reports_and_exits sh
      (Cli.test_body env sh agent_id test_type report_format archon_api_key
         openrouter_api_key)
      (Cli.test env sh agent_id test_type report_format archon_api_key
         openrouter_api_key) /\
    reports_and_exits sh
      (Cli.create_test_case_body env sh name description test_type prompt
         output_file)
      (Cli.create_test_case env sh name description test_type prompt
         output_file) /\
    (shell_shows_all sh ->
     exits_cleanly (Cli.test env sh agent_id test_type report_format
                      archon_api_key openrouter_api_key) /\
     exits_cleanly (Cli.create_test_case env sh name description test_type
                      prompt output_file)).
Proof.
  intros. split; [|split].
  - apply command_reports_and_exits.
  - apply command_reports_and_exits.
  - intros Hsh. split; by apply command_exits_cleanly.
Qed.

Lemma sample_shell_shows_all vars : shell_shows_all (sample_shell vars).
Proof. split; intros; eexists; reflexivity. Qed.

Lemma commands_exit_cleanly_witness :
  Cli.test (sample_env (Return server_error_response) (Return tt))
    (sample_shell (fun _ => Some "key")) "agent-1" "functional" "html"
    None None []
  = (Raise (Exn SystemExit "1"),
     ["print [bold]Testing agent agent-1 with functional tests...[/bold]";
      "GET /agents/agent-1";
      "print [bold red]Error:[/bold red] Error testing agent agent-1: Error getting agent agent-1: API error: 500 - boom"]) /\
  Cli.create_test_case (sample_env (Return ok_response) (Return tt))
    (sample_shell (fun _ => None)) "greets" "the agent greets" "it's"
    "hello" "test_case.json" []
  = (Raise (Exn SystemExit "1"),
     ["print [bold red]Unexpected error:[/bold red] " +:+
      String double_quote
        ("it's" +:+ String double_quote " is not a valid TestType");
      "log Unexpected error"]).
Proof.
  split.
  - apply (proj1 (proj1 (proj1 (commands_exit_cleanly (list string)
                    (sample_env (Return server_error_response) (Return tt))
                    (sample_shell (fun _ => Some "key")) "agent-1"
                    "functional" "html" None None "greets"
                    "the agent greets" "hello" "test_case.json") [])
             (Exn ArchonAgentTesterError
                ("Error testing agent agent-1: " +:+
                 "Error getting agent agent-1: API error: 500 - boom"))
             ["print [bold]Testing agent agent-1 with functional tests...[/bold]";
              "GET /agents/agent-1"] eq_refl)); reflexivity.
  - refine (proj1 (proj2 (proj1 (proj1 (proj2 (commands_exit_cleanly
                    (list string)
                    (sample_env (Return ok_response) (Return tt))
                    (sample_shell (fun _ => None)) "agent-1" "it's" "html"
                    None None "greets" "the agent greets" "hello"
                    "test_case.json")) [])
             (Exn ValueError
                (String double_quote
                   ("it's" +:+
                    String double_quote " is not a valid TestType")))
             [] eq_refl)) eq_refl eq_refl
            ["print [bold red]Unexpected error:[/bold red] " +:+
             String double_quote
               ("it's" +:+ String double_quote " is not a valid TestType")]
            _ eq_refl eq_refl).
Defined.

Lemma create_custom_test_case_steps {W : Type}
    (env : Tester.Collaborators W) (name description : string)
    (test_type : TestType) (inputs : gmap string input_value)
    (expected_outputs : option (gmap string input_value))
    (criteria : gmap string criterion_value) (tags : option (list string))
    (timeout : Z) (t : Tester.ArchonTester W) :
  criteria <> ∅ ->
  let '(u, w') := Tester.uuid4 env (Tester.world t) in
  let tc := MkTestCase u name description test_type inputs expected_outputs
              (validate_criterion_value
                 (fun f => Tester.str_of env (PFloat f)) <$> criteria)
              (default [TestType_value test_type; "custom"] tags)
              timeout in
  Tester.create_custom_test_case env name description test_type inputs
    expected_outputs (Some criteria) tags timeout t
  = (Return tc, register_step tc (Tester.set_world w' t)).
Proof.
  intros Hne.
  unfold Tester.create_custom_test_case, bind at 1, Tester.in_world.
  destruct (Tester.uuid4 env (Tester.world t)) as [u w'].
  unfold bind at 1, lift.
  rewrite (TestCase_new_with_criteria _ _ _ _ _ _ _ _ _ _ Hne).
  reflexivity.
Qed.

(** X22. [create_test_case] looks the test type up after [str.lower], so
    a name that lower-cases to a member value is accepted: the test case
    dumped to the file has the uuid drawn as id, the prompt as its only
    input, the one default criterion, the tags [type, "custom"] and the
    timeout 30, and the command returns once the dump and the last print
    return.  A name that does not lower-case to a member value is
    reported as unexpected and the command exits with status 1 before
    anything is dumped; what is printed and logged holds the [repr] of
    the lower-cased name. *)
Theorem create_test_case_lowers_type :
  forall (W : Type) (env : Tester.Collaborators W) (sh : Cli.Shell W)
         (name description test_type prompt output_file : string) (w : W),
    (forall kind w2 w3,
       TestType_of_value (Cli.str_lower sh test_type) = Return kind ->
       Cli.dump_json sh output_file
         (MkTestCase (fst (Tester.uuid4 env w)) name description kind
            {[ "prompt" := InStr prompt ]} None
            {[ "response_not_empty" :=
                 CrStr "The agent should provide a non-empty response" ]}
            [TestType_value kind; "custom"] 30)
         (snd (Tester.uuid4 env w)) = (Return tt, w2) ->
       Cli.console_print sh
         ("[bold]Test case created and saved to " +:+ output_file +:+
          "[/bold]") w2 = (Return tt, w3) ->
       Cli.create_test_case env sh name description test_type prompt
         output_file w = (Return tt, w3)) /\
    (forall w1 w2,
       (forall kind, TestType_value kind <> Cli.str_lower sh test_type) ->
       Cli.console_print sh
         ("[bold red]Unexpected error:[/bold red] " +:+
          repr_str (Cli.str_lower sh test_type) +:+
          " is not a valid TestType") w
         = (Return tt, w1) ->
       Cli.logger_exception sh "Unexpected error"
         (Exn ValueError
            (repr_str (Cli.str_lower sh test_type) +:+
             " is not a valid TestType")) w1 = (Return tt, w2) ->
       Cli.create_test_case env sh name description test_type prompt
         output_file w = (Raise (Exn SystemExit "1"), w2)).
Proof.
  intros W env sh name description test_type prompt output_file w. split.
  - intros kind w2 w3 Hkind Hdump Hprint.
    unfold Cli.create_test_case, Cli.create_test_case_body.
    apply try_except_Return.
    erewrite bind_Return; [|reflexivity].
    erewrite bind_Return; [|unfold lift; by rewrite Hkind].
    assert (Hd : ({[ "response_not_empty" :=
                       CrStr "The agent should provide a non-empty response" ]}
                    : gmap string criterion_value) <> ∅)
      by apply insert_non_empty.
    pose proof (create_custom_test_case_steps env name description kind
                  {[ "prompt" := InStr prompt ]} None _ None 30
                  (Cli.ArchonTester_new sh w) Hd) as Hcreate.
    rewrite map_fmap_singleton in Hcreate.
    cbn [validate_criterion_value] in Hcreate.
    cbn [Tester.world Cli.ArchonTester_new] in Hcreate.
    destruct (Tester.uuid4 env w) as [u w1] eqn:Hu.
    cbn [fst snd] in Hdump.
    erewrite bind_Return.
    2:{ unfold Cli.call_tester.
        change (Tester.set_world w (Cli.ArchonTester_new sh w))
          with (Cli.ArchonTester_new sh w).
        rewrite Hcreate. reflexivity. }
    cbn [fst]. erewrite bind_Return; [|exact Hdump]. exact Hprint.
  - intros w1 w2 Hkind Hprint Hlog.
    unfold Cli.create_test_case, Cli.create_test_case_body.
    erewrite try_except_Raise.
    2:{ erewrite bind_Return; [|reflexivity].
        apply bind_Raise. unfold lift.
        by rewrite (TestType_of_value_invalid _ Hkind). }
    assert (H1 : forall m, isinstance (Exn ValueError m)
                             ArchonAgentTesterError = false) by reflexivity.
    assert (H2 : forall m, isinstance (Exn ValueError m) Exception = true)
      by reflexivity.
    cbn. rewrite H1, H2. cbn. unfold bind. by rewrite Hprint, Hlog.
Qed.

Lemma create_test_case_lowers_type_witness :
  Cli.create_test_case (sample_env (Return ok_response) (Return tt))
    (sample_shell (fun _ => None)) "greets" "the agent greets" "Safety"
    "hello" "test_case.json" []
  = (Return tt,
     ["uuid4"; "write test_case.json";
      "print [bold]Test case created and saved to test_case.json[/bold]"]) /\
  Cli.create_test_case (sample_env (Return ok_response) (Return tt))
    (sample_shell (fun _ => None)) "greets" "the agent greets" "IT'S"
    "hello" "test_case.json" []
  = (Raise (Exn SystemExit "1"),
     ["print [bold red]Unexpected error:[/bold red] " +:+
      String double_quote
        ("it's" +:+ String double_quote " is not a valid TestType");
      "log Unexpected error"]).
Proof.
  split.
  - apply (proj1 (create_test_case_lowers_type (list string)
                    (sample_env (Return ok_response) (Return tt))
                    (sample_shell (fun _ => None)) "greets" "the agent greets"
                    "Safety" "hello" "test_case.json" [])
             SAFETY ["uuid4"; "write test_case.json"]); reflexivity.
  - apply (proj2 (create_test_case_lowers_type (list string)
                    (sample_env (Return ok_response) (Return tt))
                    (sample_shell (fun _ => None)) "greets" "the agent greets"
                    "IT'S" "hello" "test_case.json" [])
             ["print [bold red]Unexpected error:[/bold red] " +:+
              String double_quote
                ("it's" +:+ String double_quote " is not a valid TestType")]);
      try reflexivity.
    by intros [].
Defined.

Section TestCommand.
Context {W : Type} (env : Tester.Collaborators W) (sh : Cli.Shell W).

(** With both keys there, [test] is what follows the two checks. *)
Lemma test_with_keys agent_id test_type report_format archon_api_key
    openrouter_api_key (w w1 : W) :
  Cli.truthy (Cli.py_or archon_api_key
                (Cli.environ sh "ARCHON_API_KEY")) = true ->
  Cli.truthy (Cli.py_or openrouter_api_key
                (Cli.environ sh "OPENROUTER_API_KEY")) = true ->
  Cli.console_print sh
    ("[bold]Testing agent " +:+ agent_id +:+ " with " +:+ test_type
     +:+ " tests...[/bold]") w = (Return tt, w1) ->
  Cli.test env sh agent_id test_type report_format archon_api_key
    openrouter_api_key w
  = try_except Cli.globals
      (bind (Cli.call_tester
               (Tester.test_agent env agent_id (inl test_type))
               (Cli.ArchonTester_new sh w))
         (fun tested =>
            bind (Cli.console_print sh (nl +:+ "[bold]Test Results:[/bold]"))
              (fun _ =>
                 bind (Cli.console_print_table sh ["Metric"; "Value"]
                         (Cli.result_rows (fst tested)))
                   (fun _ =>
                      bind (Cli.call_tester
                              (Tester.generate_report env (inr (fst tested))
                                 report_format) (snd tested))
                        (fun reported =>
                           Cli.console_print sh
                             (nl +:+ "[bold]Report generated:[/bold] " +:+
                              fst reported))))))
      (Cli.handlers sh) w1.
Proof.
  intros Ha Ho Hprint. unfold Cli.test, Cli.test_body, try_except.
  rewrite Ha, Ho. cbn [negb]. unfold bind at 1 2 3 4, ret, gets.
  by rewrite Hprint.
Qed.

End TestCommand.

(** X23. [test] passes the type name to [test_agent] as it is given: a
    name that is not a member value, a capitalised one for instance, is
    only found out after the agent has been fetched; the command then
    prints the error of [test_agent], which holds the [repr] of the
    name, and exits with status 1. *)
Theorem test_rejects_unknown_type_after_fetch :
  forall (W : Type) (env : Tester.Collaborators W) (sh : Cli.Shell W)
         (agent_id test_type report_format : string)
         (archon_api_key openrouter_api_key : option string)
         (agent : pyval) (w w1 w2 w3 : W),
    Cli.truthy (Cli.py_or archon_api_key
                  (Cli.environ sh "ARCHON_API_KEY")) = true ->
    Cli.truthy (Cli.py_or openrouter_api_key
                  (Cli.environ sh "OPENROUTER_API_KEY")) = true ->
    (forall ty, TestType_value ty <> test_type) ->
    Cli.console_print sh
      ("[bold]Testing agent " +:+ agent_id +:+ " with " +:+ test_type
       +:+ " tests...[/bold]") w = (Return tt, w1) ->
    Client.get_agent (Tester.transport env) agent_id w1 = (Return agent, w2) ->
    Cli.console_print sh
      ("[bold red]Error:[/bold red] " +:+ "Error testing agent " +:+
       agent_id +:+ ": " +:+ repr_str test_type +:+
       " is not a valid TestType") w2
      = (Return tt, w3) ->
    Cli.test env sh agent_id test_type report_format archon_api_key
      openrouter_api_key w = (Raise (Exn SystemExit "1"), w3).
Proof.
  intros W env sh agent_id test_type report_format archon_api_key
         openrouter_api_key agent w w1 w2 w3 Ha Ho Hkind Hhead Hget Hprint.
  rewrite (test_with_keys env sh _ _ _ _ _ _ _ Ha Ho Hhead).
  rewrite (try_except_Raise Cli.globals _ _ w1
             (Exn ArchonAgentTesterError
                ("Error testing agent " +:+ agent_id +:+ ": " +:+
                 repr_str test_type +:+ " is not a valid TestType")) w2).
  2:{ apply bind_Raise. unfold Cli.call_tester.
      change (Tester.set_world w1 (Cli.ArchonTester_new sh w))
        with (Cli.ArchonTester_new sh w1).
      rewrite (test_agent_Raise env _ _ _ _ _
                 (test_agent_body_invalid_type env agent_id test_type
                    (Cli.ArchonTester_new sh w1) agent w2 Hget Hkind)).
      reflexivity. }
  assert (H1 : forall m, isinstance (Exn ArchonAgentTesterError m)
                           ArchonAgentTesterError = true) by reflexivity.
  cbn. rewrite H1. cbn. unfold bind. by rewrite Hprint.
Qed.

Lemma test_rejects_unknown_type_after_fetch_witness :
  Cli.test (sample_env (Return ok_response) (Return tt))
    (sample_shell (fun _ => Some "key")) "agent-1" "Functional" "html"
    None None []
  = (Raise (Exn SystemExit "1"),
     ["print [bold]Testing agent agent-1 with Functional tests...[/bold]";
      "GET /agents/agent-1";
      "print [bold red]Error:[/bold red] Error testing agent agent-1: 'Functional' is not a valid TestType"]).
Proof.
  apply (test_rejects_unknown_type_after_fetch (list string)
           (sample_env (Return ok_response) (Return tt))
           (sample_shell (fun _ => Some "key")) "agent-1" "Functional" "html"
           None None sample_agent []
           ["print [bold]Testing agent agent-1 with Functional tests...[/bold]"]
           ["print [bold]Testing agent agent-1 with Functional tests...[/bold]";
            "GET /agents/agent-1"]);
    try reflexivity.
  by intros [].
Defined.

(** X24. [test] after a run that [test_agent] returned: the results are
    printed, then the report is asked for the run object.  When the
    report generator returns a path, the path is printed and the command
    returns.  When anything is raised while the report is generated, what
    the command shows is not that failure but the unexpected error
    "name 'TestRunNotFoundError' is not defined", and it exits with
    status 1. *)
Theorem test_reports_after_run :
  forall (W : Type) (env : Tester.Collaborators W) (sh : Cli.Shell W)
         (agent_id test_type report_format : string)
         (archon_api_key openrouter_api_key : option string)
         (run : TestRun) (t1 t2 : Tester.ArchonTester W) (w w1 w2 w3 : W),
    Cli.truthy (Cli.py_or archon_api_key
                  (Cli.environ sh "ARCHON_API_KEY")) = true ->
    Cli.truthy (Cli.py_or openrouter_api_key
                  (Cli.environ sh "OPENROUTER_API_KEY")) = true ->
    Cli.console_print sh
      ("[bold]Testing agent " +:+ agent_id +:+ " with " +:+ test_type
       +:+ " tests...[/bold]") w = (Return tt, w1) ->
    Tester.test_agent env agent_id (inl test_type) (Cli.ArchonTester_new sh w1)
      = (Return run, t1) ->
    Cli.console_print sh (nl +:+ "[bold]Test Results:[/bold]")
      (Tester.world t1) = (Return tt, w2) ->
    Cli.console_print_table sh ["Metric"; "Value"] (Cli.result_rows run) w2
      = (Return tt, w3) ->
    (forall path w4,
       Tester.generate_report env (inr run) report_format
         (Tester.set_world w3 t1) = (Return path, t2) ->
       Cli.console_print sh
         (nl +:+ "[bold]Report generated:[/bold] " +:+ path)
         (Tester.world t2) = (Return tt, w4) ->
       Cli.test env sh agent_id test_type report_format archon_api_key
         openrouter_api_key w = (Return tt, w4)) /\
    (forall e w4 w5,
       Tester.generate_report env (inr run) report_format
         (Tester.set_world w3 t1) = (Raise e, t2) ->
       Cli.console_print sh
         ("[bold red]Unexpected error:[/bold red] " +:+
          "name 'TestRunNotFoundError' is not defined")
         (Tester.world t2) = (Return tt, w4) ->
       Cli.logger_exception sh "Unexpected error"
         (Exn NameError "name 'TestRunNotFoundError' is not defined") w4
         = (Return tt, w5) ->
       Cli.test env sh agent_id test_type report_format archon_api_key
         openrouter_api_key w = (Raise (Exn SystemExit "1"), w5)).
Proof.
  intros W env sh agent_id test_type report_format archon_api_key
         openrouter_api_key run t1 t2 w w1 w2 w3 Ha Ho Hhead Hrun Hres Htab.
  rewrite (test_with_keys env sh _ _ _ _ _ _ _ Ha Ho Hhead).
  assert (Htested :
            Cli.call_tester (Tester.test_agent env agent_id (inl test_type))
              (Cli.ArchonTester_new sh w) w1
            = (Return (run, t1), Tester.world t1)).
  { unfold Cli.call_tester.
    change (Tester.set_world w1 (Cli.ArchonTester_new sh w))
      with (Cli.ArchonTester_new sh w1).
    by rewrite Hrun. }
  split.
  - intros path w4 Hgen Hprint. apply try_except_Return.
    rewrite (bind_Return _ _ _ _ _ Htested). cbn [fst snd].
    rewrite (bind_Return _ _ _ _ _ Hres), (bind_Return _ _ _ _ _ Htab).
    erewrite bind_Return; [|unfold Cli.call_tester; by rewrite Hgen].
    exact Hprint.
  - intros e w4 w5 Hgen Hprint Hlog.
    pose proof (generate_report_Raise_inv _ _ _ _ _ _ Hgen) as ->.
    erewrite try_except_Raise.
    2:{ rewrite (bind_Return _ _ _ _ _ Htested). cbn [fst snd].
        rewrite (bind_Return _ _ _ _ _ Hres), (bind_Return _ _ _ _ _ Htab).
        apply bind_Raise. unfold Cli.call_tester. by rewrite Hgen. }
    assert (H1 : forall m, isinstance (Exn NameError m)
                             ArchonAgentTesterError = false) by reflexivity.
    assert (H2 : forall m, isinstance (Exn NameError m) Exception = true)
      by reflexivity.
    cbn. rewrite H1, H2. cbn. unfold bind. by rewrite Hprint, Hlog.
Qed.

Lemma test_reports_after_run_witness :
  Cli.test failing_report_env (sample_shell (fun _ => Some "key")) "agent-1"
    "functional" "pdf" None None []
  = (Raise (Exn SystemExit "1"),
     ["print [bold]Testing agent agent-1 with functional tests...[/bold]";
      "GET /agents/agent-1"; "generate_test_cases_for_agent";
      "create_test_suite"; "execute_test_suite";
      "update_agent_with_test_results";
      "print " +:+ nl +:+ "[bold]Test Results:[/bold]"; "print table";
      "generate_report";
      "print [bold red]Unexpected error:[/bold red] name 'TestRunNotFoundError' is not defined";
      "log Unexpected error"]).
Proof.
  eapply (proj2 (test_reports_after_run (list string) failing_report_env
                   (sample_shell (fun _ => Some "key")) "agent-1" "functional"
                   "pdf" None None (sample_run "agent-1" "suite-1") _ _ [] _ _
                   _ eq_refl eq_refl eq_refl eq_refl eq_refl eq_refl));
    reflexivity.
Defined.

Lemma create_custom_test_case_Return_inv {W : Type}
    (env : Tester.Collaborators W) (name description : string)
    (test_type : TestType) (inputs : gmap string input_value)
    (expected_outputs : option (gmap string input_value))
    (criteria : option (gmap string criterion_value))
    (tags : option (list string)) (timeout : Z)
    (t t1 : Tester.ArchonTester W) (tc : TestCase) :
  Tester.create_custom_test_case env name description test_type inputs
    expected_outputs criteria tags timeout t = (Return tc, t1) ->
  Tester.test_cases t1 !! tc_id tc = Some tc /\
  tc_evaluation_criteria tc <> ∅ /\
  Tester.test_suites t1 = Tester.test_suites t /\
  Tester.test_runs t1 = Tester.test_runs t.
Proof.
  unfold Tester.create_custom_test_case. intros H.
  apply bind_Return_inv in H as (u & t0 & Hu & H).
  apply in_world_keeps in Hu as [_ Ht0].
  apply bind_Return_inv in H as (tc' & t0' & Hnew & H).
  unfold lift in Hnew. injection Hnew as Hnew <-.
  apply bind_Return_inv in H as ([] & ta & Ha & H).
  apply bind_Return_inv in H as ([] & tb & Hb & H).
  unfold modify in Ha, Hb. injection Ha as <-. injection Hb as <-.
  unfold ret in H. injection H as <- <-.
  split; [apply lookup_insert_eq|].
  split; [|by rewrite Ht0].
  unfold TestCase_new, validate_criteria in Hnew.
  match type of Hnew with
  | context [(size ?c =? 0)%nat] =>
      destruct (size c =? 0)%nat eqn:Hsz; [discriminate|]
  end.
  cbn in Hnew. injection Hnew as <-. cbn.
  intros Hemp. rewrite Hemp, map_size_empty in Hsz. discriminate.
Qed.

(** X19. A test case that [create_custom_test_case] returned and a suite
    that [create_custom_test_suite] then makes of it fit together: the
    suite refers to the case by its id, that id resolves to the case in
    the registry of the tester, the suite is registered under its own
    id, and the criteria of the case are not empty. *)
Theorem created_case_resolves_in_created_suite :
  forall (W : Type) (env : Tester.Collaborators W)
         (sur : TesterMore.Surroundings W) (name description : string)
         (test_type : TestType) (inputs : gmap string input_value)
         (expected_outputs : option (gmap string input_value))
         (criteria : option (gmap string criterion_value))
         (tags : option (list string)) (timeout : Z)
         (suite_name suite_description : string)
         (suite_tags : option (list string))
         (t t1 : Tester.ArchonTester W) (tc : TestCase),
    Tester.create_custom_test_case env name description test_type inputs
      expected_outputs criteria tags timeout t = (Return tc, t1) ->
    exists suite t2,
      TesterMore.create_custom_test_suite env sur suite_name
        suite_description [tc] suite_tags t1 = (Return suite, t2) /\
      ts_test_cases suite = [tc_id tc] /\
      (forall k, k ∈ ts_test_cases suite ->
                 Tester.test_cases t2 !! k = Some tc) /\
      Tester.test_suites t2 !! ts_id suite = Some suite /\
      tc_evaluation_criteria tc <> ∅.
Proof.
  intros W env sur name description test_type inputs expected_outputs
         criteria tags timeout suite_name suite_description suite_tags
         t t1 tc Hcase.
  apply create_custom_test_case_Return_inv in Hcase as (Hreg & Hcrit & _ & _).
  pose proof (create_custom_test_suite_steps env sur suite_name
                suite_description [tc] suite_tags t1) as H.
  destruct (Tester.uuid4 env (Tester.world t1)) as [u wa].
  destruct (TesterMore.now sur wa) as [created wb].
  destruct (TesterMore.now sur wb) as [updated wc].
  destruct H as (t2 & Hcall & Hs & Hc & _).
  eexists _, t2. split; [exact Hcall|].
  split; [reflexivity|]. split; [|split; [|exact Hcrit]].
  - intros k Hk. cbn in Hk. apply list_elem_of_singleton in Hk as ->.
    by rewrite Hc.
  - rewrite Hs. apply lookup_insert_eq.
Qed.

Lemma created_case_resolves_in_created_suite_witness :
  exists tc t1 suite t2,
    Tester.create_custom_test_case
      (sample_env (Return ok_response) (Return tt))
      "greets" "the agent greets" CUSTOM sample_prompt None None None 30
      fresh_tester = (Return tc, t1) /\
    TesterMore.create_custom_test_suite
      (sample_env (Return ok_response) (Return tt))
      (sample_surroundings (Return ok_response) (Return (PList [])))
      "greetings" "all greetings" [tc] None t1 = (Return suite, t2) /\
    ts_test_cases suite = [tc_id tc] /\
    Tester.test_cases t2 !! tc_id tc = Some tc.
Proof.
  destruct (created_case_resolves_in_created_suite (list string)
              (sample_env (Return ok_response) (Return tt))
              (sample_surroundings (Return ok_response) (Return (PList [])))
              "greets" "the agent greets" CUSTOM sample_prompt None None None
              30 "greetings" "all greetings" None fresh_tester _ _ eq_refl)
    as (suite & t2 & Hsuite & Hids & Hres & _).
  match type of Hsuite with
  | TesterMore.create_custom_test_suite _ _ _ _ [?c] _ ?s = _ =>
      exists c, s, suite, t2
  end.
  split; [reflexivity|]. split; [exact Hsuite|]. split; [exact Hids|].
  apply Hres. rewrite Hids. by apply list_elem_of_singleton.
Defined.
